(** * Scoring engine and aggregation layer of the sign-language education API

    A shallow embedding of the model methods and controller helpers that
    carry the arithmetic of the platform:

    - [models/Assignment.js]: [submitAssignment], [gradeAssignment];
    - [models/Practice.js]: [calculateTypingMetrics], [evaluateWriting],
      [calculateContentSimilarity];
    - [models/Media.js]: [addView];
    - [controllers/practiceController.js]: [savePractice] and the window
      of [getPracticeStats];
    - [controllers/reportController.js]: the windows of the report
      endpoints, the student-engagement pipeline of [getClassAnalytics]
      and [calculateOverallProgressScore];
    - [models/Class.js] and [controllers/classController.js]: enrolment
      ([addStudent], [removeStudent], joining, adding, removing,
      deleting);
    - [controllers/assignmentController.js] and
      [controllers/mediaController.js]: creating, submitting, grading and
      reading an assignment, typing an upload, reading a media;
    - [middleware/upload.js]: the file filter and the destination;
    - the paging of the list endpoints.

    Conventions of the embedding.

    - A JavaScript [Number] is the rational value ([Q]) of a finite
      double.  Counts, and the sums and differences of the whole numbers
      that the documents hold, are exact.  Where the source divides or
      multiplies on the way to a percentage, an accuracy, a score, a
      typing speed or the progress score, or sums averages, the result
      is the nearest double, ties to the even one ([double], [fadd],
      [fmul], [fdiv]): 23 of 40 is 57.49999999999999 percent, and rounds
      to 57.  [Math.round] is [floor (x + 1/2)] of the double it is
      given.  Every division of the source is guarded by a test on its
      divisor; infinities and NaN are not values of the model, which
      speaks of computations that stay below the largest double.  The
      sums of [reduce_sum], and with them the means of [averageScore],
      [getAverageWatchPercentage] and of the [$avg] accumulator, are
      kept as exact sums and quotients.
    - A string is a sequence of code units below 256 (Latin-1), on which
      [toLowerCase] acts unit by unit.
    - An [ObjectId] is its hexadecimal string; the source compares ids
      through [toString()].
    - A [Date] is its number of milliseconds since the epoch.  Calendar
      fields are read, and [new Date(year, month, day)] is built, in the
      local time of the server, through the offset [LocalTZA] of
      ECMAScript, which every definition that touches the calendar
      takes as its first argument.
    - Mongoose documents are records; a method that mutates [this] takes
      the document and returns the mutated one.  [save()] runs the
      [pre('save')] hook of the schema; writing the document is the
      record store's business.
    - The aggregation stages of the store ([$match], [$group], [$lookup],
      [$unwind], [$project], [$sort]) are functions on lists of
      documents. *)

From Stdlib Require Import List String Ascii Bool Arith ZArith QArith Qround Qminmax Lia.
From Stdlib Require Import Sorting.Sorted Sorting.Permutation Lqa Qpower.
Import ListNotations.

Local Open Scope string_scope.
Local Open Scope Q_scope.

(** ** JavaScript primitives *)

Module JS.

Abbreviation Number := Q (only parsing).

(** [Math.round]: nearest integer, ties towards plus infinity. *)
Definition Math_round (x : Number) : Number := inject_Z (Qfloor (x + (1 # 2))).

Definition Math_max (x y : Number) : Number := Qmax x y.

(** [x < y], [x > y] and [x >= y] on numbers. *)
Definition lt (x y : Number) : bool :=
  match x ?= y with Lt => true | _ => false end.
Definition gt (x y : Number) : bool := lt y x.
Definition ge (x y : Number) : bool := negb (lt x y).

(** [n || d] on a possibly absent number: [undefined] and [0] are falsy. *)
Definition number_or (n : option Number) (d : Number) : Number :=
  match n with
  | Some x => if Qeq_bool x 0 then d else x
  | None => d
  end.

Definition of_nat (n : nat) : Number := inject_Z (Z.of_nat n).

(** *** Doubles *)

(** [floor (log2 x)] of a positive rational. *)
Definition ilog2 (x : Q) : Z :=
  let l := (Z.log2 (Qnum x) - Z.log2 (Zpos (Qden x)))%Z in
  match Qcompare x (2 ^ l) with
  | Lt => (l - 1)%Z
  | _ => l
  end.

(** The nearest integer, ties to the even one. *)
Definition rne (x : Q) : Z :=
  let f := Qfloor x in
  match Qcompare (x - inject_Z f) (1 # 2) with
  | Lt => f
  | Gt => (f + 1)%Z
  | Eq => if Z.even f then f else (f + 1)%Z
  end.

(** The double nearest a positive rational: a significand of 53 bits
    times a power of two, the least exponent being -1074. *)
Definition double_pos (x : Q) : Q :=
  let e := Z.max (ilog2 x - 52) (-1074) in
  inject_Z (rne (x / 2 ^ e)) * 2 ^ e.

(** The double nearest a rational, ties to even: what an arithmetic
    operation of JavaScript returns for the exact result [x]. *)
Definition double (x : Q) : Number :=
  let x := Qred x in
  match Qcompare x 0 with
  | Eq => 0
  | Gt => Qred (double_pos x)
  | Lt => Qred (- double_pos (- x))
  end.

(** [x + y], [x * y] and [x / y] on doubles. *)
Definition fadd (x y : Number) : Number := double (x + y).
Definition fmul (x y : Number) : Number := double (x * y).
Definition fdiv (x y : Number) : Number := double (x / y).

(** Sum of a list of numbers the way [reduce((s, x) => s + f(x), 0)]
    computes it, every step exact. *)
Definition reduce_sum {A} (f : A -> Number) (l : list A) : Number :=
  fold_left (fun sum x => sum + f x) l 0.

(** The same [reduce] with the sum of every step rounded to a double. *)
Definition reduce_fadd {A} (f : A -> Number) (l : list A) : Number :=
  fold_left (fun sum x => fadd sum (f x)) l 0.

(** *** Strings *)

Definition code (c : ascii) : nat := nat_of_ascii c.

Definition between (lo hi n : nat) : bool := (lo <=? n)%nat && (n <=? hi)%nat.

(** White space of [trim] and of the class [\s] below 256: TAB, LF, VT,
    FF, CR, SPACE and NO-BREAK SPACE. *)
Definition isWhiteSpace (c : ascii) : bool :=
  between 9 13 (code c) || (code c =? 32)%nat || (code c =? 160)%nat.

(** Upper-case letters below 256: A-Z, and the Latin-1 letters
    U+00C0..U+00DE except the multiplication sign U+00D7. *)
Definition isUpper (c : ascii) : bool :=
  between 65 90 (code c) || between 192 214 (code c) || between 216 222 (code c).

Definition toLowerChar (c : ascii) : ascii :=
  if isUpper c then ascii_of_nat (code c + 32) else c.

Fixpoint toLowerCase (s : string) : string :=
  match s with
  | EmptyString => EmptyString
  | String c s' => String (toLowerChar c) (toLowerCase s')
  end.

Fixpoint trimStart (s : string) : string :=
  match s with
  | EmptyString => EmptyString
  | String c s' => if isWhiteSpace c then trimStart s' else s
  end.

Fixpoint trimEnd (s : string) : string :=
  match s with
  | EmptyString => EmptyString
  | String c s' =>
      match trimEnd s' with
      | EmptyString => if isWhiteSpace c then EmptyString else String c EmptyString
      | t => String c t
      end
  end.

Definition trim (s : string) : string := trimEnd (trimStart s).

(** The class [[a-z0-9\s]]. *)
Definition isLowerAlnumOrSpace (c : ascii) : bool :=
  between 97 122 (code c) || between 48 57 (code c) || isWhiteSpace c.

(** [s.replace(/[^a-z0-9\s]/g, '')]. *)
Fixpoint stripOthers (s : string) : string :=
  match s with
  | EmptyString => EmptyString
  | String c s' =>
      if isLowerAlnumOrSpace c then String c (stripOthers s') else stripOthers s'
  end.

(** Truthiness of a string: only the empty string is falsy. *)
Definition truthy (s : string) : bool :=
  match s with EmptyString => false | _ => true end.

(** [s[i] === t[i]]: an index out of range reads [undefined]. *)
Definition charAt_eqb (s t : string) (i : nat) : bool :=
  match String.get i s, String.get i t with
  | Some a, Some b => Ascii.eqb a b
  | None, None => true
  | _, _ => false
  end.

Definition ObjectId := string.
Definition Date := Z.

Definition id_eqb (a b : ObjectId) : bool := String.eqb a b.

(** How a call ends: it returns the (mutated) document, or throws with
    the document as the statements before the throw left it. *)
Inductive JsError : Type :=
| TypeError
| Error (message : string).

Inductive completion (A : Type) : Type :=
| Normal (doc : A)
| Throw (e : JsError) (doc : A).
Arguments Normal {A} doc.
Arguments Throw {A} e doc.

End JS.
Import JS.

(** ** models/Practice.js *)

Module Practice.

Inductive PracticeType := writing | typing | drawing.

Definition type_eqb (a b : PracticeType) : bool :=
  match a, b with
  | writing, writing | typing, typing | drawing, drawing => true
  | _, _ => false
  end.

Record Keystroke := { key : string; isCorrect : bool }.

Record TypingData := {
  charactersPerMinute : option Number;
  wordsPerMinute : option Number;
  errorCount : option Number;
  keystrokeData : list Keystroke
}.

Record t := {
  studentId : ObjectId;
  type : PracticeType;
  category : string;
  content : string;
  targetContent : option string;
  accuracy : Number;
  strokes : Number;
  timeSpent : Number;
  attempts : Number;
  difficulty : string;
  typingData : TypingData;
  score : Number;
  maxScore : Number;
  isCompleted : bool;
  completionTime : option Number;
  classId : option ObjectId;
  assignmentId : option ObjectId;
  isActive : bool;
  date : Date
}.

Definition set_typingData (p : t) (td : TypingData) : t :=
  {| studentId := studentId p; type := type p; category := category p;
     content := content p; targetContent := targetContent p;
     accuracy := accuracy p; strokes := strokes p; timeSpent := timeSpent p;
     attempts := attempts p; difficulty := difficulty p; typingData := td;
     score := score p; maxScore := maxScore p; isCompleted := isCompleted p;
     completionTime := completionTime p; classId := classId p;
     assignmentId := assignmentId p; isActive := isActive p; date := date p |}.

Definition set_accuracy_score (p : t) (a s : Number) : t :=
  {| studentId := studentId p; type := type p; category := category p;
     content := content p; targetContent := targetContent p;
     accuracy := a; strokes := strokes p; timeSpent := timeSpent p;
     attempts := attempts p; difficulty := difficulty p;
     typingData := typingData p;
     score := s; maxScore := maxScore p; isCompleted := isCompleted p;
     completionTime := completionTime p; classId := classId p;
     assignmentId := assignmentId p; isActive := isActive p; date := date p |}.

Definition set_completed (p : t) (ct : option Number) : t :=
  {| studentId := studentId p; type := type p; category := category p;
     content := content p; targetContent := targetContent p;
     accuracy := accuracy p; strokes := strokes p; timeSpent := timeSpent p;
     attempts := attempts p; difficulty := difficulty p;
     typingData := typingData p;
     score := score p; maxScore := maxScore p; isCompleted := true;
     completionTime := ct; classId := classId p;
     assignmentId := assignmentId p; isActive := isActive p; date := date p |}.

(** [calculateTypingMetrics].  [keystrokeData] is an array of the schema,
    which Mongoose always initializes, so the second test of the guard
    never fires. *)
Definition calculateTypingMetrics (this : t) : t :=
  if negb (type_eqb (type this) typing) then this
  else
    let keystrokes := keystrokeData (typingData this) in
    let totalTime := fdiv (timeSpent this) 60 in
    let correctKeystrokes := of_nat (List.length (filter isCorrect keystrokes)) in
    let cpm :=
      if gt totalTime 0 then Math_round (fdiv correctKeystrokes totalTime) else 0 in
    let wpm := if gt totalTime 0 then Math_round (fdiv cpm 5) else 0 in
    set_typingData this
      {| charactersPerMinute := Some cpm;
         wordsPerMinute := Some wpm;
         errorCount := Some (of_nat (List.length keystrokes) - correctKeystrokes);
         keystrokeData := keystrokes |}.

(** The arrow function [normalize] of [calculateContentSimilarity]. *)
Definition normalize (str : string) : string :=
  trim (stripOthers (toLowerCase str)).

(** The loop [for (let i = 0; i < minLen; i++) if (norm1[i] === norm2[i]) matches++]. *)
Definition positional_matches (norm1 norm2 : string) (minLen : nat) : nat :=
  fold_left (fun matches i => if charAt_eqb norm1 norm2 i then S matches else matches)
            (seq 0 minLen) 0%nat.

(** [calculateContentSimilarity].  The quotient of the last line is kept
    as the ratio of the two counts; [evaluateWriting] reads the double
    that the division returns. *)
Definition calculateContentSimilarity (content1 content2 : string) : Number :=
  if negb (truthy content1) || negb (truthy content2) then 0
  else
    let norm1 := normalize content1 in
    let norm2 := normalize content2 in
    if String.eqb norm1 norm2 then 1
    else
      let len1 := String.length norm1 in
      let len2 := String.length norm2 in
      let maxLen := Nat.max len1 len2 in
      if (maxLen =? 0)%nat then 1
      else
        let minLen := Nat.min len1 len2 in
        of_nat (positional_matches norm1 norm2 minLen) / of_nat maxLen.

(** [evaluateWriting]. *)
Definition evaluateWriting (this : t) : t :=
  match type this, targetContent this with
  | writing, Some target =>
      if truthy target then
        let similarity := double (calculateContentSimilarity (content this) target) in
        let acc := Math_round (fmul similarity 100) in
        set_accuracy_score this acc (Math_round (fmul (fdiv acc 100) (maxScore this)))
      else this
  | _, _ => this
  end.

End Practice.

(** ** models/Assignment.js *)

Module Question.
Inductive QuestionType := multiple_choice | short_answer | long_answer | true_false.

(** A sub-document of [questions].  The schema gives [correctAnswer]
    neither [required] nor a [default], and no validation rule of the
    routes asks for it: a stored question may lack one. *)
Record t := {
  _id : ObjectId;
  questionText : string;
  questionType : QuestionType;
  options : list string;
  correctAnswer : option string;
  points : Number;
  order : Number
}.
End Question.

(** An element of the [answers] argument of [submitAssignment]; the
    route's validation makes [answer] a string. *)
Module Answer.
Record t := {
  questionId : ObjectId;
  answer : string
}.
End Answer.

(** An element of [submissions[i].answers]. *)
Module GradedAnswer.
Record t := {
  questionId : ObjectId;
  answer : string;
  isCorrect : bool;
  pointsEarned : Number
}.
End GradedAnswer.

Module Submission.
Record t := {
  studentId : ObjectId;
  answers : list GradedAnswer.t;
  score : Number;
  percentage : Number;
  feedback : option string;
  submittedAt : Date;
  gradedAt : option Date;
  gradedBy : option ObjectId
}.
End Submission.

Module Assignment.

Record t := {
  title : string;
  questions : list Question.t;
  totalPoints : Number;
  dueDate : Date;
  classId : ObjectId;
  createdBy : ObjectId;
  submissions : list Submission.t;
  isPublished : bool;
  allowLateSubmission : bool;
  latePenalty : Number;
  isActive : bool;
  updatedAt : Date
}.

Definition set_submissions (a : t) (subs : list Submission.t) : t :=
  {| title := title a; questions := questions a; totalPoints := totalPoints a;
     dueDate := dueDate a; classId := classId a; createdBy := createdBy a;
     submissions := subs; isPublished := isPublished a;
     allowLateSubmission := allowLateSubmission a; latePenalty := latePenalty a;
     isActive := isActive a; updatedAt := updatedAt a |}.

(** [save()] with the [pre('save')] hook.  Neither method below touches
    [questions], so [isModified('questions')] is false and
    [totalPoints] stays; the hook stamps [updatedAt]. *)
Definition save (a : t) (now : Date) : t :=
  {| title := title a; questions := questions a; totalPoints := totalPoints a;
     dueDate := dueDate a; classId := classId a; createdBy := createdBy a;
     submissions := submissions a; isPublished := isPublished a;
     allowLateSubmission := allowLateSubmission a; latePenalty := latePenalty a;
     isActive := isActive a; updatedAt := now |}.

(** [this.questions.id(id)]: the first sub-document with that [_id], or
    [null]. *)
Definition questions_id (qs : list Question.t) (id : ObjectId) : option Question.t :=
  find (fun q => id_eqb (Question._id q) id) qs.

(** [a.toLowerCase().trim() === b.toLowerCase().trim()]. *)
Definition sameAnswer (a b : string) : bool :=
  String.eqb (trim (toLowerCase a)) (trim (toLowerCase b)).

(** The callback of [answers.map] in [submitAssignment].  It reads and
    writes the local [score], threaded here.  Calling [toLowerCase] on
    an absent [correctAnswer] throws a [TypeError]. *)
Definition gradeAnswer (qs : list Question.t) (score : Number) (answer : Answer.t)
  : JsError + (GradedAnswer.t * Number) :=
  let graded isCorrect pointsEarned :=
    {| GradedAnswer.questionId := Answer.questionId answer;
       GradedAnswer.answer := Answer.answer answer;
       GradedAnswer.isCorrect := isCorrect;
       GradedAnswer.pointsEarned := pointsEarned |} in
  match questions_id qs (Answer.questionId answer) with
  | Some question =>
      match Question.correctAnswer question with
      | None => inl TypeError
      | Some correct =>
          if sameAnswer (Answer.answer answer) correct
          then inr (graded true (Question.points question),
                    score + Question.points question)
          else inr (graded false 0, score)
      end
  | None => inr (graded false 0, score)
  end.

(** [answers.map(callback)], left to right; the first throw ends it. *)
Fixpoint mapAnswers (qs : list Question.t) (score : Number) (answers : list Answer.t)
  : JsError + (list GradedAnswer.t * Number) :=
  match answers with
  | [] => inr ([], score)
  | answer :: rest =>
      match gradeAnswer qs score answer with
      | inl e => inl e
      | inr (g, score') =>
          match mapAnswers qs score' rest with
          | inl e => inl e
          | inr (gs, score'') => inr (g :: gs, score'')
          end
      end
  end.

(** [this.totalPoints > 0 ? Math.round((score / this.totalPoints) * 100) : 0]. *)
Definition percentageOf (score totalPoints : Number) : Number :=
  if gt totalPoints 0 then Math_round (fmul (fdiv score totalPoints) 100) else 0.

(** [submitAssignment(studentId, answers)]; [now] is [new Date()]. *)
Definition submitAssignment (this : t) (studentId : ObjectId)
           (answers : list Answer.t) (now : Date) : completion t :=
  let this1 :=
    set_submissions this
      (filter (fun submission => negb (id_eqb (Submission.studentId submission) studentId))
              (submissions this)) in
  match mapAnswers (questions this1) 0 answers with
  | inl e => Throw e this1
  | inr (processedAnswers, score) =>
      let percentage := percentageOf score (totalPoints this1) in
      let this2 :=
        set_submissions this1
          (submissions this1 ++
             [ {| Submission.studentId := studentId;
                  Submission.answers := processedAnswers;
                  Submission.score := score;
                  Submission.percentage := percentage;
                  Submission.feedback := None;
                  Submission.submittedAt := now;
                  Submission.gradedAt := None;
                  Submission.gradedBy := None |} ]) in
      Normal (save this2 now)
  end.

(** The assignments of [gradeAssignment] to the submission it found. *)
Definition grade (totalPoints : Number) (score : Number) (feedback : option string)
           (gradedBy : ObjectId) (now : Date) (submission : Submission.t) : Submission.t :=
  {| Submission.studentId := Submission.studentId submission;
     Submission.answers := Submission.answers submission;
     Submission.score := score;
     Submission.percentage := percentageOf score totalPoints;
     Submission.feedback := feedback;
     Submission.submittedAt := Submission.submittedAt submission;
     Submission.gradedAt := Some now;
     Submission.gradedBy := Some gradedBy |}.

(** In-place update of the element that [Array.prototype.find] returns:
    the first one that satisfies [p]. *)
Fixpoint modify_first {A} (p : A -> bool) (f : A -> A) (l : list A) : list A :=
  match l with
  | [] => []
  | x :: l' => if p x then f x :: l' else x :: modify_first p f l'
  end.

(** [gradeAssignment(studentId, score, feedback, gradedBy)]. *)
Definition gradeAssignment (this : t) (studentId : ObjectId) (score : Number)
           (feedback : option string) (gradedBy : ObjectId) (now : Date) : completion t :=
  let mine sub := id_eqb (Submission.studentId sub) studentId in
  match find mine (submissions this) with
  | Some _ =>
      Normal (save (set_submissions this
                      (modify_first mine (grade (totalPoints this) score feedback gradedBy now)
                                    (submissions this)))
                   now)
  | None => Throw (Error "Submission not found") this
  end.

End Assignment.

(** ** models/Media.js *)

Module View.
Record t := {
  studentId : ObjectId;
  percentage : Number;
  date : Date
}.
End View.

Module Media.

Record t := {
  title : string;
  classId : ObjectId;
  uploadedBy : ObjectId;
  views : list View.t;
  isActive : bool;
  updatedAt : Date
}.

(** Assigning [views] and then [save()], whose hook stamps [updatedAt]. *)
Definition save_views (m : t) (vs : list View.t) (now : Date) : t :=
  {| title := title m; classId := classId m; uploadedBy := uploadedBy m;
     views := vs; isActive := isActive m; updatedAt := now |}.

(** [Array.prototype.findIndex]: the first index that satisfies [p], or -1. *)
Fixpoint findIndex {A} (p : A -> bool) (l : list A) : Z :=
  match l with
  | [] => (-1)%Z
  | x :: l' =>
      if p x then 0%Z
      else let i := findIndex p l' in
           if (i <? 0)%Z then (-1)%Z else (i + 1)%Z
  end.

(** [l[i] = f(l[i])] for an index within the list. *)
Fixpoint modify_at {A} (i : nat) (f : A -> A) (l : list A) : list A :=
  match l, i with
  | [], _ => []
  | x :: l', O => f x :: l'
  | x :: l', S j => x :: modify_at j f l'
  end.

(** [addView(studentId, percentage = 0)]. *)
Definition addView (this : t) (studentId : ObjectId) (percentage : option Number)
           (now : Date) : t :=
  let percentage := match percentage with Some p => p | None => 0 end in
  let existingViewIndex :=
    findIndex (fun view => id_eqb (View.studentId view) studentId) (views this) in
  if (0 <=? existingViewIndex)%Z then
    save_views this
      (modify_at (Z.to_nat existingViewIndex)
         (fun view =>
            {| View.studentId := View.studentId view;
               View.percentage := Math_max (View.percentage view) percentage;
               View.date := now |})
         (views this))
      now
  else
    save_views this
      (views this ++
         [ {| View.studentId := studentId;
              View.percentage := percentage;
              View.date := now |} ])
      now.

End Media.

(** ** models/Class.js and models/User.js, as far as the controllers read them *)

Module Class.
Record t := {
  _id : ObjectId;
  name : string;
  teacherId : ObjectId;
  students : list ObjectId
}.

(** [Class.findById(id)]. *)
Definition findById (classes : list t) (id : ObjectId) : option t :=
  find (fun c => id_eqb (_id c) id) classes.

(** [classData.students.includes(studentId)]. *)
Definition includes (c : t) (studentId : ObjectId) : bool :=
  existsb (fun s => id_eqb s studentId) (students c).
End Class.

Module User.
Record t := {
  _id : ObjectId;
  name : string;
  email : string
}.
End User.

(** ** The [Date] operations the controllers use *)

Module DateLib.
Local Open Scope Z_scope.

Definition msPerDay : Z := 24 * 60 * 60 * 1000.

(** Day number of a civil date of the proleptic Gregorian calendar,
    [m] in 1..12, counted from 1970-01-01. *)
Definition days_from_civil (y m d : Z) : Z :=
  let y := if m <=? 2 then y - 1 else y in
  let era := y / 400 in
  let yoe := y - era * 400 in
  let doy := (153 * (if 2 <? m then m - 3 else m + 9) + 2) / 5 + d - 1 in
  let doe := yoe * 365 + yoe / 4 - yoe / 100 + doy in
  era * 146097 + doe - 719468.

(** Civil date (year, month in 1..12, day of month) of a day number. *)
Definition civil_from_days (z : Z) : Z * Z * Z :=
  let z := z + 719468 in
  let era := z / 146097 in
  let doe := z - era * 146097 in
  let yoe := (doe - doe / 1460 + doe / 36524 - doe / 146096) / 365 in
  let y := yoe + era * 400 in
  let doy := doe - (365 * yoe + yoe / 4 - yoe / 100) in
  let mp := (5 * doy + 2) / 153 in
  let d := doy - (153 * mp + 2) / 5 + 1 in
  let m := if mp <? 10 then mp + 3 else mp - 9 in
  (if m <=? 2 then y + 1 else y, m, d).

Definition getTime (t : Date) : Z := t.

(** ECMAScript's [LocalTZA(t, isUTC)]: the offset of the server's zone
    from UTC in milliseconds, at the instant [t] when [isUTC] is true and
    at the local time value [t] when it is false. *)
Definition Zone : Type := Z -> bool -> Z.

(** A zone without clock changes, [offset] milliseconds ahead of UTC. *)
Definition fixedZone (offset : Z) : Zone := fun _ _ => offset.

Section LocalZone.

Variable LocalTZA : Zone.

(** [LocalTime(t)] and [UTC(t)] of ECMAScript. *)
Definition LocalTime (t : Date) : Z := t + LocalTZA t true.
Definition UTC (t : Z) : Date := t - LocalTZA t false.

Definition getFullYear (t : Date) : Z :=
  let '(y, _, _) := civil_from_days (LocalTime t / msPerDay) in y.

(** Month index, 0..11. *)
Definition getMonth (t : Date) : Z :=
  let '(_, m, _) := civil_from_days (LocalTime t / msPerDay) in m - 1.

Definition getDate (t : Date) : Z :=
  let '(_, _, d) := civil_from_days (LocalTime t / msPerDay) in d.

(** [new Date(year, monthIndex, day)]: local midnight of that day; a
    month index outside 0..11 carries into the year, a year in 0..99
    means 1900 + year. *)
Definition Date_ymd (year monthIndex day : Z) : Date :=
  let year := if (0 <=? year) && (year <=? 99) then 1900 + year else year in
  let ym := year + monthIndex / 12 in
  let mn := monthIndex mod 12 in
  UTC ((days_from_civil ym (mn + 1) 1 + day - 1) * msPerDay).

End LocalZone.

(** [new Date(now.getTime() - n * 24 * 60 * 60 * 1000)]. *)
Definition daysAgo (n : Z) (now : Date) : Date :=
  getTime now - n * 24 * 60 * 60 * 1000.

End DateLib.
Import DateLib.

(** ** controllers/practiceController.js *)

Module PracticeController.

(** [req.body] of [savePractice] after the route's validation. *)
Record Body := {
  type : Practice.PracticeType;
  category : string;
  content : string;
  targetContent : option string;
  accuracy : option Number;
  strokes : option Number;
  timeSpent : option Number;
  attempts : option Number;
  difficulty : option string;
  typingData : option Practice.TypingData;
  classId : option ObjectId;
  assignmentId : option ObjectId
}.

Inductive Response :=
| Status400
| Status403
| Status201 (practice : Practice.t).

(** [new Practice({...})] with the schema's defaults. *)
Definition newPractice (studentId : ObjectId) (b : Body) (now : Date) : Practice.t :=
  {| Practice.studentId := studentId;
     Practice.type := type b;
     Practice.category := category b;
     Practice.content := content b;
     Practice.targetContent := targetContent b;
     Practice.accuracy := number_or (accuracy b) 0;
     Practice.strokes := number_or (strokes b) 0;
     Practice.timeSpent := number_or (timeSpent b) 0;
     Practice.attempts := number_or (attempts b) 1;
     Practice.difficulty := match difficulty b with
                            | Some d => if truthy d then d else "easy"
                            | None => "easy"
                            end;
     Practice.typingData :=
       match typingData b with
       | Some td => td
       | None => {| Practice.charactersPerMinute := None;
                    Practice.wordsPerMinute := None;
                    Practice.errorCount := None;
                    Practice.keystrokeData := [] |}
       end;
     Practice.score := 0;
     Practice.maxScore := 100;
     Practice.isCompleted := false;
     Practice.completionTime := None;
     Practice.classId := classId b;
     Practice.assignmentId := assignmentId b;
     Practice.isActive := true;
     Practice.date := now |}.

(** [type === 'typing' && typingData], [type === 'writing' && targetContent]. *)
Definition isTypingWithData (b : Body) : bool :=
  Practice.type_eqb (type b) Practice.typing
  && match typingData b with Some _ => true | None => false end.

Definition isWritingWithTarget (b : Body) : bool :=
  Practice.type_eqb (type b) Practice.writing
  && match targetContent b with Some s => truthy s | None => false end.

(** [accuracy >= 80] on the request's [accuracy]; [undefined >= 80] is false. *)
Definition requestAccuracyAtLeast80 (b : Body) : bool :=
  match accuracy b with Some a => ge a 80 | None => false end.

(** [savePractice]; [validationOk] is [validationResult(req).isEmpty()]. *)
Definition savePractice (validationOk : bool) (classes : list Class.t)
           (studentId : ObjectId) (b : Body) (now : Date) : Response :=
  if negb validationOk then Status400
  else
    let denied :=
      match classId b with
      | Some cid =>
          match Class.findById classes cid with
          | Some classData => negb (Class.includes classData studentId)
          | None => true
          end
      | None => false
      end in
    if denied then Status403
    else
      let practice := newPractice studentId b now in
      let practice :=
        if isTypingWithData b then Practice.calculateTypingMetrics practice
        else if isWritingWithTarget b then Practice.evaluateWriting practice
        else practice in
      let practice :=
        if requestAccuracyAtLeast80 b || ge (Practice.attempts practice) 3
        then Practice.set_completed practice (timeSpent b)
        else practice in
      Status201 practice.

(** [const { period = d } = req.query]. *)
Definition period_or (q : option string) (d : string) : string :=
  match q with Some period => period | None => d end.

(** The [switch (period)] of [getPracticeStats]; the query's default is ['week']. *)
Definition getPracticeStats_startDate (LocalTZA : Zone) (period : string) (now : Date)
  : Date :=
  if String.eqb period "day"
  then Date_ymd LocalTZA (getFullYear LocalTZA now) (getMonth LocalTZA now)
                (getDate LocalTZA now)
  else if String.eqb period "week" then daysAgo 7 now
  else if String.eqb period "month"
  then Date_ymd LocalTZA (getFullYear LocalTZA now) (getMonth LocalTZA now) 1
  else if String.eqb period "year" then Date_ymd LocalTZA (getFullYear LocalTZA now) 0 1
  else daysAgo 7 now.

(** The [switch (period)] of [getStudentPracticeAnalytics]; the query's
    default is ['month']. *)
Definition getStudentPracticeAnalytics_startDate (period : string) (now : Date) : Date :=
  if String.eqb period "week" then daysAgo 7 now
  else if String.eqb period "month" then daysAgo 30 now
  else if String.eqb period "quarter" then daysAgo 90 now
  else daysAgo 30 now.

End PracticeController.

(** ** controllers/reportController.js *)

Module ReportController.

(** The [switch (period)] of [getStudentProgressReport]; the query's
    default is ['month']. *)
Definition getStudentProgressReport_startDate (LocalTZA : Zone) (period : string)
           (now : Date) : Date :=
  if String.eqb period "week" then daysAgo 7 now
  else if String.eqb period "month" then daysAgo 30 now
  else if String.eqb period "quarter" then daysAgo 90 now
  else if String.eqb period "year" then Date_ymd LocalTZA (getFullYear LocalTZA now) 0 1
  else daysAgo 30 now.

(** The [switch (period)] of [getClassAnalytics]; the query's default is
    ['month']. *)
Definition getClassAnalytics_startDate (period : string) (now : Date) : Date :=
  if String.eqb period "week" then daysAgo 7 now
  else if String.eqb period "month" then daysAgo 30 now
  else if String.eqb period "quarter" then daysAgo 90 now
  else daysAgo 30 now.

(** *** Rows of the aggregations that [calculateOverallProgressScore] reads *)

(** A row of [Practice.getStudentStats]: one per practice type. *)
Module PracticeStat.
Record t := {
  _id : Practice.PracticeType;
  totalPractices : Number;
  averageAccuracy : Number;
  averageScore : Number;
  totalTimeSpent : Number;
  completedPractices : Number
}.
End PracticeStat.

(** A row of the assignment-performance aggregation: one per class. *)
Module AssignmentPerformance.
Record t := {
  _id : ObjectId;
  totalAssignments : Number;
  averageScore : Number;
  averagePercentage : Number;
  totalPoints : Number;
  earnedPoints : Number
}.
End AssignmentPerformance.

(** A row of the media-consumption aggregation: one per class. *)
Module MediaConsumption.
Record t := {
  _id : ObjectId;
  totalVideos : Number;
  averageWatchPercentage : Number;
  totalWatchTime : Number
}.
End MediaConsumption.

(** One [if (xs.length > 0) { ... score += ...; weight += w }] block,
    on the pair of locals [(score, weight)]. *)
Definition addCategory {A} (xs : list A) (f : A -> Number) (w : Number)
           (sw : Number * Number) : Number * Number :=
  let '(score, weight) := sw in
  if (0 <? List.length xs)%nat then
    let avg := fdiv (reduce_fadd f xs) (of_nat (List.length xs)) in
    (fadd score (fmul (fdiv avg 100) w), fadd weight w)
  else (score, weight).

(** [calculateOverallProgressScore]. *)
Definition calculateOverallProgressScore
           (practiceStats : list PracticeStat.t)
           (assignmentPerformance : list AssignmentPerformance.t)
           (mediaConsumption : list MediaConsumption.t) : Number :=
  let sw := (0, 0) in
  let sw := addCategory practiceStats PracticeStat.averageAccuracy 40 sw in
  let sw := addCategory assignmentPerformance AssignmentPerformance.averagePercentage 40 sw in
  let sw := addCategory mediaConsumption MediaConsumption.averageWatchPercentage 20 sw in
  let '(score, weight) := sw in
  if gt weight 0 then Math_round (fmul (fdiv score weight) 100) else 0.

(** *** The student-engagement pipeline of [getClassAnalytics] *)

(** A document of the pipeline after [$group]. *)
Module StudentGroup.
Record t := {
  _id : ObjectId;
  totalPractices : Number;
  averageAccuracy : Number;
  totalTimeSpent : Number
}.
End StudentGroup.

(** A document of the pipeline after [$project]. *)
Module Engagement.
Record t := {
  _id : ObjectId;
  studentName : string;
  studentEmail : string;
  totalPractices : Number;
  averageAccuracy : Number;
  totalTimeSpent : Number
}.
End Engagement.

(** [$match]: the class, the window [startDate, now], active sessions. *)
Definition matchStage (classId : ObjectId) (startDate now : Date)
           (practices : list Practice.t) : list Practice.t :=
  filter (fun p =>
            match Practice.classId p with
            | Some c => id_eqb c classId
            | None => false
            end
            && (startDate <=? Practice.date p)%Z
            && (Practice.date p <=? now)%Z
            && Practice.isActive p)
         practices.

(** The distinct keys of a list, in order of first occurrence. *)
Fixpoint distinct (ids : list ObjectId) : list ObjectId :=
  match ids with
  | [] => []
  | i :: rest => i :: filter (fun j => negb (id_eqb j i)) (distinct rest)
  end.


(** [$avg]: the sum of the values over their number; the server adds
    with a compensated sum, taken here as the exact one. *)
Definition avg {A} (f : A -> Number) (l : list A) : Number :=
  reduce_sum f l / of_nat (List.length l).









End ReportController.

(** ** models/Assignment.js: the save hook and the virtuals *)

Module AssignmentSchema.

(** The [pre('save')] hook; [questionsModified] is
    [this.isModified('questions')]. *)
Definition preSave (questionsModified : bool) (a : Assignment.t) (now : Date) : Assignment.t :=
  {| Assignment.title := Assignment.title a;
     Assignment.questions := Assignment.questions a;
     Assignment.totalPoints :=
       if questionsModified
       then reduce_sum Question.points (Assignment.questions a)
       else Assignment.totalPoints a;
     Assignment.dueDate := Assignment.dueDate a;
     Assignment.classId := Assignment.classId a;
     Assignment.createdBy := Assignment.createdBy a;
     Assignment.submissions := Assignment.submissions a;
     Assignment.isPublished := Assignment.isPublished a;
     Assignment.allowLateSubmission := Assignment.allowLateSubmission a;
     Assignment.latePenalty := Assignment.latePenalty a;
     Assignment.isActive := Assignment.isActive a;
     Assignment.updatedAt := now |}.

(** The virtual [submissionCount]. *)
Definition submissionCount (a : Assignment.t) : nat :=
  List.length (Assignment.submissions a).

(** The virtual [averageScore]. *)
Definition averageScore (a : Assignment.t) : Number :=
  if (List.length (Assignment.submissions a) =? 0)%nat then 0
  else Math_round (reduce_sum Submission.score (Assignment.submissions a)
                   / of_nat (List.length (Assignment.submissions a))).

End AssignmentSchema.

(** ** Documents by [_id], and documents read through [populate] *)

Module Store.

(** [Model.findById(id)] on a collection of documents by [_id]. *)
Definition findById {A} (collection : list (ObjectId * A)) (id : ObjectId) : option A :=
  option_map snd (find (fun e => id_eqb (fst e) id) collection).

End Store.

Module Populated.

(** A class as [populate('classId', 'name subject')] reads it: the
    selection keeps [_id] and the fields it names; every other path of
    the document reads [undefined]. *)
Record ClassRef := {
  _id : ObjectId;
  name : option string;
  teacherId : option ObjectId;
  students : option (list ObjectId)
}.

Definition select_name_subject (c : Class.t) : ClassRef :=
  {| _id := Class._id c;
     name := Some (Class.name c);
     teacherId := None;
     students := None |}.

(** The populated [classId] of a document: [null] when no class has that
    id. *)
Definition classId (classes : list Class.t) (id : ObjectId) : option ClassRef :=
  option_map select_name_subject (Class.findById classes id).

(** The access check of [getAssignmentById] and [getMediaById] on the
    populated class, [role] being [req.user.role]:
    [isTeacher = classData.teacherId.equals(userId)],
    [isStudent = role === 'student' && classData.students.includes(userId)],
    and the answer of [!isTeacher && !isStudent].  [None] is the
    [TypeError] of reading a property of [null] or [undefined]. *)
Definition denied (classData : option ClassRef) (role : string) (userId : ObjectId)
  : option bool :=
  match classData with
  | None => None
  | Some classData =>
      match teacherId classData with
      | None => None
      | Some teacher =>
          let isTeacher := id_eqb teacher userId in
          if String.eqb role "student" then
            match students classData with
            | None => None
            | Some enrolled =>
                let isStudent := existsb (fun s => id_eqb s userId) enrolled in
                Some (negb isTeacher && negb isStudent)
            end
          else Some (negb isTeacher && negb false)
      end
  end.

End Populated.

(** ** controllers/assignmentController.js: creating, submitting, grading, reading *)

Module AssignmentController.

(** An element of [req.body.questions]. *)
Record QuestionInput := {
  questionText : string;
  questionType : option Question.QuestionType;
  options : list string;
  correctAnswer : option string;
  points : option Number
}.

(** [({ ...q, order: index + 1, points: q.points || 1 })], cast by the
    schema: [questionType] defaults to ['short_answer'], and [newId index]
    is the [_id] Mongoose gives the sub-document. *)
Definition processQuestion (newId : nat -> ObjectId) (index : nat) (q : QuestionInput)
  : Question.t :=
  {| Question._id := newId index;
     Question.questionText := questionText q;
     Question.questionType := match questionType q with
                              | Some t => t
                              | None => Question.short_answer
                              end;
     Question.options := options q;
     Question.correctAnswer := correctAnswer q;
     Question.points := number_or (points q) 1;
     Question.order := of_nat index + 1 |}.

(** [questions.map((q, index) => ...)]. *)
Definition processQuestions (newId : nat -> ObjectId) (questions : list QuestionInput)
  : list Question.t :=
  map (fun iq => processQuestion newId (fst iq) (snd iq))
      (combine (seq 0 (List.length questions)) questions).

(** [new Assignment({...})] followed by [assignment.save()]: the document
    is new, so the hook computes [totalPoints]. *)
Definition createAssignment_document (newId : nat -> ObjectId) (title : string)
           (questions : list QuestionInput) (dueDate : Date) (classId createdBy : ObjectId)
           (allowLateSubmission : option bool) (latePenalty : option Number) (now : Date)
  : Assignment.t :=
  AssignmentSchema.preSave true
    {| Assignment.title := title;
       Assignment.questions := processQuestions newId questions;
       Assignment.totalPoints := 0;
       Assignment.dueDate := dueDate;
       Assignment.classId := classId;
       Assignment.createdBy := createdBy;
       Assignment.submissions := [];
       Assignment.isPublished := false;
       Assignment.allowLateSubmission := match allowLateSubmission with
                                         | Some b => b
                                         | None => false
                                         end;
       Assignment.latePenalty := number_or latePenalty 0;
       Assignment.isActive := true;
       Assignment.updatedAt := now |}
    now.

Inductive Response :=
| Status200 (assignment : Assignment.t)
| Status400 (message : string)
| Status403
| Status404 (message : string)
| Status500.

(** [submitAssignment]; [validationOk] is [validationResult(req).isEmpty()].
    A throw inside the [try] block, reading [students] of a class that
    does not exist or the model's [TypeError], ends in the [catch]. *)
Definition submitAssignment (validationOk : bool)
           (assignments : list (ObjectId * Assignment.t)) (classes : list Class.t)
           (assignmentId studentId : ObjectId) (answers : list Answer.t) (now : Date)
  : Response :=
  if negb validationOk then Status400 "Validation failed"
  else
    match Store.findById assignments assignmentId with
    | None => Status404 "Assignment not found"
    | Some assignment =>
        match Class.findById classes (Assignment.classId assignment) with
        | None => Status500
        | Some classData =>
            if negb (Class.includes classData studentId) then Status403
            else if (Assignment.dueDate assignment <? now)%Z
                    && negb (Assignment.allowLateSubmission assignment)
            then Status400 "Assignment submission deadline has passed"
            else if (List.length answers =? 0)%nat
            then Status400 "At least one answer is required"
            else
              match Assignment.submitAssignment assignment studentId answers now with
              | Normal saved => Status200 saved
              | Throw _ _ => Status500
              end
        end
    end.

(** [gradeAssignment]: the [catch] answers 404 to the model's
    ['Submission not found'] and 500 to every other error. *)
Definition gradeAssignment (validationOk : bool)
           (assignments : list (ObjectId * Assignment.t)) (classes : list Class.t)
           (assignmentId studentId : ObjectId) (score : Number) (feedback : option string)
           (gradedBy : ObjectId) (now : Date) : Response :=
  if negb validationOk then Status400 "Validation failed"
  else
    match Store.findById assignments assignmentId with
    | None => Status404 "Assignment not found"
    | Some assignment =>
        match Class.findById classes (Assignment.classId assignment) with
        | None => Status500
        | Some classData =>
            if negb (id_eqb (Class.teacherId classData) gradedBy) then Status403
            else
              match Assignment.gradeAssignment assignment studentId score feedback
                                               gradedBy now with
              | Normal saved => Status200 saved
              | Throw (Error message) _ =>
                  if String.eqb message "Submission not found"
                  then Status404 "Student submission not found"
                  else Status500
              | Throw TypeError _ => Status500
              end
        end
    end.

(** [getAssignmentById]: the assignment is read with its class populated
    by [populate('classId', 'name subject')]. *)
Definition getAssignmentById (assignments : list (ObjectId * Assignment.t))
           (classes : list Class.t) (assignmentId userId : ObjectId) (role : string)
  : Response :=
  match Store.findById assignments assignmentId with
  | None => Status404 "Assignment not found"
  | Some assignment =>
      let classData := Populated.classId classes (Assignment.classId assignment) in
      match Populated.denied classData role userId with
      | None => Status500
      | Some true => Status403
      | Some false => Status200 assignment
      end
  end.

(** [req.body] of [updateAssignment], as far as the document has the
    fields. *)
Record UpdateBody := {
  title : option string;
  questions : option (list QuestionInput);
  dueDate : option Date;
  allowLateSubmission : option bool;
  latePenalty : option Number;
  isPublished : option bool
}.

(** The document after [Assignment.findByIdAndUpdate(assignmentId,
    updateData)]: the fields of [updateData] are set, the others stay.
    An update runs no [pre('save')] hook, so [totalPoints] is among those
    that stay; the [timestamps] option stamps [updatedAt]. *)
Definition updated (newId : nat -> ObjectId) (body : UpdateBody) (a : Assignment.t)
           (now : Date) : Assignment.t :=
  {| Assignment.title := match title body with
                         | Some t => if truthy t then t else Assignment.title a
                         | None => Assignment.title a
                         end;
     Assignment.questions := match questions body with
                             | Some (q :: qs) => processQuestions newId (q :: qs)
                             | _ => Assignment.questions a
                             end;
     Assignment.totalPoints := Assignment.totalPoints a;
     Assignment.dueDate := match dueDate body with
                           | Some d => d
                           | None => Assignment.dueDate a
                           end;
     Assignment.classId := Assignment.classId a;
     Assignment.createdBy := Assignment.createdBy a;
     Assignment.submissions := Assignment.submissions a;
     Assignment.isPublished := match isPublished body with
                               | Some b => b
                               | None => Assignment.isPublished a
                               end;
     Assignment.allowLateSubmission := match allowLateSubmission body with
                                       | Some b => b
                                       | None => Assignment.allowLateSubmission a
                                       end;
     Assignment.latePenalty := match latePenalty body with
                               | Some p => p
                               | None => Assignment.latePenalty a
                               end;
     Assignment.isActive := Assignment.isActive a;
     Assignment.updatedAt := now |}.

(** [updateAssignment]. *)
Definition updateAssignment (validationOk : bool) (newId : nat -> ObjectId)
           (assignments : list (ObjectId * Assignment.t)) (classes : list Class.t)
           (assignmentId userId : ObjectId) (body : UpdateBody) (now : Date) : Response :=
  if negb validationOk then Status400 "Validation failed"
  else
    match Store.findById assignments assignmentId with
    | None => Status404 "Assignment not found"
    | Some assignment =>
        match Class.findById classes (Assignment.classId assignment) with
        | None => Status500
        | Some classData =>
            if negb (id_eqb (Class.teacherId classData) userId) then Status403
            else Status200 (updated newId body assignment now)
        end
    end.

End AssignmentController.

(** ** models/Practice.js: the rating, the statistics; the soft delete of
    controllers/practiceController.js *)

Module PracticeSchema.

Inductive Rating := excellent | good | fair | needs_improvement.

(** The virtual [performanceRating]. *)
Definition performanceRating (this : Practice.t) : Rating :=
  if ge (Practice.accuracy this) 90 then excellent
  else if ge (Practice.accuracy this) 75 then good
  else if ge (Practice.accuracy this) 60 then fair
  else needs_improvement.

(** The [dateRange] argument of [getStudentStats]; a [Date] object is
    truthy whatever its time. *)
Record DateRange := {
  start : option Date;
  finish : option Date
}.

(** The [$match] stage of [getStudentStats]: the student, and the date
    range when both its ends are given. *)
Definition matchQuery (studentId : ObjectId) (dateRange : DateRange) (p : Practice.t)
  : bool :=
  id_eqb (Practice.studentId p) studentId
  && match start dateRange, finish dateRange with
     | Some s, Some e => (s <=? Practice.date p)%Z && (Practice.date p <=? e)%Z
     | _, _ => true
     end.

(** The distinct types of a list, in order of first occurrence. *)
Fixpoint distinctTypes (l : list Practice.PracticeType) : list Practice.PracticeType :=
  match l with
  | [] => []
  | t :: rest => t :: filter (fun u => negb (Practice.type_eqb u t)) (distinctTypes rest)
  end.

Definition ofType (t : Practice.PracticeType) (ps : list Practice.t) : list Practice.t :=
  filter (fun p => Practice.type_eqb (Practice.type p) t) ps.

(** [getStudentStats(studentId, dateRange)] over the collection: [$match],
    then [$group] by [type]. *)
Definition getStudentStats (practices : list Practice.t) (studentId : ObjectId)
           (dateRange : DateRange) : list ReportController.PracticeStat.t :=
  let matched := filter (matchQuery studentId dateRange) practices in
  map (fun t =>
         let mine := ofType t matched in
         {| ReportController.PracticeStat._id := t;
            ReportController.PracticeStat.totalPractices := of_nat (List.length mine);
            ReportController.PracticeStat.averageAccuracy :=
              ReportController.avg Practice.accuracy mine;
            ReportController.PracticeStat.averageScore :=
              ReportController.avg Practice.score mine;
            ReportController.PracticeStat.totalTimeSpent :=
              reduce_sum Practice.timeSpent mine;
            ReportController.PracticeStat.completedPractices :=
              reduce_sum (fun p => if Practice.isCompleted p then 1 else 0) mine |})
      (distinctTypes (map Practice.type matched)).

(** [practice.isActive = false]. *)
Definition deactivate (p : Practice.t) : Practice.t :=
  {| Practice.studentId := Practice.studentId p; Practice.type := Practice.type p;
     Practice.category := Practice.category p; Practice.content := Practice.content p;
     Practice.targetContent := Practice.targetContent p;
     Practice.accuracy := Practice.accuracy p; Practice.strokes := Practice.strokes p;
     Practice.timeSpent := Practice.timeSpent p; Practice.attempts := Practice.attempts p;
     Practice.difficulty := Practice.difficulty p;
     Practice.typingData := Practice.typingData p;
     Practice.score := Practice.score p; Practice.maxScore := Practice.maxScore p;
     Practice.isCompleted := Practice.isCompleted p;
     Practice.completionTime := Practice.completionTime p;
     Practice.classId := Practice.classId p;
     Practice.assignmentId := Practice.assignmentId p;
     Practice.isActive := false; Practice.date := Practice.date p |}.

(** The practice collection: documents by [_id]. *)
Definition Collection := list (ObjectId * Practice.t).

Definition documents (c : Collection) : list Practice.t := map snd c.

Inductive DeleteResponse := Status200 | Status404 | Status403.

(** [deletePractice]: the session of that id, owned by the caller, is
    marked inactive and saved. *)
Definition deletePractice (collection : Collection) (practiceId studentId : ObjectId)
  : DeleteResponse * Collection :=
  let byId := fun e : ObjectId * Practice.t => id_eqb (fst e) practiceId in
  match find byId collection with
  | None => (Status404, collection)
  | Some (_, practice) =>
      if negb (id_eqb (Practice.studentId practice) studentId)
      then (Status403, collection)
      else (Status200,
            Assignment.modify_first byId (fun e => (fst e, deactivate (snd e))) collection)
  end.

End PracticeSchema.

(** ** models/Media.js: the virtuals and the average *)

Module MediaSchema.

(** The virtual [viewCount]. *)
Definition viewCount (m : Media.t) : nat := List.length (Media.views m).

(** The virtual [uniqueViewers]: the size of the [Set] of the viewers' ids. *)
Definition uniqueViewers (m : Media.t) : nat :=
  List.length (ReportController.distinct (map View.studentId (Media.views m))).


End MediaSchema.

(** ** middleware/upload.js: the file filter and the destination *)

Module Upload.

(** The directories [ensureUploadDirs] creates. *)
Definition dirs : list string :=
  ["uploads/videos"; "uploads/images"; "uploads/documents"; "uploads/thumbnails"].

(** The object [allowedTypes] of [fileFilter]. *)
Definition allowedTypes : list (string * string) :=
  [("video/mp4", ".mp4"); ("video/avi", ".avi"); ("video/mov", ".mov");
   ("video/wmv", ".wmv"); ("video/webm", ".webm");
   ("image/jpeg", ".jpg"); ("image/jpg", ".jpg"); ("image/png", ".png");
   ("image/gif", ".gif"); ("image/webp", ".webp");
   ("application/pdf", ".pdf"); ("application/msword", ".doc");
   ("application/vnd.openxmlformats-officedocument.wordprocessingml.document", ".docx");
   ("text/plain", ".txt")].

(** The property names an object literal inherits from [Object.prototype];
    each reads a truthy value. *)
Definition inheritedKeys : list string :=
  ["constructor"; "__defineGetter__"; "__defineSetter__"; "hasOwnProperty";
   "__lookupGetter__"; "__lookupSetter__"; "isPrototypeOf"; "propertyIsEnumerable";
   "toString"; "valueOf"; "__proto__"; "toLocaleString"].

(** [fileFilter]: [true] for [cb(null, true)], [false] for the error. *)
Definition fileFilter (mimetype : string) : bool :=
  existsb (fun entry => String.eqb (fst entry) mimetype) allowedTypes
  || existsb (String.eqb mimetype) inheritedKeys.

(** The [destination] of the disk storage. *)
Definition destination (mimetype : string) : string :=
  ("uploads/" ++
   (if String.prefix "video/" mimetype then "videos/"
    else if String.prefix "image/" mimetype then "images/"
    else "documents/"))%string.

End Upload.

(** ** controllers/mediaController.js: the type [uploadMedia] records, reading a media *)

Module MediaController.

(** [let type = 'video'; if (...) type = 'image'; else if (...) type =
    'audio'; else type = 'document';]. *)
Definition uploadMedia_type (mimetype : string) : string :=
  let type := "video" in
  if String.prefix "image/" mimetype then "image"
  else if String.prefix "audio/" mimetype then "audio"
  else "document".

Inductive Response :=
| Status200 (media : Media.t)
| Status403
| Status404
| Status500.

(** [getMediaById]: the media is read with its class populated by
    [populate('classId', 'name subject')]. *)
Definition getMediaById (medias : list (ObjectId * Media.t)) (classes : list Class.t)
           (mediaId userId : ObjectId) (role : string) : Response :=
  match Store.findById medias mediaId with
  | None => Status404
  | Some media =>
      let classData := Populated.classId classes (Media.classId media) in
      match Populated.denied classData role userId with
      | None => Status500
      | Some true => Status403
      | Some false => Status200 media
      end
  end.

End MediaController.

(** ** models/Class.js: enrolment *)

Module ClassSchema.

Record t := {
  _id : ObjectId;
  name : string;
  teacherId : ObjectId;
  students : list ObjectId;
  classCode : string;
  isActive : bool;
  maxStudents : Number;
  updatedAt : Date
}.

(** The fields the other controllers read. *)
Definition read (c : t) : Class.t :=
  {| Class._id := _id c; Class.name := name c; Class.teacherId := teacherId c;
     Class.students := students c |}.

(** [this.students.includes(studentId)]. *)
Definition includes (c : t) (studentId : ObjectId) : bool :=
  Class.includes (read c) studentId.

(** The virtual [studentCount]. *)
Definition studentCount (c : t) : nat := List.length (students c).

Definition set_students (c : t) (l : list ObjectId) : t :=
  {| _id := _id c; name := name c; teacherId := teacherId c; students := l;
     classCode := classCode c; isActive := isActive c; maxStudents := maxStudents c;
     updatedAt := updatedAt c |}.

(** [save()] of a stored class: the hook that draws a class code runs on
    new documents only, the other hook stamps [updatedAt]. *)
Definition save (c : t) (now : Date) : t :=
  {| _id := _id c; name := name c; teacherId := teacherId c; students := students c;
     classCode := classCode c; isActive := isActive c; maxStudents := maxStudents c;
     updatedAt := now |}.

(** [addStudent(studentId)]. *)
Definition addStudent (this : t) (studentId : ObjectId) (now : Date) : t :=
  let this :=
    if negb (includes this studentId)
    then set_students this (students this ++ [studentId])
    else this in
  save this now.

(** [removeStudent(studentId)]. *)
Definition removeStudent (this : t) (studentId : ObjectId) (now : Date) : t :=
  let this :=
    set_students this (filter (fun id => negb (id_eqb id studentId)) (students this)) in
  save this now.

End ClassSchema.

(** ** models/User.js: the classes of a student *)

Module UserSchema.

Record t := {
  _id : ObjectId;
  email : string;
  role : string;
  classIds : list ObjectId
}.

Definition set_classIds (u : t) (l : list ObjectId) : t :=
  {| _id := _id u; email := email u; role := role u; classIds := l |}.

(** [{ $addToSet: { 'studentInfo.classIds': id } }]. *)
Definition addToSet (id : ObjectId) (u : t) : t :=
  if existsb (fun c => id_eqb c id) (classIds u) then u
  else set_classIds u (classIds u ++ [id]).

(** [{ $pull: { 'studentInfo.classIds': id } }]. *)
Definition pull (id : ObjectId) (u : t) : t :=
  set_classIds u (filter (fun c => negb (id_eqb c id)) (classIds u)).

End UserSchema.

(** ** controllers/classController.js: joining, adding, removing, deleting *)

Module ClassController.

(** The two collections the enrolment writes. *)
Record Db := {
  classes : list ClassSchema.t;
  users : list UserSchema.t
}.

Inductive Response :=
| Status200
| Status400 (message : string)
| Status403
| Status404 (message : string).

(** Writing a class document back under its [_id]. *)
Definition saveClass (c : ClassSchema.t) (cs : list ClassSchema.t) : list ClassSchema.t :=
  Assignment.modify_first
    (fun stored => id_eqb (ClassSchema._id stored) (ClassSchema._id c)) (fun _ => c) cs.

(** [User.findByIdAndUpdate(id, update)]. *)
Definition findByIdAndUpdate (id : ObjectId) (update : UserSchema.t -> UserSchema.t)
           (us : list UserSchema.t) : list UserSchema.t :=
  Assignment.modify_first (fun u => id_eqb (UserSchema._id u) id) update us.

(** [Class.findByIdAndDelete(id)] removes the first document found. *)
Fixpoint deleteFirst {A} (p : A -> bool) (l : list A) : list A :=
  match l with
  | [] => []
  | x :: l' => if p x then l' else x :: deleteFirst p l'
  end.

(** [classData.students.length >= classData.maxStudents]. *)
Definition isFull (c : ClassSchema.t) : bool :=
  ge (of_nat (List.length (ClassSchema.students c))) (ClassSchema.maxStudents c).

Section JoinClassByCode.

(** [String.prototype.toUpperCase]. *)
Variable toUpperCase : string -> string.

(** [joinClassByCode]; [studentId] is [req.user._id]. *)
Definition joinClassByCode (validationOk : bool) (db : Db) (classCode : string)
           (studentId : ObjectId) (now : Date) : Response * Db :=
  if negb validationOk then (Status400 "Validation failed", db)
  else
    match find (fun c => String.eqb (ClassSchema.classCode c) (toUpperCase classCode))
               (classes db) with
    | None => (Status404 "Invalid class code", db)
    | Some classData =>
        if negb (ClassSchema.isActive classData)
        then (Status400 "This class is no longer active", db)
        else if isFull classData
        then (Status400 "This class is full", db)
        else if ClassSchema.includes classData studentId
        then (Status400 "You are already enrolled in this class", db)
        else
          (Status200,
           {| classes := saveClass (ClassSchema.addStudent classData studentId now)
                                   (classes db);
              users := findByIdAndUpdate
                         studentId (UserSchema.addToSet (ClassSchema._id classData))
                         (users db) |})
    end.

End JoinClassByCode.

(** The middleware [isClassTeacher]: the class of [req.params.classId],
    for its teacher. *)
Definition isClassTeacher (db : Db) (classId userId : ObjectId)
  : Response + ClassSchema.t :=
  match find (fun c => id_eqb (ClassSchema._id c) classId) (classes db) with
  | None => inl (Status404 "Class not found.")
  | Some classData =>
      if negb (id_eqb (ClassSchema.teacherId classData) userId) then inl Status403
      else inr classData
  end.

(** [addStudentToClass] behind [isClassTeacher]. *)
Definition addStudentToClass (validationOk : bool) (db : Db) (classId userId : ObjectId)
           (studentEmail : string) (now : Date) : Response * Db :=
  match isClassTeacher db classId userId with
  | inl response => (response, db)
  | inr classData =>
      if negb validationOk then (Status400 "Validation failed", db)
      else
        match find (fun u => String.eqb (UserSchema.email u) studentEmail
                             && String.eqb (UserSchema.role u) "student")
                   (users db) with
        | None => (Status404 "Student not found with this email", db)
        | Some student =>
            if ClassSchema.includes classData (UserSchema._id student)
            then (Status400 "Student is already enrolled in this class", db)
            else if isFull classData
            then (Status400 "Class is full", db)
            else
              (Status200,
               {| classes := saveClass
                               (ClassSchema.addStudent classData (UserSchema._id student) now)
                               (classes db);
                  users := findByIdAndUpdate
                             (UserSchema._id student) (UserSchema.addToSet classId)
                             (users db) |})
        end
  end.

(** [removeStudentFromClass] behind [isClassTeacher]. *)
Definition removeStudentFromClass (db : Db) (classId userId studentId : ObjectId)
           (now : Date) : Response * Db :=
  match isClassTeacher db classId userId with
  | inl response => (response, db)
  | inr classData =>
      if negb (ClassSchema.includes classData studentId)
      then (Status400 "Student is not enrolled in this class", db)
      else
        (Status200,
         {| classes := saveClass (ClassSchema.removeStudent classData studentId now)
                                 (classes db);
            users := findByIdAndUpdate
                       studentId (UserSchema.pull (ClassSchema._id classData))
                       (users db) |})
  end.

(** [deleteClass] behind [isClassTeacher], on the two collections:
    [User.updateMany] pulls the class from every student that lists it,
    [Class.findByIdAndDelete] removes the class. *)
Definition deleteClass (db : Db) (classId userId : ObjectId) : Response * Db :=
  match isClassTeacher db classId userId with
  | inl response => (response, db)
  | inr _ =>
      (Status200,
       {| classes := deleteFirst (fun c => id_eqb (ClassSchema._id c) classId)
                                 (classes db);
          users := map (fun u =>
                          if existsb (fun c => id_eqb c classId) (UserSchema.classIds u)
                          then UserSchema.pull classId u else u)
                       (users db) |})
  end.

End ClassController.

(** ** The paging of the list endpoints *)

Module Pagination.

(** [Math.ceil]. *)
Definition Math_ceil (x : Number) : Number := inject_Z (Qceiling x).

(** [.skip((page - 1) * limit).limit(parseInt(limit))] on the sorted
    matches of the query, as [getPracticeHistory], [getClassMedia],
    [getClassAssignments] and [getAllUsers] page their lists; [page] and
    [limit] are whole numbers from 1, as the routes' validators describe
    them. *)
Definition skip (page limit : positive) : nat :=
  ((Pos.to_nat page - 1) * Pos.to_nat limit)%nat.

Definition results {A} (sorted : list A) (page limit : positive) : list A :=
  firstn (Pos.to_nat limit) (skipn (skip page limit) sorted).

(** [pages: Math.ceil(total / limit)]. *)
Definition pages (total : nat) (limit : positive) : Number :=
  Math_ceil (of_nat total / of_nat (Pos.to_nat limit)).

End Pagination.

(** * The rules of the specification, to compare the code with *)

(** The sum of a list of numbers. *)
Definition total (l : list Number) : Number := fold_right Qplus 0 l.

Module WritingSpec.

(** The number of positions [i < min(len1, len2)] where the two
    normalized strings carry the same character. *)
Definition equalPositions (n1 n2 : string) : nat :=
  List.length (filter (charAt_eqb n1 n2)
                      (seq 0 (Nat.min (String.length n1) (String.length n2)))).

(** The similarity as the specification words it: 1 for identical
    normalized strings, else equal positions over the longer length. *)
Definition similarity (content target : string) : Number :=
  let n1 := Practice.normalize content in
  let n2 := Practice.normalize target in
  if String.eqb n1 n2 then 1
  else of_nat (equalPositions n1 n2)
       / of_nat (Nat.max (String.length n1) (String.length n2)).

(** The rule of the specification for a session and its target, in the
    arithmetic of JavaScript: the similarity is the double nearest the
    ratio, and each product and quotient is a double. *)
Definition rule (p : Practice.t) (target : string) : Prop :=
  let p' := Practice.evaluateWriting p in
  Practice.accuracy p'
  == Math_round (fmul (double (similarity (Practice.content p) target)) 100)
  /\ Practice.score p'
     == Math_round (fmul (fdiv (Practice.accuracy p') 100) (Practice.maxScore p)).

(** The rule for every pair of content strings of a writing session. *)
Definition rule_for_every_pair : Prop :=
  forall (p : Practice.t) (target : string),
    Practice.type p = Practice.writing ->
    Practice.targetContent p = Some target ->
    rule p target.

(** A writing session with the given strings and an accuracy that the
    client sent. *)
Definition session (content : string) (target : option string) (accuracy : Number)
  : Practice.t :=
  {| Practice.studentId := "64b000000000000000000001";
     Practice.type := Practice.writing;
     Practice.category := "word";
     Practice.content := content;
     Practice.targetContent := target;
     Practice.accuracy := accuracy;
     Practice.strokes := 0;
     Practice.timeSpent := 30;
     Practice.attempts := 1;
     Practice.difficulty := "easy";
     Practice.typingData :=
       {| Practice.charactersPerMinute := None; Practice.wordsPerMinute := None;
          Practice.errorCount := None; Practice.keystrokeData := [] |};
     Practice.score := 0;
     Practice.maxScore := 100;
     Practice.isCompleted := false;
     Practice.completionTime := None;
     Practice.classId := None;
     Practice.assignmentId := None;
     Practice.isActive := true;
     Practice.date := 0%Z |}.

(** [n] times the letter [c]. *)
Fixpoint letters (n : nat) (c : ascii) : string :=
  match n with
  | O => EmptyString
  | S n' => String c (letters n' c)
  end.

(** 23 letters [a] and 17 letters [b], against 40 letters [a]: 23 equal
    positions of 40. *)
Definition partly : string := (letters 23 "a" ++ letters 17 "b")%string.
Definition fully : string := letters 40 "a".

End WritingSpec.

Module ProgressSpec.

(** The sum of a list the way JavaScript adds it up: from 0, left to
    right, each step a double. *)
Definition sum (l : list Number) : Number := fold_left fadd l 0.

Definition mean (l : list Number) : Number := fdiv (sum l) (of_nat (List.length l)).

(** What a category adds: its mean over 100 times its weight. *)
Definition contribution (values : list Number) (w : Number) : Number :=
  fmul (fdiv (mean values) 100) w.

(** A category that has data applies: it comes with its contribution and
    its weight. *)
Definition applied (values : list Number) (w : Number) : list (Number * Number) :=
  match values with
  | [] => []
  | _ => [(contribution values w, w)]
  end.

Definition overallProgressScore (accuracies percentages watched : list Number) : Number :=
  let parts := (applied accuracies 40 ++ applied percentages 40 ++ applied watched 20)%list in
  match parts with
  | [] => 0
  | _ =>
      let sumOfContributions := sum (map fst parts) in
      let sumOfAppliedWeights := sum (map snd parts) in
      Math_round (fmul (fdiv sumOfContributions sumOfAppliedWeights) 100)
  end.

(** A [getStudentStats] row of the writing type with the given average
    accuracy. *)
Definition practiceRow (averageAccuracy : Number) : ReportController.PracticeStat.t :=
  {| ReportController.PracticeStat._id := Practice.writing;
     ReportController.PracticeStat.totalPractices := 4;
     ReportController.PracticeStat.averageAccuracy := averageAccuracy;
     ReportController.PracticeStat.averageScore := averageAccuracy;
     ReportController.PracticeStat.totalTimeSpent := 120;
     ReportController.PracticeStat.completedPractices := 2 |}.

(** A row of the assignment-performance aggregation with the given
    average percentage. *)
Definition assignmentRow (averagePercentage : Number)
  : ReportController.AssignmentPerformance.t :=
  {| ReportController.AssignmentPerformance._id := "64c000000000000000000001";
     ReportController.AssignmentPerformance.totalAssignments := 1;
     ReportController.AssignmentPerformance.averageScore := 0;
     ReportController.AssignmentPerformance.averagePercentage := averagePercentage;
     ReportController.AssignmentPerformance.totalPoints := 100;
     ReportController.AssignmentPerformance.earnedPoints := 0 |}.

End ProgressSpec.

Module GradingSpec.

(** The question an answer refers to, when the assignment has it. *)
Definition matching (qs : list Question.t) (a : Answer.t) : option Question.t :=
  Assignment.questions_id qs (Answer.questionId a).

(** Trimmed, case-insensitive equality of two texts. *)
Definition sameText (submitted correct : string) : Prop :=
  trim (toLowerCase submitted) = trim (toLowerCase correct).

(** An answer is correct when its question exists, has a correct answer,
    and that answer is the same text. *)
Definition isCorrect (qs : list Question.t) (a : Answer.t) : bool :=
  match matching qs a with
  | Some q =>
      match Question.correctAnswer q with
      | Some correct => Assignment.sameAnswer (Answer.answer a) correct
      | None => false
      end
  | None => false
  end.

(** Full points of the question on a match, zero otherwise. *)
Definition awarded (qs : list Question.t) (a : Answer.t) : Number :=
  match matching qs a with
  | Some q => if isCorrect qs a then Question.points q else 0
  | None => 0
  end.

Definition graded (qs : list Question.t) (a : Answer.t) : GradedAnswer.t :=
  {| GradedAnswer.questionId := Answer.questionId a;
     GradedAnswer.answer := Answer.answer a;
     GradedAnswer.isCorrect := isCorrect qs a;
     GradedAnswer.pointsEarned := awarded qs a |}.

(** Every answered question that the assignment has carries a correct
    answer. *)
Definition answerable (qs : list Question.t) (answers : list Answer.t) : Prop :=
  forall a q, In a answers -> matching qs a = Some q ->
              Question.correctAnswer q <> None.

(** Some answer refers to a question the assignment does not have. *)
Definition refersToAbsent (qs : list Question.t) (answers : list Answer.t) : Prop :=
  exists a, In a answers /\ matching qs a = None.

(** The submissions of one student. *)
Definition submissionsOf (studentId : ObjectId) (subs : list Submission.t)
  : list Submission.t :=
  filter (fun s => id_eqb (Submission.studentId s) studentId) subs.

(** The submissions of everybody else. *)
Definition submissionsOfOthers (studentId : ObjectId) (subs : list Submission.t)
  : list Submission.t :=
  filter (fun s => negb (id_eqb (Submission.studentId s) studentId)) subs.

(** An absent question makes the call fail. *)
Definition absent_question_fails : Prop :=
  forall (a : Assignment.t) (studentId : ObjectId) (answers : list Answer.t) (now : Date),
    refersToAbsent (Assignment.questions a) answers ->
    exists e doc, Assignment.submitAssignment a studentId answers now = Throw e doc.

(** *** Sample documents *)

Definition assignmentWith (qs : list Question.t) (totalPoints : Number)
           (subs : list Submission.t) : Assignment.t :=
  {| Assignment.title := "Fingerspelling quiz";
     Assignment.questions := qs;
     Assignment.totalPoints := totalPoints;
     Assignment.dueDate := 1800000000000%Z;
     Assignment.classId := "64c000000000000000000001";
     Assignment.createdBy := "64a000000000000000000001";
     Assignment.submissions := subs;
     Assignment.isPublished := true;
     Assignment.allowLateSubmission := false;
     Assignment.latePenalty := 0;
     Assignment.isActive := true;
     Assignment.updatedAt := 1790000000000%Z |}.

Definition shortQuestion : Question.t :=
  {| Question._id := "q1";
     Question.questionText := "Which letter does a closed fist with the thumb aside show?";
     Question.questionType := Question.short_answer;
     Question.options := [];
     Question.correctAnswer := Some "A";
     Question.points := 2;
     Question.order := 1 |}.

Definition choiceQuestion : Question.t :=
  {| Question._id := "q2";
     Question.questionText := "The sign for thank you starts at the chin.";
     Question.questionType := Question.true_false;
     Question.options := ["true"; "false"];
     Question.correctAnswer := Some "True";
     Question.points := 3;
     Question.order := 2 |}.

(** A question created without [correctAnswer], as the create route allows. *)
Definition essayQuestion : Question.t :=
  {| Question._id := "q3";
     Question.questionText := "Describe how you sign your name.";
     Question.questionType := Question.long_answer;
     Question.options := [];
     Question.correctAnswer := None;
     Question.points := 5;
     Question.order := 3 |}.

Definition answerTo (questionId : ObjectId) (text : string) : Answer.t :=
  {| Answer.questionId := questionId; Answer.answer := text |}.

Definition alice : ObjectId := "64b000000000000000000001".
Definition bob : ObjectId := "64b000000000000000000002".
Definition teacher : ObjectId := "64a000000000000000000001".

Definition earlier (studentId : ObjectId) (score : Number) : Submission.t :=
  {| Submission.studentId := studentId;
     Submission.answers := [];
     Submission.score := score;
     Submission.percentage := 0;
     Submission.feedback := None;
     Submission.submittedAt := 1780000000000%Z;
     Submission.gradedAt := None;
     Submission.gradedBy := None |}.

Definition quiz : Assignment.t :=
  assignmentWith [shortQuestion; choiceQuestion] 5 [earlier alice 0; earlier bob 3].

Definition quizWithEssay : Assignment.t :=
  assignmentWith [shortQuestion; choiceQuestion; essayQuestion] 10 [earlier alice 2].

End GradingSpec.

Module ViewSpec.

(** The view records of one student. *)
Definition viewsOf (studentId : ObjectId) (vs : list View.t) : list View.t :=
  filter (fun v => id_eqb (View.studentId v) studentId) vs.

(** The record that [addView] finds for a student. *)
Definition recordOf (studentId : ObjectId) (vs : list View.t) : option View.t :=
  find (fun v => id_eqb (View.studentId v) studentId) vs.

Definition atMostOnePerStudent (vs : list View.t) : Prop :=
  forall s, (List.length (viewsOf s vs) <= 1)%nat.

Definition mediaWith (vs : list View.t) : Media.t :=
  {| Media.title := "Alphabet A to F";
     Media.classId := "64c000000000000000000001";
     Media.uploadedBy := "64a000000000000000000001";
     Media.views := vs;
     Media.isActive := true;
     Media.updatedAt := 1790000000000%Z |}.

Definition viewer : ObjectId := "64b000000000000000000001".

(** The percentages on record after a sequence of calls. *)
Definition percentages (m : Media.t) : list (ObjectId * Number) :=
  map (fun v => (View.studentId v, View.percentage v)) (Media.views m).

End ViewSpec.

Module WindowSpec.

(** The endpoints that resolve a period token. *)
Inductive Endpoint :=
| StudentProgressReport
| ClassAnalytics
| PracticeStats
| StudentPracticeAnalytics.

(** The lower bound of the window an endpoint computes, on a server of
    the zone [LocalTZA]. *)
Definition startDate (LocalTZA : Zone) (e : Endpoint) : string -> Date -> Date :=
  match e with
  | StudentProgressReport => ReportController.getStudentProgressReport_startDate LocalTZA
  | ClassAnalytics => ReportController.getClassAnalytics_startDate
  | PracticeStats => PracticeController.getPracticeStats_startDate LocalTZA
  | StudentPracticeAnalytics => PracticeController.getStudentPracticeAnalytics_startDate
  end.

(** The endpoints of the report controller. *)
Definition isReport (e : Endpoint) : bool :=
  match e with
  | StudentProgressReport | ClassAnalytics => true
  | _ => false
  end.

(** The tokens that the [switch] of an endpoint lists. *)
Definition listed (e : Endpoint) : list string :=
  match e with
  | StudentProgressReport => ["week"; "month"; "quarter"; "year"]
  | ClassAnalytics => ["week"; "month"; "quarter"]
  | PracticeStats => ["day"; "week"; "month"; "year"]
  | StudentPracticeAnalytics => ["week"; "month"; "quarter"]
  end.

(** The [default:] branch of an endpoint. *)
Definition fallback (e : Endpoint) (now : Date) : Date :=
  match e with
  | PracticeStats => daysAgo 7 now
  | _ => daysAgo 30 now
  end.

(** The local time value of the midnight that starts the local day of
    [now]. *)
Definition localMidnight (LocalTZA : Zone) (now : Date) : Z :=
  ((LocalTime LocalTZA now / msPerDay) * msPerDay)%Z.

(** The day number of the first of January of the year [y]. *)
Definition newYear (y : Z) : Z := days_from_civil y 1 1.

(** The instant of the local midnight that starts the day of [now]. *)
Definition startOfDay (LocalTZA : Zone) (now : Date) : Date :=
  UTC LocalTZA (localMidnight LocalTZA now).

(** The instant of the local midnight that starts the first day of the
    month of [now]. *)
Definition startOfMonth (LocalTZA : Zone) (now : Date) : Date :=
  UTC LocalTZA (localMidnight LocalTZA now - (getDate LocalTZA now - 1) * msPerDay)%Z.

(** The instant of the local midnight that starts the first of January of
    the year of [now]. *)
Definition startOfYear (LocalTZA : Zone) (now : Date) : Date :=
  UTC LocalTZA (newYear (getFullYear LocalTZA now) * msPerDay)%Z.

(** The table of the specification, read for every endpoint of the
    report controller and for the practice-stats endpoint. *)
Definition uniform_table : Prop :=
  forall (LocalTZA : Zone) (e : Endpoint) (now : Date),
    (isReport e = true \/ e = PracticeStats) ->
    startDate LocalTZA e "week" now = daysAgo 7 now
    /\ startDate LocalTZA e "month" now
       = (if isReport e then daysAgo 30 now else startOfMonth LocalTZA now)
    /\ startDate LocalTZA e "quarter" now = daysAgo 90 now
    /\ startDate LocalTZA e "year" now = startOfYear LocalTZA now
    /\ startDate LocalTZA e "day" now = startOfDay LocalTZA now.

(** 2026-11-02T10:30:00Z. *)
Definition sampleNow : Date := 1793615400000%Z.

(** 2026-10-31T20:00:00Z, which is 2026-11-01T01:30 in India. *)
Definition sampleEvening : Date := 1793476800000%Z.

(** UTC, and Indian Standard Time, five and a half hours ahead. *)
Definition utc : Zone := fixedZone 0.
Definition ist : Zone := fixedZone 19800000.

End WindowSpec.

Module EngagementSpec.




(** *** A class of four students with 10, 2, 8 and 1 sessions, all of
    accuracy 95 *)

Definition class1 : ObjectId := "64c000000000000000000001".

Definition student (n : string) : User.t :=
  {| User._id := n; User.name := n; User.email := (n ++ "@school.example")%string |}.


Definition sessionOf (studentId : ObjectId) : Practice.t :=
  {| Practice.studentId := studentId;
     Practice.type := Practice.typing;
     Practice.category := "alphabet";
     Practice.content := "abc";
     Practice.targetContent := None;
     Practice.accuracy := 95;
     Practice.strokes := 0;
     Practice.timeSpent := 60;
     Practice.attempts := 1;
     Practice.difficulty := "easy";
     Practice.typingData :=
       {| Practice.charactersPerMinute := None; Practice.wordsPerMinute := None;
          Practice.errorCount := None; Practice.keystrokeData := [] |};
     Practice.score := 95;
     Practice.maxScore := 100;
     Practice.isCompleted := true;
     Practice.completionTime := Some 60;
     Practice.classId := Some class1;
     Practice.assignmentId := None;
     Practice.isActive := true;
     Practice.date := 1793000000000%Z |}.




End EngagementSpec.

Module SavePracticeSpec.

(** A request of a student outside any class. *)
Definition request (type : Practice.PracticeType) (content : string)
           (targetContent : option string) (accuracy attempts : option Number)
  : PracticeController.Body :=
  {| PracticeController.type := type;
     PracticeController.category := "word";
     PracticeController.content := content;
     PracticeController.targetContent := targetContent;
     PracticeController.accuracy := accuracy;
     PracticeController.strokes := None;
     PracticeController.timeSpent := Some 42;
     PracticeController.attempts := attempts;
     PracticeController.difficulty := None;
     PracticeController.typingData := None;
     PracticeController.classId := None;
     PracticeController.assignmentId := None |}.

(** What the response tells of the stored session: accuracy, attempts,
    completion flag and completion time. *)
Definition outcome (r : PracticeController.Response)
  : option (Number * Number * bool * option Number) :=
  match r with
  | PracticeController.Status201 p =>
      Some (Practice.accuracy p, Practice.attempts p, Practice.isCompleted p,
            Practice.completionTime p)
  | _ => None
  end.

Definition student : ObjectId := "64b000000000000000000001".

End SavePracticeSpec.

Module AssignmentFacts.

(** The points of the question an id refers to, 0 when there is none. *)
Definition pointsOf (qs : list Question.t) (id : ObjectId) : Number :=
  match Assignment.questions_id qs id with
  | Some q => Question.points q
  | None => 0
  end.

(** The score [submitAssignment] stores for the student, when it completes. *)
Definition storedScore (c : completion Assignment.t) (studentId : ObjectId)
  : option Number :=
  match c with
  | Normal a' =>
      match GradingSpec.submissionsOf studentId (Assignment.submissions a') with
      | [s] => Some (Submission.score s)
      | _ => None
      end
  | Throw _ _ => None
  end.

Definition sampleInput (text : string) (correct : option string) (points : option Number)
  : AssignmentController.QuestionInput :=
  {| AssignmentController.questionText := text;
     AssignmentController.questionType := None;
     AssignmentController.options := [];
     AssignmentController.correctAnswer := correct;
     AssignmentController.points := points |}.

Definition sampleId (index : nat) : ObjectId :=
  match index with
  | 0%nat => "q1"
  | 1%nat => "q2"
  | _ => "q3"
  end.

End AssignmentFacts.

Module PracticeFacts.

(** The ratings from the lowest to the highest. *)
Definition rank (r : PracticeSchema.Rating) : nat :=
  match r with
  | PracticeSchema.needs_improvement => 0
  | PracticeSchema.fair => 1
  | PracticeSchema.good => 2
  | PracticeSchema.excellent => 3
  end.

(** What [getStudentStats] reads of a session. *)
Definition sameForStats (p q : Practice.t) : Prop :=
  Practice.studentId p = Practice.studentId q
  /\ Practice.type p = Practice.type q
  /\ Practice.date p = Practice.date q
  /\ Practice.accuracy p = Practice.accuracy q
  /\ Practice.score p = Practice.score q
  /\ Practice.timeSpent p = Practice.timeSpent q
  /\ Practice.isCompleted p = Practice.isCompleted q.

Definition anyTime : PracticeSchema.DateRange :=
  {| PracticeSchema.start := None; PracticeSchema.finish := None |}.

(** A typing session of the given number of seconds with the given
    keystrokes. *)
Definition typedIn (seconds : Number) (keys : list bool) : Practice.t :=
  {| Practice.studentId := "ana";
     Practice.type := Practice.typing;
     Practice.category := "word";
     Practice.content := "hello";
     Practice.targetContent := None;
     Practice.accuracy := 70;
     Practice.strokes := 0;
     Practice.timeSpent := seconds;
     Practice.attempts := 1;
     Practice.difficulty := "easy";
     Practice.typingData :=
       {| Practice.charactersPerMinute := None; Practice.wordsPerMinute := None;
          Practice.errorCount := None;
          Practice.keystrokeData :=
            map (fun ok => {| Practice.key := "k"; Practice.isCorrect := ok |}) keys |};
     Practice.score := 0;
     Practice.maxScore := 100;
     Practice.isCompleted := false;
     Practice.completionTime := None;
     Practice.classId := Some EngagementSpec.class1;
     Practice.assignmentId := None;
     Practice.isActive := true;
     Practice.date := 1793000000000%Z |}.

(** A typing session of 60 seconds with the given keystrokes. *)
Definition typed (keys : list bool) : Practice.t := typedIn 60 keys.

Definition collection : PracticeSchema.Collection :=
  [("p1", EngagementSpec.sessionOf "ana"); ("p2", typed [true; true; false]);
   ("p3", EngagementSpec.sessionOf "ben")].

End PracticeFacts.

Module MediaFacts.

(** The percentage on record for a student. *)
Definition storedPercentage (m : Media.t) (studentId : ObjectId) : option Number :=
  option_map View.percentage (ViewSpec.recordOf studentId (Media.views m)).


Definition viewOf (studentId : ObjectId) (percentage : Number) : View.t :=
  {| View.studentId := studentId; View.percentage := percentage;
     View.date := 1795000000000%Z |}.

Definition watched : Media.t :=
  ViewSpec.mediaWith [viewOf "ana" 40; viewOf "ben" 80].

End MediaFacts.

Module EndpointFacts.

(** The class of the sample quizzes, with its two students. *)
Definition signClass : Class.t :=
  {| Class._id := "64c000000000000000000001";
     Class.name := "Sign language, beginners";
     Class.teacherId := GradingSpec.teacher;
     Class.students := [GradingSpec.alice; GradingSpec.bob] |}.

Definition quizId : ObjectId := "64d000000000000000000001".

Definition assignments : list (ObjectId * Assignment.t) := [(quizId, GradingSpec.quiz)].

(** A request that replaces the questions of the quiz by one question of
    10 points. *)
Definition harderQuiz : AssignmentController.UpdateBody :=
  {| AssignmentController.title := None;
     AssignmentController.questions :=
       Some [ {| AssignmentController.questionText := "Spell your first name.";
                 AssignmentController.questionType := None;
                 AssignmentController.options := [];
                 AssignmentController.correctAnswer := Some "ana";
                 AssignmentController.points := Some 10 |} ];
     AssignmentController.dueDate := None;
     AssignmentController.allowLateSubmission := None;
     AssignmentController.latePenalty := None;
     AssignmentController.isPublished := None |}.

Definition newId (index : nat) : ObjectId :=
  match index with
  | 0%nat => "n1"
  | _ => "n2"
  end.

End EndpointFacts.

Module EnrolmentFacts.

(** What the enrolment keeps true of the two collections: ids are unique,
    no class lists a student twice or beyond its capacity, which is a
    whole number, no student lists a class twice, a student lists a class
    exactly when the class lists the student, and every listed class
    exists. *)
Record consistent (db : ClassController.Db) : Prop := {
  class_ids : NoDup (map ClassSchema._id (ClassController.classes db));
  user_ids : NoDup (map UserSchema._id (ClassController.users db));
  students_once :
    forall c, In c (ClassController.classes db) -> NoDup (ClassSchema.students c);
  capacity_whole :
    forall c, In c (ClassController.classes db) ->
              exists k : Z, ClassSchema.maxStudents c == inject_Z k;
  within_capacity :
    forall c, In c (ClassController.classes db) ->
              of_nat (ClassSchema.studentCount c) <= ClassSchema.maxStudents c;
  classes_once :
    forall u, In u (ClassController.users db) -> NoDup (UserSchema.classIds u);
  two_sided :
    forall u c, In u (ClassController.users db) -> In c (ClassController.classes db) ->
                (In (ClassSchema._id c) (UserSchema.classIds u)
                 <-> In (UserSchema._id u) (ClassSchema.students c));
  listed_exists :
    forall u id, In u (ClassController.users db) -> In id (UserSchema.classIds u) ->
                 In id (map ClassSchema._id (ClassController.classes db))
}.

Definition ana : UserSchema.t :=
  {| UserSchema._id := "64b000000000000000000001";
     UserSchema.email := "ana@example.org";
     UserSchema.role := "student";
     UserSchema.classIds := ["64c000000000000000000001"] |}.

Definition ben : UserSchema.t :=
  {| UserSchema._id := "64b000000000000000000002";
     UserSchema.email := "ben@example.org";
     UserSchema.role := "student";
     UserSchema.classIds := [] |}.

Definition beginners : ClassSchema.t :=
  {| ClassSchema._id := "64c000000000000000000001";
     ClassSchema.name := "Sign language, beginners";
     ClassSchema.teacherId := "64a000000000000000000001";
     ClassSchema.students := ["64b000000000000000000001"];
     ClassSchema.classCode := "AB12CD";
     ClassSchema.isActive := true;
     ClassSchema.maxStudents := 2;
     ClassSchema.updatedAt := 1790000000000%Z |}.

Definition school : ClassController.Db :=
  {| ClassController.classes := [beginners];
     ClassController.users := [ana; ben] |}.

(** The code of a class is stored in upper case; the sample codes have no
    lower-case letter. *)
Definition sameCode (code : string) : string := code.

End EnrolmentFacts.

(** * Properties *)

(** ** Numbers *)


Lemma lt_iff (x y : Number) : lt x y = true <-> x < y.
Proof.
  unfold lt. rewrite Qlt_alt. destruct (x ?= y); split; congruence.
Qed.

Lemma gt_false_of_zero (x : Number) : x == 0 -> gt x 0 = false.
Proof.
  intros E. unfold gt. destruct (lt 0 x) eqn:H; [|reflexivity].
  apply lt_iff in H. rewrite E in H. exfalso. exact (Qlt_irrefl 0 H).
Qed.

Lemma reduce_sum_from {A} (f : A -> Number) (l : list A) (s : Number) :
  fold_left (fun sum x => sum + f x) l s == s + fold_right (fun x sum => f x + sum) 0 l.
Proof.
  revert s. induction l as [|x l IH]; intros s; simpl.
  - ring.
  - rewrite IH. ring.
Qed.

Lemma reduce_sum_spec {A} (f : A -> Number) (l : list A) :
  reduce_sum f l == fold_right (fun x sum => f x + sum) 0 l.
Proof.
  unfold reduce_sum. rewrite reduce_sum_from. ring.
Qed.

(** *** Doubles *)

Lemma rne_bounds (x : Q) : (Qfloor x <= rne x <= Qfloor x + 1)%Z.
Proof.
  unfold rne. destruct (Qcompare _ _); [destruct (Z.even _)| |]; lia.
Qed.

Lemma rne_inject_Z (k : Z) : rne (inject_Z k) = k.
Proof.
  unfold rne. rewrite Qfloor_Z.
  destruct (Qcompare_spec (inject_Z k - inject_Z k) (1 # 2)) as [H|H|H];
    [exfalso; lra|reflexivity|exfalso; lra].
Qed.

Lemma rne_comp (x y : Q) : x == y -> rne x = rne y.
Proof.
  intros E. unfold rne. rewrite (Qfloor_comp _ _ E).
  assert (Qcompare (x - inject_Z (Qfloor y)) (1 # 2)
          = Qcompare (y - inject_Z (Qfloor y)) (1 # 2)) as -> by now rewrite E.
  reflexivity.
Qed.

Lemma rne_le (x y : Q) : x <= y -> (rne x <= rne y)%Z.
Proof.
  intros H. pose proof (Qfloor_resp_le _ _ H) as Hf.
  pose proof (rne_bounds x) as Bx. pose proof (rne_bounds y) as By.
  destruct (Z.eq_dec (Qfloor x) (Qfloor y)) as [E|N]; [|lia].
  unfold rne in *. rewrite E in *.
  destruct (Qcompare_spec (x - inject_Z (Qfloor y)) (1 # 2)) as [Hx|Hx|Hx];
    destruct (Qcompare_spec (y - inject_Z (Qfloor y)) (1 # 2)) as [Hy|Hy|Hy];
    try destruct (Z.even (Qfloor y)); try lia; exfalso; lra.
Qed.

Lemma pow2_pos (e : Z) : 0 < 2 ^ e.
Proof. apply Qpower_0_lt. reflexivity. Qed.

Lemma pow2_succ (e : Z) : 2 ^ (e + 1) == 2 * 2 ^ e.
Proof. rewrite Qpower_plus by discriminate. rewrite Qpower_1_r. ring. Qed.

Lemma pow2_le (a b : Z) : (a <= b)%Z -> 2 ^ a <= 2 ^ b.
Proof. intros H. apply Qpower_le_compat_l; [exact H|discriminate]. Qed.

Lemma pow2_inject (a : Z) : (0 <= a)%Z -> inject_Z (2 ^ a) == 2 ^ a.
Proof. intros H. now rewrite Zpower_Qpower. Qed.

(** [ilog2] is the binary exponent: [2 ^ ilog2 x <= x < 2 ^ (ilog2 x + 1)]. *)
Lemma ilog2_spec (x : Q) : 0 < x -> 2 ^ ilog2 x <= x < 2 ^ (ilog2 x + 1).
Proof.
  intros Hx. destruct x as [n d]. unfold ilog2. cbn [Qnum Qden].
  assert (0 < n)%Z as Hn by (unfold Qlt in Hx; simpl in Hx; lia).
  destruct (Z.log2_spec n Hn) as [A1 A2].
  destruct (Z.log2_spec (Zpos d) ltac:(lia)) as [B1 B2].
  pose proof (Z.log2_nonneg n) as Ha. pose proof (Z.log2_nonneg (Zpos d)) as Hb.
  set (a := Z.log2 n) in *. set (b := Z.log2 (Zpos d)) in *.
  assert (2 ^ (a - b) * inject_Z (2 ^ b) == inject_Z (2 ^ a)) as E.
  { rewrite !pow2_inject by assumption. rewrite Qpower_minus by discriminate.
    field. apply Qnot_eq_sym, Qlt_not_eq, pow2_pos. }
  pose proof (pow2_pos (a - b)) as P.
  assert (n # d == inject_Z n / inject_Z (Zpos d)) as Ex by apply Qmake_Qdiv.
  assert (0 < inject_Z (Zpos d)) as Hd by (rewrite <- (Zlt_Qlt 0); lia).
  assert (inject_Z (2 ^ a) <= inject_Z n) as A1q by (rewrite <- Zle_Qle; exact A1).
  assert (inject_Z n < 2 * inject_Z (2 ^ a)) as A2q.
  { change 2 with (inject_Z 2). rewrite <- inject_Z_mult, <- Zlt_Qlt.
    replace (Z.succ a) with (a + 1)%Z in A2 by lia.
    rewrite Z.pow_add_r, Z.pow_1_r in A2 by lia. lia. }
  assert (inject_Z (2 ^ b) <= inject_Z (Zpos d)) as B1q by (rewrite <- Zle_Qle; exact B1).
  assert (inject_Z (Zpos d) < 2 * inject_Z (2 ^ b)) as B2q.
  { change 2 with (inject_Z 2). rewrite <- inject_Z_mult, <- Zlt_Qlt.
    replace (Z.succ b) with (b + 1)%Z in B2 by lia.
    rewrite Z.pow_add_r, Z.pow_1_r in B2 by lia. lia. }
  assert (0 < inject_Z (2 ^ b)) as Hpb
      by (rewrite pow2_inject by assumption; apply pow2_pos).
  set (N := inject_Z n) in *. set (D := inject_Z (Zpos d)) in *.
  set (A := inject_Z (2 ^ a)) in *. set (B := inject_Z (2 ^ b)) in *.
  set (L := 2 ^ (a - b)) in *.
  assert (L * D < 2 * N) as Lo.
  { apply Qlt_le_trans with (L * (2 * B)).
    - apply Qmult_lt_l; assumption.
    - rewrite (Qmult_comm 2 B), Qmult_assoc, E. lra. }
  assert (N < 2 * L * D) as Hi.
  { apply Qlt_le_trans with (2 * A); [exact A2q|].
    rewrite <- E. rewrite <- !Qmult_assoc. apply Qmult_le_l; [reflexivity|].
    apply Qmult_le_l; assumption. }
  assert (L < 2 * (n # d) /\ (n # d) < 2 * L) as [Lo' Hi'].
  { rewrite Ex. split.
    - apply Qlt_shift_div_l in Lo; [|exact Hd].
      unfold Qdiv in *. rewrite <- Qmult_assoc in Lo. exact Lo.
    - apply Qlt_shift_div_r; [exact Hd|exact Hi]. }
  destruct (Qcompare_spec (n # d) L) as [C|C|C].
  - rewrite pow2_succ. fold L. rewrite C. split; lra.
  - replace (a - b - 1 + 1)%Z with (a - b)%Z by lia. fold L. split; [|exact C].
    assert (L == 2 * 2 ^ (a - b - 1)) as EL.
    { unfold L. rewrite <- pow2_succ. now replace (a - b - 1 + 1)%Z with (a - b)%Z by lia. }
    set (L' := 2 ^ (a - b - 1)) in *. lra.
  - rewrite pow2_succ. fold L. split; lra.
Qed.

Lemma ilog2_le (x y : Q) : 0 < x -> x <= y -> (ilog2 x <= ilog2 y)%Z.
Proof.
  intros Hx Hxy.
  destruct (ilog2_spec x Hx) as [X1 _].
  destruct (ilog2_spec y ltac:(lra)) as [_ Y2].
  assert (2 ^ ilog2 x < 2 ^ (ilog2 y + 1)) as H by lra.
  apply Qpower_lt_compat_l_inv in H; [lia|reflexivity].
Qed.

(** The scaled value of a positive rational lies below [2 ^ 53], and at
    or above [2 ^ 52] unless the exponent is the least one. *)
Lemma scaled_bounds (x : Q) :
  0 < x ->
  let e := Z.max (ilog2 x - 52) (-1074) in
  0 < x / 2 ^ e < 2 ^ 53
  /\ ((-1074 < e)%Z -> 2 ^ 52 <= x / 2 ^ e).
Proof.
  intros Hx e. destruct (ilog2_spec x Hx) as [X1 X2].
  pose proof (pow2_pos e) as Pe.
  assert (2 ^ (ilog2 x + 1) <= 2 ^ (e + 53)) as U by (apply pow2_le; lia).
  assert (2 ^ (e + 53) == 2 ^ 53 * 2 ^ e) as E53
      by (rewrite Qpower_plus by discriminate; ring).
  split; [split|].
  - apply Qlt_shift_div_l; [exact Pe|lra].
  - apply Qlt_shift_div_r; [exact Pe|]. rewrite <- E53. lra.
  - intros Hn. apply Qle_shift_div_l; [exact Pe|].
    assert (2 ^ 52 * 2 ^ e == 2 ^ (e + 52)) as ->
        by (rewrite Qpower_plus by discriminate; ring).
    replace (e + 52)%Z with (ilog2 x) by lia. exact X1.
Qed.

Lemma double_pos_bounds (x : Q) :
  0 < x ->
  let e := Z.max (ilog2 x - 52) (-1074) in
  0 <= double_pos x <= 2 ^ (e + 53)
  /\ ((-1074 < e)%Z -> 2 ^ (e + 52) <= double_pos x).
Proof.
  intros Hx e. destruct (scaled_bounds x Hx) as [[S0 S1] S2]. fold e in S0, S1, S2.
  unfold double_pos. fold e. pose proof (pow2_pos e) as Pe.
  set (q := x / 2 ^ e) in *.
  assert (0 <= rne q <= 2 ^ 53)%Z as [R0 R1].
  { split.
    - rewrite <- (rne_inject_Z 0). apply rne_le. now apply Qlt_le_weak.
    - rewrite <- (rne_inject_Z (2 ^ 53)). apply rne_le.
      rewrite pow2_inject by lia. now apply Qlt_le_weak. }
  assert (2 ^ (e + 53) == inject_Z (2 ^ 53) * 2 ^ e) as E53.
  { rewrite pow2_inject by lia. rewrite Qpower_plus by discriminate. ring. }
  split; [split|].
  - apply Qmult_le_0_compat; [|lra]. change 0 with (inject_Z 0).
    now rewrite <- Zle_Qle.
  - rewrite E53. apply Qmult_le_compat_r; [|lra]. now rewrite <- Zle_Qle.
  - intros Hn. specialize (S2 Hn).
    assert (2 ^ (e + 52) == inject_Z (2 ^ 52) * 2 ^ e) as ->.
    { rewrite pow2_inject by lia. rewrite Qpower_plus by discriminate. ring. }
    apply Qmult_le_compat_r; [|lra]. rewrite <- Zle_Qle.
    rewrite <- (rne_inject_Z (2 ^ 52)). apply rne_le.
    rewrite pow2_inject by lia. exact S2.
Qed.

Lemma double_pos_comp (x y : Q) : x == y -> 0 < x -> double_pos x == double_pos y.
Proof.
  intros E Hx. assert (0 < y) as Hy by lra.
  assert (ilog2 x = ilog2 y) as El.
  { apply Z.le_antisymm; apply ilog2_le; lra. }
  unfold double_pos. rewrite El.
  set (e := Z.max (ilog2 y - 52) (-1074)).
  rewrite (rne_comp (x / 2 ^ e) (y / 2 ^ e)); [reflexivity|now rewrite E].
Qed.

Lemma double_pos_le (x y : Q) : 0 < x -> x <= y -> double_pos x <= double_pos y.
Proof.
  intros Hx Hxy. assert (0 < y) as Hy by lra.
  pose proof (ilog2_le x y Hx Hxy) as Hl.
  destruct (double_pos_bounds x Hx) as [[_ Bx] _].
  destruct (double_pos_bounds y Hy) as [_ By].
  set (ex := Z.max (ilog2 x - 52) (-1074)) in *.
  set (ey := Z.max (ilog2 y - 52) (-1074)) in *.
  destruct (Z.eq_dec ex ey) as [E|N].
  - unfold double_pos. fold ex ey. rewrite E.
    pose proof (pow2_pos ey) as Pe.
    apply Qmult_le_compat_r; [|lra]. rewrite <- Zle_Qle. apply rne_le.
    apply Qmult_le_compat_r; [exact Hxy|]. apply Qlt_le_weak, Qinv_lt_0_compat, Pe.
  - assert (ex < ey)%Z as Hlt by lia.
    apply Qle_trans with (2 ^ (ex + 53)); [exact Bx|].
    apply Qle_trans with (2 ^ (ey + 52)); [apply pow2_le; lia|].
    apply By. lia.
Qed.

Lemma double_comp (x y : Q) : x == y -> double x = double y.
Proof.
  intros E. unfold double. now rewrite (Qred_complete _ _ E).
Qed.

Lemma double_cases (x : Q) :
  (x == 0 /\ double x = 0)
  \/ (0 < x /\ double x == double_pos x)
  \/ (x < 0 /\ double x == - double_pos (- x)).
Proof.
  unfold double. pose proof (Qred_correct x) as R.
  destruct (Qcompare_spec (Qred x) 0) as [C|C|C].
  - left. split; [lra|reflexivity].
  - right. right. split; [lra|]. rewrite Qred_correct.
    apply Qopp_comp. apply double_pos_comp; lra.
  - right. left. split; [lra|]. rewrite Qred_correct.
    apply double_pos_comp; lra.
Qed.

(** Rounding to the nearest double is monotone. *)
Lemma double_le (x y : Q) : x <= y -> double x <= double y.
Proof.
  intros H.
  destruct (double_cases x) as [[Hx Ex]|[[Hx Ex]|[Hx Ex]]];
    destruct (double_cases y) as [[Hy Ey]|[[Hy Ey]|[Hy Ey]]];
    rewrite Ex, Ey; clear Ex Ey.
  - apply Qle_refl.
  - destruct (double_pos_bounds y Hy) as [[B _] _]. exact B.
  - exfalso. lra.
  - exfalso. lra.
  - now apply double_pos_le.
  - exfalso. lra.
  - destruct (double_pos_bounds (- x) ltac:(lra)) as [[B _] _].
    set (d := double_pos (- x)) in *. clearbody d. lra.
  - destruct (double_pos_bounds (- x) ltac:(lra)) as [[B _] _].
    destruct (double_pos_bounds y Hy) as [[B' _] _].
    set (d := double_pos (- x)) in *. set (d' := double_pos y) in *.
    clearbody d d'. lra.
  - apply Qopp_le_compat. apply double_pos_le; lra.
Qed.

Lemma double_0 : double 0 = 0.
Proof. reflexivity. Qed.

Lemma double_nonneg (x : Q) : 0 <= x -> 0 <= double x.
Proof. intros H. rewrite <- double_0. now apply double_le. Qed.

Lemma double_1 : double 1 = 1.
Proof. vm_compute. reflexivity. Qed.

Lemma double_100 : double 100 = 100.
Proof. vm_compute. reflexivity. Qed.

(** The whole numbers up to [2 ^ 53] are doubles. *)
Lemma double_pos_whole (k : Z) :
  (0 < k < 2 ^ 53)%Z -> double_pos (inject_Z k) == inject_Z k.
Proof.
  intros [K0 K1].
  assert (0 < inject_Z k) as Hx by (rewrite <- (Zlt_Qlt 0); exact K0).
  destruct (ilog2_spec _ Hx) as [L1 L2].
  set (l := ilog2 (inject_Z k)) in *.
  assert (0 <= l)%Z as Hl0.
  { destruct (Z_lt_le_dec l 0) as [N|N]; [exfalso|exact N].
    assert (2 ^ (l + 1) <= 2 ^ 0) as P by (apply pow2_le; lia).
    assert (inject_Z k < inject_Z 1) as Q by (change (inject_Z 1) with (2 ^ 0); lra).
    rewrite <- Zlt_Qlt in Q. lia. }
  assert (l <= 52)%Z as Hl1.
  { destruct (Z_lt_le_dec 52 l) as [N|N]; [exfalso|exact N].
    assert (2 ^ 53 <= 2 ^ l) as P by (apply pow2_le; lia).
    assert (inject_Z (2 ^ 53) <= inject_Z k) as Q
        by (rewrite pow2_inject by lia; lra).
    rewrite <- Zle_Qle in Q. lia. }
  unfold double_pos. fold l.
  replace (Z.max (l - 52) (-1074)) with (- (52 - l))%Z by lia.
  set (m := (52 - l)%Z). assert (0 <= m)%Z as Hm by lia.
  pose proof (pow2_pos m) as Pm.
  assert (2 ^ (- m) == / 2 ^ m) as E by apply Qpower_opp.
  assert (inject_Z k / 2 ^ (- m) == inject_Z (k * 2 ^ m)) as Es.
  { rewrite inject_Z_mult, pow2_inject by exact Hm. rewrite E.
    field. apply Qnot_eq_sym, Qlt_not_eq, Pm. }
  rewrite (rne_comp _ _ Es), rne_inject_Z.
  rewrite inject_Z_mult, pow2_inject by exact Hm. rewrite E.
  field. apply Qnot_eq_sym, Qlt_not_eq, Pm.
Qed.

Lemma Qred_inject_Z (k : Z) : Qred (inject_Z k) = inject_Z k.
Proof.
  unfold Qred, inject_Z.
  pose proof (Z.ggcd_gcd k 1) as G. pose proof (Z.ggcd_correct_divisors k 1) as D.
  destruct (Z.ggcd k 1) as [g [a b]]. simpl in *.
  rewrite Z.gcd_1_r in G. subst g. destruct D as [D1 D2].
  f_equal; lia.
Qed.

Lemma double_whole (k : Z) :
  (0 <= k < 2 ^ 53)%Z -> double (inject_Z k) = inject_Z k.
Proof.
  intros [K0 K1]. destruct (Z.eq_dec k 0) as [->|N]; [reflexivity|].
  assert (0 < inject_Z k) as Hx by (rewrite <- (Zlt_Qlt 0); lia).
  unfold double. pose proof (Qred_correct (inject_Z k)) as R.
  destruct (Qcompare_spec (Qred (inject_Z k)) 0) as [C|C|C]; [exfalso; lra|exfalso; lra|].
  assert (double_pos (Qred (inject_Z k)) == inject_Z k) as D.
  { apply Qeq_trans with (double_pos (inject_Z k));
      [apply double_pos_comp; [exact R|exact C]|apply double_pos_whole; lia]. }
  rewrite (Qred_complete _ _ D). apply Qred_inject_Z.
Qed.

(** A value between two doubles rounds to a double between them. *)
Lemma double_between (lo hi x : Number) :
  double lo = lo -> double hi = hi -> lo <= x <= hi -> lo <= double x <= hi.
Proof.
  intros Elo Ehi [H1 H2]. split.
  - rewrite <- Elo. now apply double_le.
  - rewrite <- Ehi. now apply double_le.
Qed.

(** The quotient of a part by its whole is between 0 and 1, and its
    product with 100 between 0 and 100. *)
Lemma fdiv_unit (x y : Number) : 0 <= x <= y -> 0 < y -> 0 <= fdiv x y <= 1.
Proof.
  intros [H0 H1] Hy. unfold fdiv.
  apply double_between; [reflexivity|exact double_1|]. split.
  - apply Qle_shift_div_l; [exact Hy|lra].
  - apply Qle_shift_div_r; [exact Hy|lra].
Qed.

Lemma fmul_100_range (x : Number) : 0 <= x <= 1 -> 0 <= fmul x 100 <= 100.
Proof.
  intros H. unfold fmul.
  apply double_between; [reflexivity|exact double_100|]. lra.
Qed.

(** ** Writing evaluation *)

Lemma positional_matches_from (n1 n2 : string) (l : list nat) (k : nat) :
  fold_left (fun matches i => if charAt_eqb n1 n2 i then S matches else matches) l k
  = (k + List.length (filter (charAt_eqb n1 n2) l))%nat.
Proof.
  revert k. induction l as [|i l IH]; intros k; simpl.
  - lia.
  - rewrite IH. destruct (charAt_eqb n1 n2 i); simpl; lia.
Qed.

Lemma positional_matches_count (n1 n2 : string) :
  Practice.positional_matches n1 n2 (Nat.min (String.length n1) (String.length n2))
  = WritingSpec.equalPositions n1 n2.
Proof.
  unfold Practice.positional_matches, WritingSpec.equalPositions.
  now rewrite positional_matches_from.
Qed.

Lemma length_zero_empty (s : string) : String.length s = 0%nat -> s = EmptyString.
Proof. destruct s; simpl; congruence. Qed.

(** On two non-empty strings the helper computes the specified similarity. *)
Lemma calculateContentSimilarity_spec (content target : string) :
  truthy content = true -> truthy target = true ->
  Practice.calculateContentSimilarity content target
  = WritingSpec.similarity content target.
Proof.
  intros Hc Ht. unfold Practice.calculateContentSimilarity, WritingSpec.similarity.
  rewrite Hc, Ht. simpl.
  destruct (String.eqb (Practice.normalize content) (Practice.normalize target)) eqn:E;
    [reflexivity|].
  destruct (Nat.max _ _ =? 0)%nat eqn:M.
  - apply Nat.eqb_eq in M.
    assert (String.length (Practice.normalize content) = 0%nat) as L1 by lia.
    assert (String.length (Practice.normalize target) = 0%nat) as L2 by lia.
    apply length_zero_empty in L1, L2. rewrite L1, L2 in E. discriminate.
  - now rewrite positional_matches_count.
Qed.

(** C2, as stated, fails on the code: a writing session whose target is
    the empty string keeps the accuracy it was created with (here 73, where
    the rule gives 0), and an empty content against a target that
    normalizes to the empty string gets accuracy 0 (where the rule gives
    100). *)
Lemma evaluateWriting_rule_counterexample :
  ~ WritingSpec.rule_for_every_pair.
Proof.
  intros H.
  destruct (H (WritingSpec.session "abc" (Some EmptyString) 73) EmptyString
              eq_refl eq_refl) as [Hacc _].
  vm_compute in Hacc. discriminate.
Qed.

Example evaluateWriting_empty_content :
  Practice.accuracy (Practice.evaluateWriting (WritingSpec.session "" (Some "!!!") 0)) == 0
  /\ Math_round (fmul (double (WritingSpec.similarity "" "!!!")) 100) == 100.
Proof. split; vm_compute; reflexivity. Qed.

(** 23 equal positions of 40: the ratio 23/40 is not a double, the double
    nearest to it times 100 is the double just below 57.5, and the exact
    product 57.5 would round to 58. *)
Example similarity_23_of_40 :
  WritingSpec.similarity WritingSpec.partly WritingSpec.fully == 23 # 40
  /\ fmul (double (23 # 40)) 100 < 115 # 2
  /\ Math_round (fmul (double (23 # 40)) 100) = 57
  /\ Math_round ((23 # 40) * 100) = 58.
Proof. repeat split; vm_compute; reflexivity. Qed.

(** C2, amended: for every writing session whose content and target are
    both non-empty strings, [evaluateWriting] sets accuracy to
    round(similarity * 100) and score to round(accuracy / 100 * maxScore),
    each product and quotient computed in double precision, where
    similarity is 1 when the normalized strings are identical and otherwise
    the number of positions below min(len1, len2) with equal characters
    over max(len1, len2); normalization lower-cases, strips what is not in
    a-z, 0-9 or white space, and trims.  On "abc" against "abcdef" the
    accuracy is 50; on 23 equal positions of 40 the accuracy is 57 and, of
    a maximum of 100, the score is 57.  With an empty or absent target the
    session is left as it is, and an empty content has similarity 0. *)
Theorem evaluateWriting_rule_nonempty :
  (forall (p : Practice.t) (target : string),
      Practice.type p = Practice.writing ->
      Practice.targetContent p = Some target ->
      truthy (Practice.content p) = true ->
      truthy target = true ->
      WritingSpec.rule p target
      /\ Practice.accuracy (Practice.evaluateWriting p)
         = Math_round
             (fmul (double (WritingSpec.similarity (Practice.content p) target)) 100)
      /\ Practice.score (Practice.evaluateWriting p)
         = Math_round
             (fmul (fdiv (Practice.accuracy (Practice.evaluateWriting p)) 100)
                   (Practice.maxScore p)))
  /\ (forall s : string,
         Practice.normalize s = trim (stripOthers (toLowerCase s)))
  /\ (forall a : Number,
         Practice.accuracy
           (Practice.evaluateWriting (WritingSpec.session "abc" (Some "abcdef") a))
         = 50)
  /\ (forall a : Number,
         let p := Practice.evaluateWriting
                    (WritingSpec.session WritingSpec.partly (Some WritingSpec.fully) a) in
         Practice.accuracy p = 57 /\ Practice.score p = 57)
  /\ (forall p : Practice.t,
         Practice.targetContent p = Some EmptyString \/ Practice.targetContent p = None ->
         Practice.evaluateWriting p = p)
  /\ (forall target : string, Practice.calculateContentSimilarity "" target = 0).
Proof.
  split; [|split; [|split; [|split; [|split]]]].
  - intros p target Hty Htc Hc Ht.
    unfold WritingSpec.rule, Practice.evaluateWriting.
    rewrite Hty, Htc, Ht. simpl.
    rewrite (calculateContentSimilarity_spec _ _ Hc Ht).
    repeat split; reflexivity.
  - reflexivity.
  - intros a. vm_compute. reflexivity.
  - intros a. split; vm_compute; reflexivity.
  - intros p [H|H]; unfold Practice.evaluateWriting; rewrite H;
      destruct (Practice.type p); reflexivity.
  - reflexivity.
Qed.

(** C2, amended, at "HELLO world!" against "hello World": the normalized
    strings are identical and the accuracy is 100. *)
Lemma evaluateWriting_rule_nonempty_witness :
  WritingSpec.rule (WritingSpec.session "HELLO world!" (Some "hello World") 0) "hello World"
  /\ Practice.accuracy
       (Practice.evaluateWriting (WritingSpec.session "HELLO world!" (Some "hello World") 0))
     = 100.
Proof.
  destruct evaluateWriting_rule_nonempty as [H _].
  destruct (H (WritingSpec.session "HELLO world!" (Some "hello World") 0) "hello World")
    as [R [A _]]; try reflexivity.
  split; [exact R|]. rewrite A. vm_compute. reflexivity.
Defined.

(** ** Overall progress score *)

Lemma reduce_sum_map {A} (f : A -> Number) (l : list A) :
  reduce_sum f l == total (map f l).
Proof.
  rewrite reduce_sum_spec. unfold total.
  induction l as [|x l IH]; simpl; [reflexivity|]. now rewrite IH.
Qed.

Lemma addCategory_nil {A} (f : A -> Number) (w : Number) (sw : Number * Number) :
  ReportController.addCategory (@nil A) f w sw = sw.
Proof. destruct sw. reflexivity. Qed.

Lemma reduce_fadd_map {A} (f : A -> Number) (l : list A) :
  reduce_fadd f l = ProgressSpec.sum (map f l).
Proof.
  unfold reduce_fadd, ProgressSpec.sum. generalize 0 as s.
  induction l as [|x l IH]; intros s; simpl; [reflexivity|apply IH].
Qed.

Lemma addCategory_cons {A} (f : A -> Number) (w : Number) (x : A) (l : list A)
      (score weight : Number) :
  ReportController.addCategory (x :: l) f w (score, weight)
  = (fadd score (ProgressSpec.contribution (map f (x :: l)) w), fadd weight w).
Proof.
  unfold ReportController.addCategory, ProgressSpec.contribution, ProgressSpec.mean.
  rewrite reduce_fadd_map, length_map. reflexivity.
Qed.

(** Two rows, a practice average of 0 and an assignment average of 29: the
    contributions are 0 and the double nearest 11.6, their sum over 80 is
    the double just below 0.145, and the score is 14, where the exact
    value 14.5 would round to 15. *)
Example calculateOverallProgressScore_0_29 :
  ReportController.calculateOverallProgressScore
    [ProgressSpec.practiceRow 0] [ProgressSpec.assignmentRow 29] [] = 14
  /\ Math_round ((0 / 100 * 40 + 29 / 100 * 40) / (40 + 40) * 100) = 15.
Proof. split; vm_compute; reflexivity. Qed.

(** C3: [calculateOverallProgressScore] adds each category's
    mean / 100 * weight (40, 40, 20) only when the category's list is
    non-empty, returns round(sum of contributions / sum of applied weights
    * 100), each sum, product and quotient computed in double precision in
    the order the code has them, and 0 when the three lists are empty; a
    single practice row of average accuracy 80 gives 80, and one of 100
    gives 100; a practice row of 0 and an assignment row of 29 give 14. *)
Theorem calculateOverallProgressScore_spec :
  (forall practiceStats assignmentPerformance mediaConsumption,
      ReportController.calculateOverallProgressScore
        practiceStats assignmentPerformance mediaConsumption
      = ProgressSpec.overallProgressScore
          (map ReportController.PracticeStat.averageAccuracy practiceStats)
          (map ReportController.AssignmentPerformance.averagePercentage assignmentPerformance)
          (map ReportController.MediaConsumption.averageWatchPercentage mediaConsumption))
  /\ ReportController.calculateOverallProgressScore [] [] [] = 0
  /\ ReportController.calculateOverallProgressScore [ProgressSpec.practiceRow 80] [] [] = 80
  /\ ReportController.calculateOverallProgressScore [ProgressSpec.practiceRow 100] [] [] = 100
  /\ ReportController.calculateOverallProgressScore
       [ProgressSpec.practiceRow 0] [ProgressSpec.assignmentRow 29] [] = 14.
Proof.
  split; [|repeat split; vm_compute; reflexivity].
  intros ps ap mc. unfold ReportController.calculateOverallProgressScore.
  destruct ps as [|p ps], ap as [|a ap], mc as [|m mc];
    rewrite ?addCategory_nil, ?addCategory_cons;
    [vm_compute; reflexivity|..];
    unfold ProgressSpec.overallProgressScore, ProgressSpec.applied;
    cbn [map app fst snd fold_left];
    unfold ProgressSpec.sum; cbn [fold_left];
    match goal with
    | |- (if gt ?w 0 then _ else _) = _ =>
        replace (gt w 0) with true by (vm_compute; reflexivity)
    end;
    match goal with
    | |- ?x = ?y => constr_eq x y; reflexivity
    end.
Qed.

(** ** Grading a submission *)

Lemma sameAnswer_iff (a b : string) :
  Assignment.sameAnswer a b = true <-> GradingSpec.sameText a b.
Proof. unfold Assignment.sameAnswer, GradingSpec.sameText. apply String.eqb_eq. Qed.

(** What the callback does with one answer whose question, if the
    assignment has it, carries a correct answer. *)
Lemma gradeAnswer_spec (qs : list Question.t) (score : Number) (a : Answer.t) :
  (forall q, GradingSpec.matching qs a = Some q -> Question.correctAnswer q <> None) ->
  exists score',
    Assignment.gradeAnswer qs score a = inr (GradingSpec.graded qs a, score')
    /\ score' == score + GradingSpec.awarded qs a.
Proof.
  intros Hq.
  unfold Assignment.gradeAnswer, GradingSpec.graded, GradingSpec.awarded,
    GradingSpec.isCorrect, GradingSpec.matching in *.
  destruct (Assignment.questions_id qs (Answer.questionId a)) as [q|] eqn:Eq.
  - destruct (Question.correctAnswer q) as [c|] eqn:Ec.
    + destruct (Assignment.sameAnswer (Answer.answer a) c).
      * eexists; split; [reflexivity|reflexivity].
      * eexists; split; [reflexivity|ring].
    + exfalso. now apply (Hq q).
  - eexists; split; [reflexivity|ring].
Qed.

Lemma mapAnswers_spec (qs : list Question.t) (answers : list Answer.t) (score : Number) :
  GradingSpec.answerable qs answers ->
  exists score',
    Assignment.mapAnswers qs score answers = inr (map (GradingSpec.graded qs) answers, score')
    /\ score' == score + total (map (GradingSpec.awarded qs) answers).
Proof.
  revert score. induction answers as [|a answers IH]; intros score Hok.
  - exists score. split; [reflexivity|]. simpl. ring.
  - destruct (gradeAnswer_spec qs score a) as [s1 [E1 Q1]].
    { intros q Hq. apply (Hok a q); [now left|exact Hq]. }
    destruct (IH s1) as [s2 [E2 Q2]].
    { intros b q Hb Hq. apply (Hok b q); [now right|exact Hq]. }
    exists s2. split.
    + simpl. rewrite E1, E2. reflexivity.
    + rewrite Q2, Q1. simpl. ring.
Qed.

(** The only way the callback throws. *)
Lemma gradeAnswer_throws (qs : list Question.t) (score : Number) (a : Answer.t) (e : JsError) :
  Assignment.gradeAnswer qs score a = inl e ->
  e = TypeError
  /\ exists q, GradingSpec.matching qs a = Some q /\ Question.correctAnswer q = None.
Proof.
  unfold Assignment.gradeAnswer, GradingSpec.matching.
  destruct (Assignment.questions_id qs (Answer.questionId a)) as [q|]; [|discriminate].
  destruct (Question.correctAnswer q) as [c|] eqn:Ec.
  - destruct (Assignment.sameAnswer _ _); discriminate.
  - intros [= <-]. split; [reflexivity|]. now exists q.
Qed.

Lemma mapAnswers_throws (qs : list Question.t) (answers : list Answer.t) (score : Number)
      (e : JsError) :
  Assignment.mapAnswers qs score answers = inl e ->
  e = TypeError /\ ~ GradingSpec.answerable qs answers.
Proof.
  revert score. induction answers as [|a answers IH]; intros score; simpl; [discriminate|].
  destruct (Assignment.gradeAnswer qs score a) as [e1|[g s1]] eqn:E1.
  - intros [= <-]. destruct (gradeAnswer_throws _ _ _ _ E1) as [-> [q [Hq Hc]]].
    split; [reflexivity|]. intros Hok. apply (Hok a q); [now left|exact Hq|exact Hc].
  - destruct (Assignment.mapAnswers qs s1 answers) as [e2|[gs s2]] eqn:E2; [|discriminate].
    intros [= <-]. destruct (IH _ E2) as [-> Hno]. split; [reflexivity|].
    intros Hok. apply Hno. intros b q Hb Hq. apply (Hok b q); [now right|exact Hq].
Qed.

Lemma filter_filter_negb {A} (p : A -> bool) (l : list A) :
  filter p (filter (fun x => negb (p x)) l) = [].
Proof.
  induction l as [|x l IH]; simpl; [reflexivity|].
  destruct (p x) eqn:E; simpl; [exact IH|]. now rewrite E.
Qed.

Lemma filter_idem {A} (p : A -> bool) (l : list A) :
  filter p (filter p l) = filter p l.
Proof.
  induction l as [|x l IH]; simpl; [reflexivity|].
  destruct (p x) eqn:E; simpl; [rewrite E; now f_equal|exact IH].
Qed.

Lemma id_eqb_refl (i : ObjectId) : id_eqb i i = true.
Proof. apply String.eqb_refl. Qed.

Lemma id_eqb_eq (i j : ObjectId) : id_eqb i j = true <-> i = j.
Proof. apply String.eqb_eq. Qed.

Lemma id_eqb_neq (i j : ObjectId) : id_eqb i j = false <-> i <> j.
Proof. apply String.eqb_neq. Qed.

(** How [submitAssignment] ends, in full: it throws, before any save,
    exactly when an answered question lacks a correct answer; otherwise it
    replaces the student's submissions by one graded by the rule. *)
Lemma submitAssignment_cases (a : Assignment.t) (studentId : ObjectId)
      (answers : list Answer.t) (now : Date) :
  (GradingSpec.answerable (Assignment.questions a) answers
   /\ exists new score,
       Assignment.submitAssignment a studentId answers now
       = Normal (Assignment.save
                   (Assignment.set_submissions a
                      (GradingSpec.submissionsOfOthers studentId (Assignment.submissions a)
                       ++ [new]))
                   now)
       /\ new = {| Submission.studentId := studentId;
                   Submission.answers := map (GradingSpec.graded (Assignment.questions a)) answers;
                   Submission.score := score;
                   Submission.percentage :=
                     Assignment.percentageOf score (Assignment.totalPoints a);
                   Submission.feedback := None;
                   Submission.submittedAt := now;
                   Submission.gradedAt := None;
                   Submission.gradedBy := None |}
       /\ score == total (map (GradingSpec.awarded (Assignment.questions a)) answers))
  \/ (~ GradingSpec.answerable (Assignment.questions a) answers
      /\ Assignment.submitAssignment a studentId answers now
         = Throw TypeError
                 (Assignment.set_submissions a
                    (GradingSpec.submissionsOfOthers studentId (Assignment.submissions a)))).
Proof.
  unfold Assignment.submitAssignment. cbn [Assignment.questions Assignment.set_submissions
    Assignment.submissions Assignment.totalPoints].
  destruct (Assignment.mapAnswers (Assignment.questions a) 0 answers) as [e|[gs s]] eqn:E.
  - right. destruct (mapAnswers_throws _ _ _ _ E) as [-> Hno]. split; [exact Hno|reflexivity].
  - left.
    assert (GradingSpec.answerable (Assignment.questions a) answers) as Hok.
    { intros b q Hb Hq Hc. revert E. clear -Hb Hq Hc. generalize 0 as s0. revert gs s.
      induction answers as [|x answers IH]; intros gs s s0; [destruct Hb|].
      simpl. destruct (Assignment.gradeAnswer (Assignment.questions a) s0 x) as [e1|[g s1]] eqn:E1;
        [discriminate|].
      destruct Hb as [->|Hb].
      - exfalso. unfold Assignment.gradeAnswer in E1. unfold GradingSpec.matching in Hq.
        rewrite Hq, Hc in E1. discriminate.
      - destruct (Assignment.mapAnswers (Assignment.questions a) s1 answers) as [e2|[gs2 s2]] eqn:E2;
          [discriminate|]. intros _. exact (IH Hb gs2 s2 s1 E2). }
    split; [exact Hok|].
    destruct (mapAnswers_spec _ _ 0 Hok) as [s' [E' Q']].
    rewrite E in E'. injection E' as -> ->.
    eexists; exists s'. split; [reflexivity|]. split; [reflexivity|].
    rewrite Q'. ring.
Qed.
(** C1, at an input where the code departs from it: a stored question
    without [correctAnswer] (the schema and the create route allow it)
    makes [submitAssignment] throw a [TypeError] at
    [question.correctAnswer.toLowerCase()] instead of awarding zero points.
    No submission is recorded, and the student's earlier one is already
    filtered out of the document in memory. *)
Theorem submitAssignment_throws_without_correctAnswer :
  Assignment.submitAssignment GradingSpec.quizWithEssay GradingSpec.alice
    [GradingSpec.answerTo "q1" " a "; GradingSpec.answerTo "q3" "Letter by letter."]
    1795000000000%Z
  = Throw TypeError (GradingSpec.assignmentWith (Assignment.questions GradingSpec.quizWithEssay)
                                                 10 []).
Proof. reflexivity. Qed.

(** Where every answered question has a correct answer the code grades as
    C1 says: marks by trimmed, case-insensitive equality, full points or
    zero, score the sum of the awarded points, percentage
    round(score / totalPoints * 100), quotient and product in double
    precision, or 0 without positive total. *)
Lemma submitAssignment_grades (a : Assignment.t) (studentId : ObjectId)
      (answers : list Answer.t) (now : Date) :
  GradingSpec.answerable (Assignment.questions a) answers ->
  exists a' new,
    Assignment.submitAssignment a studentId answers now = Normal a'
    /\ GradingSpec.submissionsOf studentId (Assignment.submissions a') = [new]
    /\ Submission.answers new = map (GradingSpec.graded (Assignment.questions a)) answers
    /\ Submission.score new == total (map GradedAnswer.pointsEarned (Submission.answers new))
    /\ Submission.percentage new
       = (if gt (Assignment.totalPoints a) 0
          then Math_round (fmul (fdiv (Submission.score new) (Assignment.totalPoints a)) 100)
          else 0)
    /\ (Assignment.totalPoints a == 0 -> Submission.percentage new = 0).
Proof.
  intros Hok.
  destruct (submitAssignment_cases a studentId answers now)
    as [[_ [new [score [E [Hnew Hs]]]]]|[Hno _]]; [|contradiction].
  eexists; exists new. split; [exact E|].
  split.
  { cbn [Assignment.save Assignment.set_submissions Assignment.submissions].
    unfold GradingSpec.submissionsOf, GradingSpec.submissionsOfOthers.
    rewrite filter_app, filter_filter_negb. subst new. simpl.
    now rewrite id_eqb_refl. }
  subst new. cbn [Submission.answers Submission.score Submission.percentage].
  split; [reflexivity|]. split.
  { rewrite Hs, map_map. reflexivity. }
  split; [reflexivity|].
  intros Z. unfold Assignment.percentageOf. now rewrite (gt_false_of_zero _ Z).
Qed.

(** C4: when [submitAssignment] completes for a student, the submissions
    list holds exactly one entry of that student, the new one, placed
    after the entries of the other students, which are those the list
    had, in the order it had them; a resubmission therefore replaces. *)
Theorem submitAssignment_one_submission_per_student
        (a a' : Assignment.t) (studentId : ObjectId) (answers : list Answer.t) (now : Date) :
  Assignment.submitAssignment a studentId answers now = Normal a' ->
  List.length (GradingSpec.submissionsOf studentId (Assignment.submissions a')) = 1%nat
  /\ GradingSpec.submissionsOfOthers studentId (Assignment.submissions a')
     = GradingSpec.submissionsOfOthers studentId (Assignment.submissions a)
  /\ (forall other, other <> studentId ->
        GradingSpec.submissionsOf other (Assignment.submissions a')
        = GradingSpec.submissionsOf other (Assignment.submissions a))
  /\ exists new,
      Assignment.submissions a'
      = (GradingSpec.submissionsOfOthers studentId (Assignment.submissions a) ++ [new])%list
      /\ Submission.studentId new = studentId
      /\ Submission.submittedAt new = now.
Proof.
  intros E.
  destruct (submitAssignment_cases a studentId answers now)
    as [[_ [new [score [E' [Hnew _]]]]]|[_ E']]; rewrite E' in E; [|discriminate].
  injection E as <-.
  cbn [Assignment.save Assignment.set_submissions Assignment.submissions].
  assert (Submission.studentId new = studentId) as Hid by (now subst new).
  assert (Submission.submittedAt new = now) as Hat by (now subst new).
  clear Hnew E'.
  unfold GradingSpec.submissionsOf, GradingSpec.submissionsOfOthers.
  repeat split.
  - rewrite filter_app, filter_filter_negb. simpl. rewrite Hid, id_eqb_refl. reflexivity.
  - rewrite filter_app, filter_idem. simpl. rewrite Hid, id_eqb_refl. simpl.
    now rewrite app_nil_r.
  - intros other Hne. rewrite filter_app. simpl.
    rewrite Hid. replace (id_eqb studentId other) with false
      by (symmetry; apply id_eqb_neq; congruence).
    rewrite app_nil_r.
    induction (Assignment.submissions a) as [|s l IH]; simpl; [reflexivity|].
    destruct (id_eqb (Submission.studentId s) studentId) eqn:E1; simpl.
    + apply id_eqb_eq in E1.
      replace (id_eqb (Submission.studentId s) other) with false
        by (symmetry; apply id_eqb_neq; congruence).
      exact IH.
    + destruct (id_eqb (Submission.studentId s) other); [now f_equal|exact IH].
  - exists new. repeat split; assumption.
Qed.

(** C4 at a resubmission: the quiz holds an earlier submission of the
    student and one of another student. *)
Lemma submitAssignment_one_submission_per_student_witness :
  exists a',
    Assignment.submitAssignment GradingSpec.quiz GradingSpec.alice
      [GradingSpec.answerTo "q1" " a "] 1795000000000%Z = Normal a'
    /\ List.length (GradingSpec.submissionsOf GradingSpec.alice (Assignment.submissions a'))
       = 1%nat
    /\ map Submission.studentId (Assignment.submissions a')
       = [GradingSpec.bob; GradingSpec.alice].
Proof.
  eexists. split; [reflexivity|]. split; [|reflexivity].
  apply (submitAssignment_one_submission_per_student
           GradingSpec.quiz _ GradingSpec.alice [GradingSpec.answerTo "q1" " a "]
           1795000000000%Z).
  reflexivity.
Defined.

(** C6, as stated, fails on the code: an answer to a question the
    assignment does not have is graded, the call completes. *)
Lemma absent_question_fails_counterexample :
  ~ GradingSpec.absent_question_fails.
Proof.
  intros H.
  destruct (H GradingSpec.quiz GradingSpec.alice [GradingSpec.answerTo "q9" "A"]
              1795000000000%Z) as [e [doc E]].
  - exists (GradingSpec.answerTo "q9" "A"). split; [now left|reflexivity].
  - discriminate E.
Qed.

(** C6, amended: an answer whose questionId the assignment does not have
    never makes [submitAssignment] fail: the callback records it with
    isCorrect = false and pointsEarned = 0 and leaves the score as it was,
    and when the call completes the stored submission carries that
    record. *)
Theorem submitAssignment_absent_question_zero_points :
  (forall (qs : list Question.t) (score : Number) (answer : Answer.t),
      GradingSpec.matching qs answer = None ->
      Assignment.gradeAnswer qs score answer
      = inr ({| GradedAnswer.questionId := Answer.questionId answer;
                GradedAnswer.answer := Answer.answer answer;
                GradedAnswer.isCorrect := false;
                GradedAnswer.pointsEarned := 0 |}, score))
  /\ (forall (a : Assignment.t) (studentId : ObjectId) (answers : list Answer.t) (now : Date),
         (forall answer, In answer answers ->
                         GradingSpec.matching (Assignment.questions a) answer = None) ->
         exists a' new,
           Assignment.submitAssignment a studentId answers now = Normal a'
           /\ GradingSpec.submissionsOf studentId (Assignment.submissions a') = [new]
           /\ Submission.score new == 0
           /\ Submission.percentage new = 0)
  /\ (forall (a a' : Assignment.t) (studentId : ObjectId) (answers : list Answer.t)
             (now : Date) (answer : Answer.t),
         Assignment.submitAssignment a studentId answers now = Normal a' ->
         In answer answers ->
         GradingSpec.matching (Assignment.questions a) answer = None ->
         exists new,
           GradingSpec.submissionsOf studentId (Assignment.submissions a') = [new]
           /\ In {| GradedAnswer.questionId := Answer.questionId answer;
                    GradedAnswer.answer := Answer.answer answer;
                    GradedAnswer.isCorrect := false;
                    GradedAnswer.pointsEarned := 0 |}
                 (Submission.answers new)).
Proof.
  split; [|split].
  - intros qs score answer Hnone. unfold Assignment.gradeAnswer.
    unfold GradingSpec.matching in Hnone. now rewrite Hnone.
  - intros a studentId answers now Habs.
    assert (GradingSpec.answerable (Assignment.questions a) answers) as Hok.
    { intros x q Hx Hq. rewrite (Habs x Hx) in Hq. discriminate. }
    destruct (submitAssignment_grades a studentId answers now Hok)
      as [a' [new [E [H1 [Hans [Hs [Hp _]]]]]]].
    exists a', new. split; [exact E|]. split; [exact H1|].
    assert (Submission.score new == 0) as Hz.
    { rewrite Hs, Hans, map_map. clear -Habs.
      induction answers as [|x answers IH]; simpl; [reflexivity|].
      rewrite IH by (intros y Hy; apply Habs; now right).
      unfold GradingSpec.awarded. rewrite (Habs x) by now left. ring. }
    split; [exact Hz|].
    rewrite Hp. destruct (gt (Assignment.totalPoints a) 0); [|reflexivity].
    unfold fdiv.
    rewrite (double_comp (Submission.score new / Assignment.totalPoints a) 0)
      by (rewrite Hz; unfold Qdiv; ring).
    vm_compute. reflexivity.
  - intros a a' studentId answers now answer E Hin Hnone.
    destruct (submitAssignment_cases a studentId answers now)
      as [[Hok _]|[_ E']]; [|rewrite E' in E; discriminate].
    destruct (submitAssignment_grades a studentId answers now Hok)
      as [a2 [new [E2 [H1 [Hans _]]]]].
    rewrite E2 in E. injection E as <-.
    exists new. split; [exact H1|].
    rewrite Hans. apply in_map_iff. exists answer. split; [|exact Hin].
    unfold GradingSpec.graded, GradingSpec.isCorrect, GradingSpec.awarded.
    now rewrite Hnone.
Qed.

(** C6, amended, at an answer to a question the quiz does not have. *)
Lemma submitAssignment_absent_question_zero_points_witness :
  Assignment.gradeAnswer (Assignment.questions GradingSpec.quiz) 2
                         (GradingSpec.answerTo "q9" "A")
  = inr ({| GradedAnswer.questionId := "q9";
            GradedAnswer.answer := "A";
            GradedAnswer.isCorrect := false;
            GradedAnswer.pointsEarned := 0 |}, 2).
Proof.
  destruct submitAssignment_absent_question_zero_points as [H _].
  apply (H (Assignment.questions GradingSpec.quiz) 2 (GradingSpec.answerTo "q9" "A")).
  reflexivity.
Defined.
(** ** Manual grading *)

Lemma find_modify_first {A} (p : A -> bool) (f : A -> A) (l : list A) (x : A) :
  (forall y, p (f y) = p y) ->
  find p l = Some x -> find p (Assignment.modify_first p f l) = Some (f x).
Proof.
  intros Hp. induction l as [|y l IH]; simpl; [discriminate|].
  destruct (p y) eqn:E.
  - intros [= ->]. simpl. now rewrite Hp, E.
  - intros H. simpl. rewrite E. now apply IH.
Qed.

Lemma modify_first_split {A} (p : A -> bool) (f : A -> A) (l : list A) (x : A) :
  find p l = Some x ->
  exists before after,
    l = (before ++ x :: after)%list
    /\ Assignment.modify_first p f l = (before ++ f x :: after)%list
    /\ forallb (fun y => negb (p y)) before = true.
Proof.
  induction l as [|y l IH]; simpl; [discriminate|].
  destruct (p y) eqn:E.
  - intros [= ->]. exists [], l. repeat split.
  - intros H. destruct (IH H) as [b [c [-> [-> Hb]]]].
    exists (y :: b), c. repeat split. simpl. now rewrite E, Hb.
Qed.

(** C5: [gradeAssignment] throws "Submission not found", the document
    untouched, when the student has no submission; otherwise it completes
    and the student's submission (the first one the list has) carries the
    given score, feedback and grader, the date of the call, and the
    percentage round(score / totalPoints * 100), quotient and product in
    double precision, 0 without a positive total; every other entry of the
    list is as it was. *)
Theorem gradeAssignment_overwrites_or_not_found
        (a : Assignment.t) (studentId : ObjectId) (score : Number)
        (feedback : option string) (gradedBy : ObjectId) (now : Date) :
  match find (fun sub => id_eqb (Submission.studentId sub) studentId)
             (Assignment.submissions a) with
  | None =>
      Assignment.gradeAssignment a studentId score feedback gradedBy now
      = Throw (Error "Submission not found") a
  | Some old =>
      exists a' new before after,
        Assignment.gradeAssignment a studentId score feedback gradedBy now = Normal a'
        /\ Assignment.submissions a = (before ++ old :: after)%list
        /\ Assignment.submissions a' = (before ++ new :: after)%list
        /\ GradingSpec.submissionsOf studentId before = []
        /\ find (fun sub => id_eqb (Submission.studentId sub) studentId)
                (Assignment.submissions a') = Some new
        /\ Submission.score new = score
        /\ Submission.feedback new = feedback
        /\ Submission.gradedAt new = Some now
        /\ Submission.gradedBy new = Some gradedBy
        /\ Submission.percentage new
           = (if gt (Assignment.totalPoints a) 0
              then Math_round (fmul (fdiv score (Assignment.totalPoints a)) 100)
              else 0)
        /\ (Assignment.totalPoints a == 0 -> Submission.percentage new = 0)
        /\ Submission.studentId new = Submission.studentId old
        /\ Submission.answers new = Submission.answers old
        /\ Submission.submittedAt new = Submission.submittedAt old
        /\ Assignment.questions a' = Assignment.questions a
        /\ Assignment.totalPoints a' = Assignment.totalPoints a
  end.
Proof.
  unfold Assignment.gradeAssignment.
  destruct (find _ (Assignment.submissions a)) as [old|] eqn:F; [|reflexivity].
  set (mine := fun sub => id_eqb (Submission.studentId sub) studentId) in *.
  set (g := Assignment.grade (Assignment.totalPoints a) score feedback gradedBy now).
  destruct (modify_first_split mine g _ _ F) as [before [after [Hl [Hm Hb]]]].
  eexists; exists (g old), before, after.
  split; [reflexivity|].
  cbn [Assignment.save Assignment.set_submissions Assignment.submissions
       Assignment.questions Assignment.totalPoints].
  split; [exact Hl|]. split; [exact Hm|]. split.
  { unfold GradingSpec.submissionsOf. fold mine. clear -Hb.
    induction before as [|x l IH]; simpl in *; [reflexivity|].
    apply andb_prop in Hb as [Hx Hl]. apply negb_true_iff in Hx. rewrite Hx. now apply IH. }
  split; [now apply find_modify_first|].
  do 4 (split; [reflexivity|]).
  split; [reflexivity|]. split; [|repeat split].
  intros Z. cbn [g Assignment.grade Submission.percentage].
  unfold Assignment.percentageOf. now rewrite (gt_false_of_zero _ Z).
Qed.

(** C5 at a student without a submission: the call throws and the quiz is
    as it was. *)
Lemma gradeAssignment_overwrites_or_not_found_witness :
  Assignment.gradeAssignment GradingSpec.quiz "64b000000000000000000009" 4
                             (Some "Well done") GradingSpec.teacher 1796000000000%Z
  = Throw (Error "Submission not found") GradingSpec.quiz.
Proof.
  exact (gradeAssignment_overwrites_or_not_found
           GradingSpec.quiz "64b000000000000000000009" 4 (Some "Well done")
           GradingSpec.teacher 1796000000000%Z).
Defined.

Example gradeAssignment_bob :
  exists a',
    Assignment.gradeAssignment GradingSpec.quiz GradingSpec.bob 4 (Some "Well done")
                               GradingSpec.teacher 1796000000000%Z = Normal a'
    /\ map (fun s => (Submission.studentId s, Submission.score s, Submission.percentage s))
           (Assignment.submissions a')
       = [(GradingSpec.alice, 0, 0); (GradingSpec.bob, 4, 80)].
Proof. eexists. split; vm_compute; reflexivity. Qed.

(** A score of 23 of 40 points: the quotient is the double nearest 0.575,
    its product with 100 the double just below 57.5, the percentage 57. *)
Example gradeAssignment_23_of_40 :
  exists a',
    Assignment.gradeAssignment
      (GradingSpec.assignmentWith [] 40 (Assignment.submissions GradingSpec.quiz))
      GradingSpec.bob 23 None GradingSpec.teacher 1796000000000%Z
    = Normal a'
    /\ map (fun s => (Submission.studentId s, Submission.score s, Submission.percentage s))
           (Assignment.submissions a')
       = [(GradingSpec.alice, 0, 0); (GradingSpec.bob, 23, 57)].
Proof. eexists. split; vm_compute; reflexivity. Qed.

(** ** Recording a view *)

Lemma findIndex_spec {A} (p : A -> bool) (l : list A) :
  match find p l with
  | None => Media.findIndex p l = (-1)%Z
  | Some x =>
      exists before after,
        l = (before ++ x :: after)%list
        /\ Media.findIndex p l = Z.of_nat (List.length before)
        /\ forallb (fun y => negb (p y)) before = true
  end.
Proof.
  induction l as [|y l IH]; simpl; [reflexivity|].
  destruct (p y) eqn:E.
  - exists [], l. repeat split.
  - destruct (find p l) as [x|].
    + destruct IH as [b [c [-> [Hi Hb]]]].
      exists (y :: b), c. split; [reflexivity|]. split.
      * rewrite Hi. destruct (Z.ltb_spec (Z.of_nat (List.length b)) 0); [lia|].
        simpl List.length. lia.
      * simpl. now rewrite E, Hb.
    + now rewrite IH.
Qed.

Lemma modify_at_middle {A} (f : A -> A) (before after : list A) (x : A) :
  Media.modify_at (List.length before) f (before ++ x :: after)
  = (before ++ f x :: after)%list.
Proof.
  induction before as [|y b IH]; simpl; [reflexivity|]. now rewrite IH.
Qed.

Lemma filter_none {A} (p : A -> bool) (l : list A) :
  forallb (fun y => negb (p y)) l = true -> filter p l = [].
Proof.
  induction l as [|x l IH]; simpl; [reflexivity|].
  intros H. apply andb_prop in H as [Hx Hl]. apply negb_true_iff in Hx.
  rewrite Hx. now apply IH.
Qed.

Lemma find_none_filter {A} (p : A -> bool) (l : list A) :
  find p l = None -> filter p l = [].
Proof.
  induction l as [|x l IH]; simpl; [reflexivity|].
  destruct (p x); [discriminate|exact IH].
Qed.

Lemma find_after_none {A} (p : A -> bool) (before after : list A) (x : A) :
  forallb (fun y => negb (p y)) before = true -> p x = true ->
  find p (before ++ x :: after) = Some x.
Proof.
  induction before as [|y b IH]; simpl; intros Hb Hx.
  - now rewrite Hx.
  - apply andb_prop in Hb as [Hy Hb]. apply negb_true_iff in Hy. rewrite Hy. now apply IH.
Qed.

(** The two ways [addView] goes, by the record it finds. *)
Lemma addView_cases (m : Media.t) (studentId : ObjectId) (percentage : option Number)
      (now : Date) :
  let given := match percentage with Some p => p | None => 0 end in
  match ViewSpec.recordOf studentId (Media.views m) with
  | None =>
      Media.views (Media.addView m studentId percentage now)
      = (Media.views m
         ++ [ {| View.studentId := studentId; View.percentage := given;
                 View.date := now |} ])%list
  | Some old =>
      exists before after,
        Media.views m = (before ++ old :: after)%list
        /\ Media.views (Media.addView m studentId percentage now)
           = (before
              ++ {| View.studentId := View.studentId old;
                    View.percentage := Math_max (View.percentage old) given;
                    View.date := now |} :: after)%list
        /\ forallb (fun v => negb (id_eqb (View.studentId v) studentId)) before = true
        /\ View.studentId old = studentId
  end.
Proof.
  intros given. unfold ViewSpec.recordOf, Media.addView.
  pose proof (findIndex_spec (fun v => id_eqb (View.studentId v) studentId) (Media.views m))
    as H.
  destruct (find _ (Media.views m)) as [old|] eqn:F.
  - destruct H as [before [after [Hl [Hi Hb]]]].
    exists before, after. split; [exact Hl|].
    rewrite Hi. destruct (Z.leb_spec 0 (Z.of_nat (List.length before))); [|lia].
    rewrite Nat2Z.id. cbn [Media.save_views Media.views].
    rewrite Hl at 1. rewrite modify_at_middle.
    repeat split; [exact Hb|].
    apply find_some in F. now apply id_eqb_eq.
  - rewrite H. reflexivity.
Qed.

(** C7: a first view appends a record with the given percentage (0 when
    none is given) and the date of the call; a later view by the same
    student leaves the list as it is but for that student's record, whose
    percentage becomes max(old, new) and whose date is refreshed, so the
    stored percentage does not decrease; no call adds a second record for
    a student, and no call touches the records of the others.  With 40,
    then 30, then 90 the record reads 40, 40, 90. *)
Theorem addView_upsert_max :
  (forall m studentId percentage now,
      ViewSpec.recordOf studentId (Media.views m) = None ->
      Media.views (Media.addView m studentId (Some percentage) now)
      = (Media.views m
         ++ [ {| View.studentId := studentId; View.percentage := percentage;
                 View.date := now |} ])%list)
  /\ (forall m studentId now,
         ViewSpec.recordOf studentId (Media.views m) = None ->
         Media.views (Media.addView m studentId None now)
         = (Media.views m
            ++ [ {| View.studentId := studentId; View.percentage := 0;
                    View.date := now |} ])%list)
  /\ (forall m studentId percentage now old,
         ViewSpec.recordOf studentId (Media.views m) = Some old ->
         exists new,
           ViewSpec.recordOf studentId
             (Media.views (Media.addView m studentId (Some percentage) now)) = Some new
           /\ View.percentage new = Math_max (View.percentage old) percentage
           /\ View.date new = now
           /\ View.percentage old <= View.percentage new
           /\ percentage <= View.percentage new
           /\ List.length (Media.views (Media.addView m studentId (Some percentage) now))
              = List.length (Media.views m))
  /\ (forall m studentId percentage now,
         List.length
           (ViewSpec.viewsOf studentId (Media.views (Media.addView m studentId percentage now)))
         = Nat.max 1 (List.length (ViewSpec.viewsOf studentId (Media.views m))))
  /\ (forall m studentId percentage now other,
         other <> studentId ->
         ViewSpec.viewsOf other (Media.views (Media.addView m studentId percentage now))
         = ViewSpec.viewsOf other (Media.views m))
  /\ (forall m studentId percentage now,
         ViewSpec.atMostOnePerStudent (Media.views m) ->
         ViewSpec.atMostOnePerStudent (Media.views (Media.addView m studentId percentage now)))
  /\ (let m0 := ViewSpec.mediaWith [] in
      let m1 := Media.addView m0 ViewSpec.viewer (Some 40) 1795000000000%Z in
      let m2 := Media.addView m1 ViewSpec.viewer (Some 30) 1795000060000%Z in
      let m3 := Media.addView m2 ViewSpec.viewer (Some 90) 1795000120000%Z in
      ViewSpec.percentages m1 = [(ViewSpec.viewer, 40)]
      /\ ViewSpec.percentages m2 = [(ViewSpec.viewer, 40)]
      /\ ViewSpec.percentages m3 = [(ViewSpec.viewer, 90)]).
Proof.
  assert (forall m studentId percentage now,
             List.length
               (ViewSpec.viewsOf studentId
                  (Media.views (Media.addView m studentId percentage now)))
             = Nat.max 1 (List.length (ViewSpec.viewsOf studentId (Media.views m)))) as Hcount.
  { intros m studentId percentage now.
    pose proof (addView_cases m studentId percentage now) as H. cbv zeta in H.
    unfold ViewSpec.viewsOf. unfold ViewSpec.recordOf in H.
    destruct (find _ (Media.views m)) as [old|] eqn:F.
    - destruct H as [before [after [Hl [Hv [Hb Hid]]]]].
      rewrite Hv, Hl, !filter_app. simpl. rewrite Hid, id_eqb_refl.
      rewrite (filter_none _ _ Hb). reflexivity.
    - rewrite H, filter_app, (find_none_filter _ _ F). simpl. now rewrite id_eqb_refl. }
  assert (forall m studentId percentage now other,
             other <> studentId ->
             ViewSpec.viewsOf other (Media.views (Media.addView m studentId percentage now))
             = ViewSpec.viewsOf other (Media.views m)) as Hothers.
  { intros m studentId percentage now other Hne.
    assert (id_eqb studentId other = false) as Hf by (apply id_eqb_neq; congruence).
    pose proof (addView_cases m studentId percentage now) as H. cbv zeta in H.
    unfold ViewSpec.viewsOf. unfold ViewSpec.recordOf in H.
    destruct (find _ (Media.views m)) as [old|] eqn:F.
    - destruct H as [before [after [Hl [Hv [Hb Hid]]]]].
      rewrite Hv, Hl, !filter_app. simpl. now rewrite Hid, Hf.
    - rewrite H, filter_app. simpl. rewrite Hf. now rewrite app_nil_r. }
  split; [|split; [|split; [|split; [|split; [|split]]]]].
  - intros m studentId percentage now Hnone.
    pose proof (addView_cases m studentId (Some percentage) now) as H. cbv zeta in H.
    now rewrite Hnone in H.
  - intros m studentId now Hnone.
    pose proof (addView_cases m studentId None now) as H. cbv zeta in H.
    now rewrite Hnone in H.
  - intros m studentId percentage now old Hsome.
    pose proof (addView_cases m studentId (Some percentage) now) as H. cbv zeta in H.
    rewrite Hsome in H. destruct H as [before [after [Hl [Hv [Hb Hid]]]]].
    eexists. split.
    { unfold ViewSpec.recordOf. rewrite Hv. apply find_after_none; [exact Hb|].
      simpl. rewrite Hid. apply id_eqb_refl. }
    cbn [View.percentage View.date]. repeat split.
    + apply Q.le_max_l.
    + apply Q.le_max_r.
    + rewrite Hv, Hl, !length_app. reflexivity.
  - exact Hcount.
  - exact Hothers.
  - intros m studentId percentage now Hinv s.
    destruct (String.eqb_spec s studentId) as [->|Hne].
    + rewrite Hcount. specialize (Hinv studentId). lia.
    + rewrite Hothers by exact Hne. apply Hinv.
  - repeat split; reflexivity.
Qed.

(** C7 at a second view of 30 over a stored 40. *)
Lemma addView_upsert_max_witness :
  exists new,
    ViewSpec.recordOf ViewSpec.viewer
      (Media.views
         (Media.addView
            (ViewSpec.mediaWith
               [ {| View.studentId := ViewSpec.viewer; View.percentage := 40;
                    View.date := 1795000000000%Z |} ])
            ViewSpec.viewer (Some 30) 1795000060000%Z))
    = Some new
    /\ View.percentage new = 40
    /\ View.date new = 1795000060000%Z.
Proof.
  destruct addView_upsert_max as [_ [_ [H _]]].
  destruct (H (ViewSpec.mediaWith
                 [ {| View.studentId := ViewSpec.viewer; View.percentage := 40;
                      View.date := 1795000000000%Z |} ])
              ViewSpec.viewer 30 1795000060000%Z
              {| View.studentId := ViewSpec.viewer; View.percentage := 40;
                 View.date := 1795000000000%Z |} eq_refl)
    as [new [Hr [Hp [Hd _]]]].
  exists new. split; [exact Hr|]. split; [|exact Hd].
  rewrite Hp. reflexivity.
Defined.

(** ** Time windows *)

Example sampleNow_fields :
  (getFullYear WindowSpec.utc WindowSpec.sampleNow,
   getMonth WindowSpec.utc WindowSpec.sampleNow,
   getDate WindowSpec.utc WindowSpec.sampleNow) = (2026, 10, 2)%Z.
Proof. vm_compute. reflexivity. Qed.

(** At 2026-10-31T20:00:00Z it is the 31st of October in UTC and the
    first of November in India. *)
Example sampleEvening_fields :
  (getFullYear WindowSpec.utc WindowSpec.sampleEvening,
   getMonth WindowSpec.utc WindowSpec.sampleEvening,
   getDate WindowSpec.utc WindowSpec.sampleEvening) = (2026, 9, 31)%Z
  /\ (getFullYear WindowSpec.ist WindowSpec.sampleEvening,
      getMonth WindowSpec.ist WindowSpec.sampleEvening,
      getDate WindowSpec.ist WindowSpec.sampleEvening) = (2026, 10, 1)%Z.
Proof. split; vm_compute; reflexivity. Qed.

Ltac split_ifs :=
  repeat match goal with
         | |- context [if ?b then _ else _] => destruct b eqn:?
         end.

(** The civil date of a day number on or after the epoch is a date of a
    year from 1970 on, and it is the date of that day number. *)
Lemma civil_from_days_spec (z : Z) :
  (0 <= z)%Z ->
  let '(y, m, d) := civil_from_days z in
  (1970 <= y /\ 1 <= m <= 12 /\ 1 <= d <= 31 /\ days_from_civil y m d = z)%Z.
Proof.
  intros Hz. unfold civil_from_days, days_from_civil. cbv zeta.
  split_ifs; Z.to_euclidean_division_equations; lia.
Qed.

Lemma days_from_civil_day (y m d : Z) :
  days_from_civil y m d = (days_from_civil y m 1 + d - 1)%Z.
Proof. unfold days_from_civil. lia. Qed.

(** [new Date(y, m, day)] on the local year and month of [now] is the
    instant of the local midnight that lies [day - getDate now] days from
    the one that starts the local day of [now]. *)
Lemma Date_ymd_of_fields (LocalTZA : Zone) (now : Date) (day : Z) :
  (0 <= LocalTime LocalTZA now)%Z ->
  Date_ymd LocalTZA (getFullYear LocalTZA now) (getMonth LocalTZA now) day
  = UTC LocalTZA (WindowSpec.localMidnight LocalTZA now
                  + (day - getDate LocalTZA now) * msPerDay)%Z.
Proof.
  intros Hnow.
  unfold Date_ymd, getFullYear, getMonth, getDate, WindowSpec.localMidnight.
  assert (0 <= LocalTime LocalTZA now / msPerDay)%Z as Hz
      by (apply Z.div_pos; [exact Hnow|reflexivity]).
  pose proof (civil_from_days_spec _ Hz) as H.
  destruct (civil_from_days (LocalTime LocalTZA now / msPerDay)) as [[y m] d].
  destruct H as [Hy [Hm [Hd Hr]]].
  replace ((0 <=? y) && (y <=? 99))%Z with false
    by (symmetry; apply andb_false_iff; right; apply Z.leb_gt; lia).
  replace ((m - 1) / 12)%Z with 0%Z by (symmetry; apply Z.div_small; lia).
  replace ((m - 1) mod 12)%Z with (m - 1)%Z by (symmetry; apply Z.mod_small; lia).
  rewrite Z.add_0_r. replace (m - 1 + 1)%Z with m by lia.
  f_equal. rewrite <- Hr, (days_from_civil_day y m d). unfold msPerDay. lia.
Qed.

(** [new Date(y, 0, 1)] on the local year of [now] is the instant of the
    local midnight that starts the first of January of that year. *)
Lemma Date_ymd_of_year (LocalTZA : Zone) (now : Date) :
  (0 <= LocalTime LocalTZA now)%Z ->
  Date_ymd LocalTZA (getFullYear LocalTZA now) 0 1 = WindowSpec.startOfYear LocalTZA now.
Proof.
  intros Hnow.
  unfold WindowSpec.startOfYear, WindowSpec.newYear, Date_ymd, getFullYear.
  assert (0 <= LocalTime LocalTZA now / msPerDay)%Z as Hz
      by (apply Z.div_pos; [exact Hnow|reflexivity]).
  pose proof (civil_from_days_spec _ Hz) as H.
  destruct (civil_from_days (LocalTime LocalTZA now / msPerDay)) as [[y m] d].
  destruct H as [Hy _].
  replace ((0 <=? y) && (y <=? 99))%Z with false
    by (symmetry; apply andb_false_iff; right; apply Z.leb_gt; lia).
  change (0 / 12)%Z with 0%Z. change (0 mod 12 + 1)%Z with 1%Z.
  rewrite Z.add_0_r. f_equal. lia.
Qed.

Lemma localMidnight_bounds (LocalTZA : Zone) (now : Date) :
  (WindowSpec.localMidnight LocalTZA now <= LocalTime LocalTZA now
   < WindowSpec.localMidnight LocalTZA now + msPerDay)%Z.
Proof.
  unfold WindowSpec.localMidnight, msPerDay. Z.to_euclidean_division_equations. lia.
Qed.

(** In a zone without clock changes the local day of [now] starts at most
    a day before [now]. *)
Lemma startOfDay_bounds (offset : Z) (now : Date) :
  (WindowSpec.startOfDay (fixedZone offset) now <= now
   < WindowSpec.startOfDay (fixedZone offset) now + msPerDay)%Z.
Proof.
  pose proof (localMidnight_bounds (fixedZone offset) now) as H.
  unfold WindowSpec.startOfDay, UTC, LocalTime, fixedZone in *. lia.
Qed.

Lemma days_from_civil_jan1 (y m d : Z) :
  (1 <= m <= 12 -> 1 <= d <= 31 ->
   days_from_civil y 1 1 <= days_from_civil y m d < days_from_civil y 1 1 + 367)%Z.
Proof.
  intros Hm Hd. unfold days_from_civil. cbv zeta.
  split_ifs; Z.to_euclidean_division_equations; lia.
Qed.

Section Calendar.
Local Open Scope Z_scope.

(** The first day of a month is the civil date of its own day number. *)
Lemma civil_of_first (y m : Z) :
  1 <= m <= 12 -> civil_from_days (days_from_civil y m 1) = (y, m, 1).
Proof.
  intros Hm. unfold civil_from_days, days_from_civil. cbv zeta.
  set (y' := if m <=? 2 then y - 1 else y).
  set (p := if 2 <? m then m - 3 else m + 9).
  assert (0 <= p <= 11 /\ (p < 10 -> m = p + 3 /\ y' = y) /\ (10 <= p -> m = p - 9 /\ y' = y - 1))
    as [Hp [Hlo Hhi]].
  { unfold p, y'. destruct (Z.ltb_spec 2 m), (Z.leb_spec m 2); lia. }
  clearbody p y'.
  set (era := y' / 400). set (yoe := y' - era * 400).
  assert (0 <= yoe < 400) as Hyoe by (unfold yoe, era; Z.to_euclidean_division_equations; lia).
  set (doy := (153 * p + 2) / 5 + 1 - 1).
  assert (0 <= doy <= 337 /\ (5 * doy + 2) / 153 = p /\ (153 * p + 2) / 5 = doy) as [Hdoy [Hmp Hd]].
  { unfold doy. assert (p = 0 \/ p = 1 \/ p = 2 \/ p = 3 \/ p = 4 \/ p = 5 \/ p = 6 \/ p = 7
                        \/ p = 8 \/ p = 9 \/ p = 10 \/ p = 11) as Hc by lia.
    repeat (destruct Hc as [->|Hc]); [..|subst p]; vm_compute; repeat split; discriminate. }
  clearbody doy.
  set (doe := yoe * 365 + yoe / 4 - yoe / 100 + doy).
  assert (0 <= doe < 146097) as Hdoe by (unfold doe; Z.to_euclidean_division_equations; lia).
  replace (era * 146097 + doe - 719468 + 719468) with (doe + era * 146097) by lia.
  rewrite Z.div_add by lia. rewrite (Z.div_small doe) by lia. rewrite Z.add_0_l.
  replace (doe + era * 146097 - era * 146097) with doe by lia.
  assert ((doe - doe / 1460 + doe / 36524 - doe / 146096) / 365 = yoe) as ->.
  { unfold doe. clearbody yoe. Z.to_euclidean_division_equations. lia. }
  replace (doe - (365 * yoe + yoe / 4 - yoe / 100)) with doy by (unfold doe; lia).
  rewrite Hmp, Hd.
  assert (yoe + era * 400 = y') as -> by (unfold yoe; lia).
  destruct (Z.ltb_spec p 10) as [L|L].
  - destruct (Hlo L) as [-> ->]. replace (p + 3 <=? 2) with false by (symmetry; apply Z.leb_gt; lia).
    f_equal. lia.
  - destruct (Hhi L) as [-> ->]. replace (p - 9 <=? 2) with true by (symmetry; apply Z.leb_le; lia).
    f_equal; [f_equal|]; lia.
Qed.

Variable offset : Z.
Variable now : Date.
Let zone : Zone := fixedZone offset.
Hypothesis after_epoch : 0 <= LocalTime zone now.

(** In a zone without clock changes the start of the local month of
    [now] is a local midnight of the first day of that month, at or
    before [now]. *)
Lemma startOfMonth_fields :
  getDate zone (WindowSpec.startOfMonth zone now) = 1
  /\ getMonth zone (WindowSpec.startOfMonth zone now) = getMonth zone now
  /\ getFullYear zone (WindowSpec.startOfMonth zone now) = getFullYear zone now
  /\ (WindowSpec.startOfMonth zone now + offset) mod msPerDay = 0
  /\ now - 31 * msPerDay < WindowSpec.startOfMonth zone now <= now.
Proof.
  pose proof (localMidnight_bounds zone now) as Hb.
  unfold WindowSpec.startOfMonth, WindowSpec.localMidnight, getDate, getMonth,
    getFullYear in *.
  assert (0 <= LocalTime zone now / msPerDay) as Hz
      by (apply Z.div_pos; [exact after_epoch|reflexivity]).
  pose proof (civil_from_days_spec _ Hz) as H.
  set (z := LocalTime zone now / msPerDay) in *.
  destruct (civil_from_days z) as [[y m] d] eqn:E.
  destruct H as [Hy [Hm [Hd Hr]]].
  assert (forall t, LocalTime zone (UTC zone t) = t) as Hlu
      by (intros t; unfold LocalTime, UTC, zone, fixedZone; lia).
  rewrite Hlu.
  replace (z * msPerDay - (d - 1) * msPerDay) with ((z - d + 1) * msPerDay) by lia.
  rewrite Z.div_mul by discriminate.
  replace (z - d + 1) with (days_from_civil y m 1)
    by (rewrite <- Hr, (days_from_civil_day y m d); lia).
  rewrite (civil_of_first y m Hm).
  repeat split; try reflexivity.
  - unfold UTC, zone, fixedZone.
    replace (days_from_civil y m 1 * msPerDay - offset + offset)
      with (days_from_civil y m 1 * msPerDay) by lia.
    apply Z.mod_mul. discriminate.
  - unfold UTC, LocalTime, zone, fixedZone, msPerDay in *.
    rewrite (days_from_civil_day y m d) in Hr. lia.
  - unfold UTC, LocalTime, zone, fixedZone, msPerDay in *.
    rewrite (days_from_civil_day y m d) in Hr. lia.
Qed.

(** ... and the start of the local year is a local midnight of the first
    of January of that year, at or before [now]. *)
Lemma startOfYear_fields :
  getDate zone (WindowSpec.startOfYear zone now) = 1
  /\ getMonth zone (WindowSpec.startOfYear zone now) = 0
  /\ getFullYear zone (WindowSpec.startOfYear zone now) = getFullYear zone now
  /\ (WindowSpec.startOfYear zone now + offset) mod msPerDay = 0
  /\ now - 367 * msPerDay < WindowSpec.startOfYear zone now <= now.
Proof.
  pose proof (localMidnight_bounds zone now) as Hb.
  unfold WindowSpec.startOfYear, WindowSpec.newYear, WindowSpec.localMidnight,
    getDate, getMonth, getFullYear in *.
  assert (0 <= LocalTime zone now / msPerDay) as Hz
      by (apply Z.div_pos; [exact after_epoch|reflexivity]).
  pose proof (civil_from_days_spec _ Hz) as H.
  set (z := LocalTime zone now / msPerDay) in *.
  destruct (civil_from_days z) as [[y m] d] eqn:E.
  destruct H as [Hy [Hm [Hd Hr]]].
  assert (forall t, LocalTime zone (UTC zone t) = t) as Hlu
      by (intros t; unfold LocalTime, UTC, zone, fixedZone; lia).
  rewrite Hlu, Z.div_mul by discriminate.
  rewrite (civil_of_first y 1) by lia.
  pose proof (days_from_civil_jan1 y m d Hm Hd) as [J1 J2]. rewrite Hr in J1, J2.
  repeat split; try reflexivity.
  - unfold UTC, zone, fixedZone.
    replace (days_from_civil y 1 1 * msPerDay - offset + offset)
      with (days_from_civil y 1 1 * msPerDay) by lia.
    apply Z.mod_mul. discriminate.
  - unfold UTC, LocalTime, zone, fixedZone, msPerDay in *. lia.
  - unfold UTC, LocalTime, zone, fixedZone, msPerDay in *. lia.
Qed.

End Calendar.

(** What each switch gives for the tokens of the table. *)
Lemma getPracticeStats_startDate_cases (LocalTZA : Zone) (now : Date) :
  PracticeController.getPracticeStats_startDate LocalTZA "day" now
  = Date_ymd LocalTZA (getFullYear LocalTZA now) (getMonth LocalTZA now)
             (getDate LocalTZA now)
  /\ PracticeController.getPracticeStats_startDate LocalTZA "week" now = daysAgo 7 now
  /\ PracticeController.getPracticeStats_startDate LocalTZA "month" now
     = Date_ymd LocalTZA (getFullYear LocalTZA now) (getMonth LocalTZA now) 1
  /\ PracticeController.getPracticeStats_startDate LocalTZA "quarter" now = daysAgo 7 now
  /\ PracticeController.getPracticeStats_startDate LocalTZA "year" now
     = Date_ymd LocalTZA (getFullYear LocalTZA now) 0 1.
Proof. repeat split. Qed.

Lemma getStudentProgressReport_startDate_cases (LocalTZA : Zone) (now : Date) :
  ReportController.getStudentProgressReport_startDate LocalTZA "day" now = daysAgo 30 now
  /\ ReportController.getStudentProgressReport_startDate LocalTZA "week" now = daysAgo 7 now
  /\ ReportController.getStudentProgressReport_startDate LocalTZA "month" now
     = daysAgo 30 now
  /\ ReportController.getStudentProgressReport_startDate LocalTZA "quarter" now
     = daysAgo 90 now
  /\ ReportController.getStudentProgressReport_startDate LocalTZA "year" now
     = Date_ymd LocalTZA (getFullYear LocalTZA now) 0 1.
Proof. repeat split. Qed.

(** C8, as stated, fails on the code: the practice-stats endpoint does not
    list ['quarter'] and resolves it to now minus 7 days. *)
Lemma uniform_table_counterexample : ~ WindowSpec.uniform_table.
Proof.
  intros H.
  destruct (H WindowSpec.utc WindowSpec.PracticeStats WindowSpec.sampleNow
              (or_intror eq_refl))
    as [_ [_ [Hq _]]].
  vm_compute in Hq. discriminate.
Qed.

(** C8, amended: each endpoint resolves the tokens its switch lists, and
    any other token to its default.  'week' is now minus 7 days in every
    endpoint; 'month' is now minus 30 days in the endpoints of the report
    controller and in the practice analytics for teachers, and the start
    of the current calendar month in the practice-stats endpoint;
    'quarter' is now minus 90 days where it is listed (not in
    practice-stats); 'year' is the start of the current calendar year in
    the student progress report and in practice-stats; 'day' is the start
    of the current calendar day in practice-stats.  The default is now
    minus 7 days in practice-stats and now minus 30 days elsewhere.  The
    calendar day, month and year are those of the server's local time
    zone, and their starts are local midnights: the local day of [now]
    starts at the local midnight at or before the local time of [now],
    the month [getDate now - 1] days before that, the year at the local
    midnight of its first of January; in a zone without clock changes the
    day starts at most a day before [now], the month on the first day of
    the month of [now] and the year on the first of January of its year,
    both at a local midnight at or before [now]. *)
Theorem startDate_by_endpoint (LocalTZA : Zone) (now : Date) :
  (0 <= LocalTime LocalTZA now)%Z ->
  (forall e, WindowSpec.startDate LocalTZA e "week" now = (now - 7 * msPerDay)%Z)
  /\ (forall e, e <> WindowSpec.PracticeStats ->
                WindowSpec.startDate LocalTZA e "month" now = (now - 30 * msPerDay)%Z)
  /\ WindowSpec.startDate LocalTZA WindowSpec.PracticeStats "month" now
     = WindowSpec.startOfMonth LocalTZA now
  /\ (forall e, e <> WindowSpec.PracticeStats ->
                WindowSpec.startDate LocalTZA e "quarter" now = (now - 90 * msPerDay)%Z)
  /\ WindowSpec.startDate LocalTZA WindowSpec.StudentProgressReport "year" now
     = WindowSpec.startOfYear LocalTZA now
  /\ WindowSpec.startDate LocalTZA WindowSpec.PracticeStats "year" now
     = WindowSpec.startOfYear LocalTZA now
  /\ WindowSpec.startDate LocalTZA WindowSpec.PracticeStats "day" now
     = WindowSpec.startOfDay LocalTZA now
  /\ (forall e period, ~ In period (WindowSpec.listed e) ->
                       WindowSpec.startDate LocalTZA e period now = WindowSpec.fallback e now)
  /\ WindowSpec.startDate LocalTZA WindowSpec.PracticeStats "quarter" now
     = (now - 7 * msPerDay)%Z
  /\ WindowSpec.startDate LocalTZA WindowSpec.ClassAnalytics "year" now
     = (now - 30 * msPerDay)%Z
  /\ WindowSpec.startDate LocalTZA WindowSpec.StudentProgressReport "day" now
     = (now - 30 * msPerDay)%Z
  /\ (WindowSpec.localMidnight LocalTZA now <= LocalTime LocalTZA now
      < WindowSpec.localMidnight LocalTZA now + msPerDay)%Z
  /\ (WindowSpec.localMidnight LocalTZA now mod msPerDay = 0)%Z
  /\ (forall offset, LocalTZA = fixedZone offset ->
        (WindowSpec.startOfDay LocalTZA now <= now
         < WindowSpec.startOfDay LocalTZA now + msPerDay)%Z
        /\ (getDate LocalTZA (WindowSpec.startOfMonth LocalTZA now) = 1
            /\ getMonth LocalTZA (WindowSpec.startOfMonth LocalTZA now)
               = getMonth LocalTZA now
            /\ getFullYear LocalTZA (WindowSpec.startOfMonth LocalTZA now)
               = getFullYear LocalTZA now
            /\ (WindowSpec.startOfMonth LocalTZA now + offset) mod msPerDay = 0
            /\ now - 31 * msPerDay < WindowSpec.startOfMonth LocalTZA now <= now)%Z
        /\ (getDate LocalTZA (WindowSpec.startOfYear LocalTZA now) = 1
            /\ getMonth LocalTZA (WindowSpec.startOfYear LocalTZA now) = 0
            /\ getFullYear LocalTZA (WindowSpec.startOfYear LocalTZA now)
               = getFullYear LocalTZA now
            /\ (WindowSpec.startOfYear LocalTZA now + offset) mod msPerDay = 0
            /\ now - 367 * msPerDay < WindowSpec.startOfYear LocalTZA now <= now)%Z).
Proof.
  intros Hnow.
  assert (forall n, daysAgo n now = (now - n * msPerDay)%Z) as Hago
      by (intros n; unfold daysAgo, getTime, msPerDay; lia).
  destruct (getPracticeStats_startDate_cases LocalTZA now)
    as [Pd [Pw [Pm [Pq Py]]]].
  destruct (getStudentProgressReport_startDate_cases LocalTZA now)
    as [Rd [Rw [Rm [Rq Ry]]]].
  repeat match goal with |- _ /\ _ => split end.
  - intros []; cbn [WindowSpec.startDate]; rewrite ?Pw, ?Rw; exact (Hago 7%Z).
  - intros [] Hne; try contradiction; cbn [WindowSpec.startDate]; rewrite ?Rm;
      exact (Hago 30%Z).
  - cbn [WindowSpec.startDate]. rewrite Pm, (Date_ymd_of_fields LocalTZA now 1 Hnow).
    unfold WindowSpec.startOfMonth. f_equal. lia.
  - intros [] Hne; try contradiction; cbn [WindowSpec.startDate]; rewrite ?Rq;
      exact (Hago 90%Z).
  - cbn [WindowSpec.startDate]. rewrite Ry. now apply Date_ymd_of_year.
  - cbn [WindowSpec.startDate]. rewrite Py. now apply Date_ymd_of_year.
  - cbn [WindowSpec.startDate].
    rewrite Pd, (Date_ymd_of_fields LocalTZA now _ Hnow).
    unfold WindowSpec.startOfDay. f_equal. lia.
  - intros e period Hnot.
    assert (forall t, In t (WindowSpec.listed e) -> String.eqb period t = false) as Hf.
    { intros t Ht. apply String.eqb_neq. intros ->. now apply Hnot. }
    destruct e; cbn [WindowSpec.startDate WindowSpec.listed WindowSpec.fallback In] in Hf |- *;
      unfold ReportController.getStudentProgressReport_startDate,
        ReportController.getClassAnalytics_startDate,
        PracticeController.getPracticeStats_startDate,
        PracticeController.getStudentPracticeAnalytics_startDate;
      rewrite ?Hf by tauto; reflexivity.
  - cbn [WindowSpec.startDate]. rewrite Pq. exact (Hago 7%Z).
  - exact (Hago 30%Z).
  - cbn [WindowSpec.startDate]. rewrite Rd. exact (Hago 30%Z).
  - apply localMidnight_bounds.
  - apply localMidnight_bounds.
  - unfold WindowSpec.localMidnight. apply Z.mod_mul. discriminate.
  - intros offset ->.
    split; [apply startOfDay_bounds|].
    split; [now apply startOfMonth_fields|now apply startOfYear_fields].
Qed.

(** C8, amended, on a server in India at 2026-10-31T20:00:00Z, which is
    the first of November there: the month of practice-stats starts on
    2026-10-31T18:30:00Z, the local midnight, and its year on
    2025-12-31T18:30:00Z; on a server in UTC at 2026-11-02T10:30:00Z the
    month of practice-stats starts on 2026-11-01T00:00:00Z and the month
    of the progress report on 2026-10-03T10:30:00Z. *)
Lemma startDate_by_endpoint_witness :
  WindowSpec.startDate WindowSpec.ist WindowSpec.PracticeStats "month"
                       WindowSpec.sampleEvening
  = 1793471400000%Z
  /\ WindowSpec.startDate WindowSpec.ist WindowSpec.PracticeStats "year"
                          WindowSpec.sampleEvening
     = 1767205800000%Z
  /\ WindowSpec.startDate WindowSpec.utc WindowSpec.PracticeStats "month"
                          WindowSpec.sampleNow
     = 1793491200000%Z
  /\ WindowSpec.startDate WindowSpec.utc WindowSpec.StudentProgressReport "month"
                          WindowSpec.sampleNow
     = 1791023400000%Z.
Proof.
  assert (0 <= LocalTime WindowSpec.ist WindowSpec.sampleEvening)%Z as Hist
      by (vm_compute; discriminate).
  assert (0 <= LocalTime WindowSpec.utc WindowSpec.sampleNow)%Z as Hutc
      by (vm_compute; discriminate).
  destruct (startDate_by_endpoint WindowSpec.ist WindowSpec.sampleEvening Hist)
    as [_ [_ [Im [_ [_ [Iy _]]]]]].
  destruct (startDate_by_endpoint WindowSpec.utc WindowSpec.sampleNow Hutc)
    as [_ [Um [Up _]]].
  split; [rewrite Im; vm_compute; reflexivity|].
  split; [rewrite Iy; vm_compute; reflexivity|].
  split; [rewrite Up; vm_compute; reflexivity|].
  rewrite (Um WindowSpec.StudentProgressReport) by discriminate. reflexivity.
Defined.

(** ** Student engagement of a class *)

Section SortStage.

Import ReportController.






End SortStage.

Lemma distinct_In (ids : list ObjectId) (i : ObjectId) :
  In i (ReportController.distinct ids) <-> In i ids.
Proof.
  induction ids as [|j ids IH]; simpl; [tauto|].
  rewrite filter_In, IH, negb_true_iff, id_eqb_neq.
  destruct (String.eqb_spec j i) as [->|Hne]; [tauto|].
  split; [tauto|]. intros [H|H]; [contradiction|]. right. split; [exact H|congruence].
Qed.

Lemma distinct_NoDup (ids : list ObjectId) : NoDup (ReportController.distinct ids).
Proof.
  induction ids as [|j ids IH]; simpl; constructor.
  - rewrite filter_In, id_eqb_refl. intros [_ H]. discriminate.
  - now apply NoDup_filter.
Qed.













(** ** Saving a practice session *)

Lemma lt_comp (x x' y : Number) : x == x' -> lt x y = lt x' y.
Proof. intros E. unfold lt. now rewrite E. Qed.

(** What [savePractice] stores about completion: the test reads the
    [accuracy] of the request and the [attempts] of the session. *)
Lemma savePractice_completion (classes : list Class.t) (studentId : ObjectId)
      (b : PracticeController.Body) (now : Date) (p : Practice.t) :
  PracticeController.savePractice true classes studentId b now
  = PracticeController.Status201 p ->
  Practice.isCompleted p
  = PracticeController.requestAccuracyAtLeast80 b || ge (Practice.attempts p) 3
  /\ (Practice.isCompleted p = true ->
      Practice.completionTime p = PracticeController.timeSpent b)
  /\ (PracticeController.isWritingWithTarget b = false ->
      PracticeController.requestAccuracyAtLeast80 b = ge (Practice.accuracy p) 80).
Proof.
  unfold PracticeController.savePractice. cbn [negb].
  destruct (match PracticeController.classId b with Some _ => _ | None => _ end);
    [discriminate|].
  set (p0 := PracticeController.newPractice studentId b now).
  set (p1 := if PracticeController.isTypingWithData b then _ else _).
  assert (Practice.attempts p1 = Practice.attempts p0
          /\ Practice.isCompleted p1 = false
          /\ (PracticeController.isWritingWithTarget b = false ->
              Practice.accuracy p1 = Practice.accuracy p0)) as [Hatt [Hc Hacc]].
  { unfold p1. destruct (PracticeController.isTypingWithData b).
    - unfold Practice.calculateTypingMetrics.
      destruct (negb _); repeat split; reflexivity.
    - destruct (PracticeController.isWritingWithTarget b).
      + unfold Practice.evaluateWriting.
        destruct (Practice.type p0); try (repeat split; try reflexivity; discriminate).
        destruct (Practice.targetContent p0) as [t|];
          try (repeat split; try reflexivity; discriminate).
        destruct (truthy t); repeat split; try reflexivity; discriminate.
      + repeat split; reflexivity. }
  destruct (PracticeController.requestAccuracyAtLeast80 b || ge (Practice.attempts p1) 3)
    eqn:T; intros [= <-].
  - cbn [Practice.set_completed Practice.isCompleted Practice.completionTime
         Practice.attempts Practice.accuracy].
    rewrite T. repeat split. intros W. rewrite (Hacc W).
    unfold PracticeController.requestAccuracyAtLeast80, p0.
    cbn [PracticeController.newPractice Practice.accuracy]. unfold number_or.
    destruct (PracticeController.accuracy b) as [x|]; [|reflexivity].
    destruct (Qeq_bool x 0) eqn:Z; [|reflexivity].
    apply Qeq_bool_eq in Z. unfold ge. now rewrite (lt_comp _ _ _ Z).
  - rewrite T, Hc. repeat split; [discriminate|]. intros W. rewrite (Hacc W).
    unfold PracticeController.requestAccuracyAtLeast80, p0.
    cbn [PracticeController.newPractice Practice.accuracy]. unfold number_or.
    destruct (PracticeController.accuracy b) as [x|]; [|reflexivity].
    destruct (Qeq_bool x 0) eqn:Z; [|reflexivity].
    apply Qeq_bool_eq in Z. unfold ge. now rewrite (lt_comp _ _ _ Z).
Qed.

(** C10, at an input where the code departs from it: a writing session
    sent without [accuracy] whose content equals the target is stored with
    the recomputed accuracy 100 and with isCompleted = false, because the
    completion test reads the request's [accuracy], not the session's.
    The other way round, a request that claims 90 for a content that
    matches nothing is stored with accuracy 0 and isCompleted = true. *)
Theorem savePractice_completion_ignores_recomputed_accuracy :
  SavePracticeSpec.outcome
    (PracticeController.savePractice true [] SavePracticeSpec.student
       (SavePracticeSpec.request Practice.writing "hello" (Some "hello") None None)
       1795000000000%Z)
  = Some (100, 1, false, None)
  /\ SavePracticeSpec.outcome
       (PracticeController.savePractice true [] SavePracticeSpec.student
          (SavePracticeSpec.request Practice.writing "zzzzz" (Some "hello") (Some 90) None)
          1795000000000%Z)
     = Some (0, 1, true, Some 42).
Proof. split; reflexivity. Qed.

(** * Further properties of the code *)

(** ** Numbers, again *)

Lemma Math_round_le (x y : Number) : x <= y -> Math_round x <= Math_round y.
Proof.
  intros H. unfold Math_round. rewrite <- Zle_Qle. apply Qfloor_resp_le. lra.
Qed.

Lemma total_app (l1 l2 : list Number) : total (l1 ++ l2) == total l1 + total l2.
Proof.
  induction l1 as [|x l1 IH]; simpl; [ring|]. rewrite IH. ring.
Qed.

Lemma total_bounds {A} (f : A -> Number) (lo hi : Number) (l : list A) :
  (forall x, In x l -> lo <= f x <= hi) ->
  lo * of_nat (List.length l) <= total (map f l) <= hi * of_nat (List.length l).
Proof.
  induction l as [|x l IH]; intros H.
  - cbn [List.length map]. change (of_nat 0) with 0. unfold total. cbn [fold_right]. lra.
  - assert (lo <= f x <= hi) as Hx by (apply H; now left).
    assert (lo * of_nat (List.length l) <= total (map f l) <= hi * of_nat (List.length l))
      as Hl by (apply IH; intros y Hy; apply H; now right).
    assert (of_nat (List.length (x :: l)) == of_nat (List.length l) + 1) as ->.
    { unfold of_nat. simpl List.length. rewrite Nat2Z.inj_succ, <- Z.add_1_r.
      now rewrite inject_Z_plus. }
    cbn [map]. unfold total in *. cbn [fold_right]. lra.
Qed.

Lemma of_nat_pos (n : nat) : (0 < n)%nat -> 0 < of_nat n.
Proof.
  intros H. unfold of_nat. change 0 with (inject_Z 0). rewrite <- Zlt_Qlt. lia.
Qed.

Lemma of_nat_nonneg (n : nat) : 0 <= of_nat n.
Proof.
  unfold of_nat. change 0 with (inject_Z 0). rewrite <- Zle_Qle. lia.
Qed.


Lemma filter_length_split {A} (p : A -> bool) (l : list A) :
  (List.length (filter p l) + List.length (filter (fun x => negb (p x)) l))%nat
  = List.length l.
Proof.
  induction l as [|x l IH]; simpl; [reflexivity|].
  destruct (p x); simpl; lia.
Qed.

(** ** Submissions and grades *)

Lemma submitAssignment_normal (a a' : Assignment.t) (studentId : ObjectId)
      (answers : list Answer.t) (now : Date) :
  Assignment.submitAssignment a studentId answers now = Normal a' ->
  GradingSpec.answerable (Assignment.questions a) answers
  /\ exists new,
      Assignment.submissions a'
      = (GradingSpec.submissionsOfOthers studentId (Assignment.submissions a) ++ [new])%list
      /\ GradingSpec.submissionsOf studentId (Assignment.submissions a') = [new]
      /\ Assignment.questions a' = Assignment.questions a
      /\ Assignment.totalPoints a' = Assignment.totalPoints a
      /\ Submission.studentId new = studentId
      /\ Submission.answers new = map (GradingSpec.graded (Assignment.questions a)) answers
      /\ Submission.score new
         == total (map (GradingSpec.awarded (Assignment.questions a)) answers)
      /\ Submission.percentage new
         = Assignment.percentageOf (Submission.score new) (Assignment.totalPoints a)
      /\ Submission.feedback new = None
      /\ Submission.submittedAt new = now
      /\ Submission.gradedAt new = None
      /\ Submission.gradedBy new = None.
Proof.
  intros E.
  destruct (submitAssignment_cases a studentId answers now)
    as [[Hok [new [score [E' [Hnew Hs]]]]]|[_ E']]; rewrite E' in E; [|discriminate].
  injection E as <-. split; [exact Hok|]. exists new.
  cbn [Assignment.save Assignment.set_submissions Assignment.submissions
       Assignment.questions Assignment.totalPoints].
  split; [reflexivity|]. split.
  { unfold GradingSpec.submissionsOf, GradingSpec.submissionsOfOthers.
    rewrite filter_app, filter_filter_negb. subst new. simpl. now rewrite id_eqb_refl. }
  subst new. cbn. repeat split. exact Hs.
Qed.

(** X1: the submission count after a completed [submitAssignment]: the
    student's earlier entries are gone and one entry is added. *)
Theorem submitAssignment_submissionCount
        (a a' : Assignment.t) (studentId : ObjectId) (answers : list Answer.t) (now : Date) :
  Assignment.submitAssignment a studentId answers now = Normal a' ->
  (AssignmentSchema.submissionCount a'
   + List.length (GradingSpec.submissionsOf studentId (Assignment.submissions a))
   = AssignmentSchema.submissionCount a + 1)%nat.
Proof.
  intros E. destruct (submitAssignment_normal _ _ _ _ _ E) as [_ [new [Hs _]]].
  unfold AssignmentSchema.submissionCount. rewrite Hs, length_app. simpl.
  pose proof (filter_length_split
                (fun s => id_eqb (Submission.studentId s) studentId)
                (Assignment.submissions a)) as H.
  unfold GradingSpec.submissionsOf, GradingSpec.submissionsOfOthers. lia.
Qed.

(** A resubmission by a student of the quiz leaves the count at 2. *)
Lemma submitAssignment_submissionCount_witness :
  exists a',
    Assignment.submitAssignment GradingSpec.quiz GradingSpec.alice
      [GradingSpec.answerTo "q1" "A"] 1795000000000%Z = Normal a'
    /\ AssignmentSchema.submissionCount a' = 2%nat.
Proof.
  eexists. split; [reflexivity|].
  pose proof (submitAssignment_submissionCount
                GradingSpec.quiz _ GradingSpec.alice [GradingSpec.answerTo "q1" "A"]
                1795000000000%Z eq_refl) as H.
  exact (eq_add_S _ _ (eq_trans (eq_sym (Nat.add_1_r _)) H)).
Defined.
Lemma find_app_last {A} (p : A -> bool) (l : list A) (x : A) :
  filter p l = [] -> p x = true -> find p (l ++ [x]) = Some x.
Proof.
  intros Hl Hx. induction l as [|y l IH]; simpl in *.
  - now rewrite Hx.
  - destruct (p y); [discriminate|]. now apply IH.
Qed.

Lemma gradeAssignment_found (a : Assignment.t) (studentId : ObjectId) (score : Number)
      (feedback : option string) (gradedBy : ObjectId) (now : Date) (old : Submission.t) :
  find (fun sub => id_eqb (Submission.studentId sub) studentId) (Assignment.submissions a)
  = Some old ->
  Assignment.gradeAssignment a studentId score feedback gradedBy now
  = Normal (Assignment.save
              (Assignment.set_submissions a
                 (Assignment.modify_first
                    (fun sub => id_eqb (Submission.studentId sub) studentId)
                    (Assignment.grade (Assignment.totalPoints a) score feedback gradedBy now)
                    (Assignment.submissions a)))
              now).
Proof. intros F. unfold Assignment.gradeAssignment. now rewrite F. Qed.

Lemma gradeAssignment_normal (a a' : Assignment.t) (studentId : ObjectId) (score : Number)
      (feedback : option string) (gradedBy : ObjectId) (now : Date) :
  Assignment.gradeAssignment a studentId score feedback gradedBy now = Normal a' ->
  exists old,
    find (fun sub => id_eqb (Submission.studentId sub) studentId) (Assignment.submissions a)
    = Some old
    /\ a' = Assignment.save
              (Assignment.set_submissions a
                 (Assignment.modify_first
                    (fun sub => id_eqb (Submission.studentId sub) studentId)
                    (Assignment.grade (Assignment.totalPoints a) score feedback gradedBy now)
                    (Assignment.submissions a)))
              now.
Proof.
  unfold Assignment.gradeAssignment.
  destruct (find _ (Assignment.submissions a)) as [old|]; [|discriminate].
  intros [= <-]. now exists old.
Qed.

(** X2: after a completed [submitAssignment], [gradeAssignment] for the same
    student always finds the submission: it completes, keeps the graded
    answers and the submission date, and leaves the other students'
    entries as they were. *)
Theorem gradeAssignment_after_submitAssignment
        (a a1 : Assignment.t) (studentId : ObjectId) (answers : list Answer.t)
        (submitted : Date) (score : Number) (feedback : option string)
        (gradedBy : ObjectId) (graded : Date) :
  Assignment.submitAssignment a studentId answers submitted = Normal a1 ->
  exists a2 new,
    Assignment.gradeAssignment a1 studentId score feedback gradedBy graded = Normal a2
    /\ GradingSpec.submissionsOf studentId (Assignment.submissions a2) = [new]
    /\ Submission.score new = score
    /\ Submission.feedback new = feedback
    /\ Submission.gradedAt new = Some graded
    /\ Submission.gradedBy new = Some gradedBy
    /\ Submission.answers new = map (GradingSpec.graded (Assignment.questions a)) answers
    /\ Submission.submittedAt new = submitted
    /\ GradingSpec.submissionsOfOthers studentId (Assignment.submissions a2)
       = GradingSpec.submissionsOfOthers studentId (Assignment.submissions a).
Proof.
  intros E.
  destruct (submitAssignment_normal _ _ _ _ _ E)
    as [_ [new [Hs [_ [_ [Htp [Hid [Hans [_ [_ [_ [Hat _]]]]]]]]]]]].
  set (mine := fun sub => id_eqb (Submission.studentId sub) studentId).
  assert (filter mine (GradingSpec.submissionsOfOthers studentId (Assignment.submissions a))
          = []) as Hnone by apply filter_filter_negb.
  assert (mine new = true) as Hmine by (unfold mine; rewrite Hid; apply id_eqb_refl).
  assert (find mine (Assignment.submissions a1) = Some new) as F
      by (rewrite Hs; now apply find_app_last).
  rewrite (gradeAssignment_found _ _ score feedback gradedBy graded _ F).
  destruct (modify_first_split mine
              (Assignment.grade (Assignment.totalPoints a1) score feedback gradedBy graded)
              _ _ F) as [before [after [Hl [Hm Hb]]]].
  assert (before = GradingSpec.submissionsOfOthers studentId (Assignment.submissions a)
          /\ after = []) as [-> ->].
  { rewrite Hs in Hl. clear -Hl Hb Hnone Hmine.
    revert before Hl Hb.
    induction (GradingSpec.submissionsOfOthers studentId (Assignment.submissions a))
      as [|y l IH]; intros before Hl Hb.
    - destruct before as [|b before]; simpl in Hl.
      + assert (after = []) as -> by congruence. now split.
      + injection Hl as <- Hl. simpl in Hb. rewrite Hmine in Hb. discriminate.
    - simpl in Hnone. destruct (mine y) eqn:Ey; [discriminate|].
      destruct before as [|b before]; simpl in Hl.
      + injection Hl as -> _. congruence.
      + injection Hl as <- Hl. simpl in Hb. apply andb_prop in Hb as [_ Hb].
        destruct (IH Hnone before Hl Hb) as [-> ->]. now split. }
  eexists; eexists. split; [reflexivity|].
  cbn [Assignment.save Assignment.set_submissions Assignment.submissions].
  fold mine. rewrite Hm. unfold GradingSpec.submissionsOf, GradingSpec.submissionsOfOthers.
  fold mine. rewrite !filter_app.
  fold (GradingSpec.submissionsOfOthers studentId (Assignment.submissions a)).
  rewrite Hnone. cbn [filter Assignment.grade Submission.studentId negb app].
  fold (mine new). rewrite Hmine. cbn [negb app].
  change (mine (Assignment.grade (Assignment.totalPoints a1) score feedback gradedBy
                                 graded new)) with (mine new).
  rewrite Hmine. split; [reflexivity|].
  cbn [Assignment.grade Submission.score Submission.feedback Submission.gradedAt
       Submission.gradedBy Submission.answers Submission.submittedAt].
  repeat split; try assumption.
  rewrite app_nil_r. unfold GradingSpec.submissionsOfOthers. apply filter_idem.
Qed.

(** The quiz, answered by a student and then graded by the teacher. *)
Lemma gradeAssignment_after_submitAssignment_witness :
  exists a1 a2,
    Assignment.submitAssignment GradingSpec.quiz GradingSpec.alice
      [GradingSpec.answerTo "q1" "A"] 1795000000000%Z = Normal a1
    /\ Assignment.gradeAssignment a1 GradingSpec.alice 5 (Some "Full marks")
         GradingSpec.teacher 1796000000000%Z = Normal a2.
Proof.
  eexists.
  destruct (gradeAssignment_after_submitAssignment
              GradingSpec.quiz _ GradingSpec.alice [GradingSpec.answerTo "q1" "A"]
              1795000000000%Z 5 (Some "Full marks") GradingSpec.teacher
              1796000000000%Z eq_refl) as [a2 [new [E _]]].
  exists a2. split; [reflexivity|exact E].
Defined.

(** X3: a resubmission discards the manual grade: after [gradeAssignment], a
    completed [submitAssignment] of the same student stores a submission
    without feedback, grading date or grader, with the automatic score and
    the percentage round(score / totalPoints * 100) of it, quotient and
    product in double precision. *)
Theorem submitAssignment_discards_grade
        (a a1 a2 : Assignment.t) (studentId : ObjectId) (score : Number)
        (feedback : option string) (gradedBy : ObjectId) (graded : Date)
        (answers : list Answer.t) (submitted : Date) :
  Assignment.gradeAssignment a studentId score feedback gradedBy graded = Normal a1 ->
  Assignment.submitAssignment a1 studentId answers submitted = Normal a2 ->
  exists new,
    GradingSpec.submissionsOf studentId (Assignment.submissions a2) = [new]
    /\ Submission.feedback new = None
    /\ Submission.gradedAt new = None
    /\ Submission.gradedBy new = None
    /\ Submission.score new
       == total (map (GradingSpec.awarded (Assignment.questions a)) answers)
    /\ Submission.percentage new
       = (if gt (Assignment.totalPoints a) 0
          then Math_round
                 (fmul (fdiv (Submission.score new) (Assignment.totalPoints a)) 100)
          else 0).
Proof.
  intros G E.
  destruct (gradeAssignment_normal _ _ _ _ _ _ _ G) as [old [_ ->]].
  destruct (submitAssignment_normal _ _ _ _ _ E)
    as [_ [new [_ [H1 [_ [_ [_ [_ [Hs [Hp [Hf [_ [Hg Hb]]]]]]]]]]]]].
  exists new. cbn [Assignment.save Assignment.set_submissions Assignment.questions
                   Assignment.totalPoints] in Hs, Hp.
  repeat split; assumption.
Qed.

(** Bob's graded submission of the quiz, replaced by a new one. *)
Lemma submitAssignment_discards_grade_witness :
  exists a1 a2 new,
    Assignment.gradeAssignment GradingSpec.quiz GradingSpec.bob 4 (Some "Well done")
      GradingSpec.teacher 1796000000000%Z = Normal a1
    /\ Assignment.submitAssignment a1 GradingSpec.bob [GradingSpec.answerTo "q2" "true"]
         1797000000000%Z = Normal a2
    /\ GradingSpec.submissionsOf GradingSpec.bob (Assignment.submissions a2) = [new]
    /\ Submission.feedback new = None.
Proof.
  eexists. eexists.
  destruct (submitAssignment_discards_grade
              GradingSpec.quiz _ _ GradingSpec.bob 4 (Some "Well done") GradingSpec.teacher
              1796000000000%Z [GradingSpec.answerTo "q2" "true"] 1797000000000%Z
              eq_refl eq_refl) as [new [H1 [H2 _]]].
  exists new. repeat split; assumption.
Defined.

Lemma modify_first_twice {A} (p : A -> bool) (f g : A -> A) (l : list A) :
  (forall x, p (f x) = p x) ->
  (forall x, g (f x) = g x) ->
  Assignment.modify_first p g (Assignment.modify_first p f l)
  = Assignment.modify_first p g l.
Proof.
  intros Hp Hg. induction l as [|x l IH]; simpl; [reflexivity|].
  destruct (p x) eqn:E; simpl.
  - now rewrite Hp, E, Hg.
  - now rewrite E, IH.
Qed.

(** X4: grading twice is grading once with the later values: nothing of the
    first grade survives the second. *)
Theorem gradeAssignment_last_wins
        (a a1 : Assignment.t) (studentId : ObjectId)
        (score1 score2 : Number) (feedback1 feedback2 : option string)
        (gradedBy1 gradedBy2 : ObjectId) (now1 now2 : Date) :
  Assignment.gradeAssignment a studentId score1 feedback1 gradedBy1 now1 = Normal a1 ->
  Assignment.gradeAssignment a1 studentId score2 feedback2 gradedBy2 now2
  = Assignment.gradeAssignment a studentId score2 feedback2 gradedBy2 now2.
Proof.
  intros G. destruct (gradeAssignment_normal _ _ _ _ _ _ _ G) as [old [F ->]].
  set (mine := fun sub => id_eqb (Submission.studentId sub) studentId) in *.
  rewrite (gradeAssignment_found a _ score2 feedback2 gradedBy2 now2 _ F).
  erewrite gradeAssignment_found.
  2:{ cbn [Assignment.save Assignment.set_submissions Assignment.submissions].
      apply (find_modify_first mine); [reflexivity|exact F]. }
  cbn [Assignment.save Assignment.set_submissions Assignment.submissions
       Assignment.totalPoints].
  fold mine. rewrite modify_first_twice by reflexivity. reflexivity.
Qed.

(** Bob's submission graded 1 and then 4. *)
Lemma gradeAssignment_last_wins_witness :
  exists a1,
    Assignment.gradeAssignment GradingSpec.quiz GradingSpec.bob 1 None
      GradingSpec.teacher 1796000000000%Z = Normal a1
    /\ Assignment.gradeAssignment a1 GradingSpec.bob 4 (Some "Well done")
         GradingSpec.teacher 1796000060000%Z
       = Assignment.gradeAssignment GradingSpec.quiz GradingSpec.bob 4 (Some "Well done")
           GradingSpec.teacher 1796000060000%Z.
Proof.
  eexists. split; [reflexivity|].
  apply (gradeAssignment_last_wins GradingSpec.quiz _ GradingSpec.bob 1 4 None
           (Some "Well done") GradingSpec.teacher GradingSpec.teacher
           1796000000000%Z 1796000060000%Z).
  reflexivity.
Defined.
Lemma answerable_app (qs : list Question.t) (x y : list Answer.t) :
  GradingSpec.answerable qs (x ++ y)
  <-> GradingSpec.answerable qs x /\ GradingSpec.answerable qs y.
Proof.
  unfold GradingSpec.answerable. split.
  - intros H. split; intros a q Ha; apply H; apply in_or_app; tauto.
  - intros [Hx Hy] a q Ha. apply in_app_or in Ha as [Ha|Ha]; [now apply Hx|now apply Hy].
Qed.

Lemma storedScore_spec (a : Assignment.t) (studentId : ObjectId)
      (answers : list Answer.t) (now : Date) :
  GradingSpec.answerable (Assignment.questions a) answers ->
  exists s,
    AssignmentFacts.storedScore (Assignment.submitAssignment a studentId answers now)
                                studentId = Some s
    /\ s == total (map (GradingSpec.awarded (Assignment.questions a)) answers).
Proof.
  intros Hok.
  destruct (submitAssignment_grades a studentId answers now Hok)
    as [a' [new [E [H1 [Hans [Hs _]]]]]].
  exists (Submission.score new). rewrite E. unfold AssignmentFacts.storedScore.
  rewrite H1. split; [reflexivity|]. now rewrite Hs, Hans, map_map.
Qed.

(** X5: answers are scored one by one: the score of two answer lists put
    together is the sum of their scores, whatever questions they answer.
    A question answered twice is counted twice. *)
Theorem submitAssignment_score_additive
        (a : Assignment.t) (studentId : ObjectId) (x y : list Answer.t) (now : Date) :
  GradingSpec.answerable (Assignment.questions a) (x ++ y) ->
  exists sx sy sxy,
    AssignmentFacts.storedScore (Assignment.submitAssignment a studentId x now) studentId
    = Some sx
    /\ AssignmentFacts.storedScore (Assignment.submitAssignment a studentId y now) studentId
       = Some sy
    /\ AssignmentFacts.storedScore
         (Assignment.submitAssignment a studentId (x ++ y) now) studentId
       = Some sxy
    /\ sxy == sx + sy.
Proof.
  intros Hok. pose proof (proj1 (answerable_app _ _ _) Hok) as [Hx Hy].
  destruct (storedScore_spec a studentId x now Hx) as [sx [Ex Qx]].
  destruct (storedScore_spec a studentId y now Hy) as [sy [Ey Qy]].
  destruct (storedScore_spec a studentId (x ++ y) now Hok) as [sxy [Exy Qxy]].
  exists sx, sy, sxy. repeat split; try assumption.
  rewrite Qxy, Qx, Qy, map_app. apply total_app.
Qed.

(** The 2-point question of the quiz answered twice scores 4 of 5 points. *)
Lemma submitAssignment_score_additive_witness :
  exists sxy,
    AssignmentFacts.storedScore
      (Assignment.submitAssignment GradingSpec.quiz GradingSpec.alice
         ([GradingSpec.answerTo "q1" "A"] ++ [GradingSpec.answerTo "q1" "a"])
         1795000000000%Z)
      GradingSpec.alice = Some sxy
    /\ sxy == 4.
Proof.
  destruct (submitAssignment_score_additive
              GradingSpec.quiz GradingSpec.alice [GradingSpec.answerTo "q1" "A"]
              [GradingSpec.answerTo "q1" "a"] 1795000000000%Z)
    as [sx [sy [sxy [Ex [Ey [Exy Q]]]]]].
  - intros ans q [<-|[<-|[]]] [= <-]; discriminate.
  - exists sxy. split; [exact Exy|].
    injection Ex as <-. injection Ey as <-. rewrite Q. reflexivity.
Defined.

Lemma awarded_bounds (qs : list Question.t) (a : Answer.t) :
  (forall q, In q qs -> 0 <= Question.points q) ->
  0 <= GradingSpec.awarded qs a <= AssignmentFacts.pointsOf qs (Answer.questionId a).
Proof.
  intros Hpos. unfold GradingSpec.awarded, AssignmentFacts.pointsOf, GradingSpec.matching.
  destruct (Assignment.questions_id qs (Answer.questionId a)) as [q|] eqn:F; [|lra].
  assert (0 <= Question.points q) by (apply Hpos; now apply find_some in F).
  destruct (GradingSpec.isCorrect qs a); lra.
Qed.

Lemma total_map_le {A} (f g : A -> Number) (l : list A) :
  (forall x, In x l -> f x <= g x) -> total (map f l) <= total (map g l).
Proof.
  induction l as [|x l IH]; intros H; simpl; [lra|].
  assert (f x <= g x) by (apply H; now left).
  assert (total (map f l) <= total (map g l)) by (apply IH; intros y Hy; apply H; now right).
  unfold total in *. lra.
Qed.

Lemma total_map_nonneg {A} (f : A -> Number) (l : list A) :
  (forall x, In x l -> 0 <= f x) -> 0 <= total (map f l).
Proof.
  induction l as [|x l IH]; intros H; simpl; [lra|].
  assert (0 <= f x) by (apply H; now left).
  assert (0 <= total (map f l)) by (apply IH; intros y Hy; apply H; now right).
  unfold total in *. lra.
Qed.

(** The points that distinct ids refer to are points of distinct
    questions. *)
Lemma pointsOf_total_le (qs : list Question.t) (ids : list ObjectId) :
  NoDup ids ->
  (forall q, In q qs -> 0 <= Question.points q) ->
  total (map (AssignmentFacts.pointsOf qs) ids) <= total (map Question.points qs).
Proof.
  revert ids. induction qs as [|q qs IH]; intros ids Hnd Hpos.
  - apply Qle_trans with (total (map (fun _ : ObjectId => 0) ids)).
    + apply total_map_le. intros; unfold AssignmentFacts.pointsOf; simpl; lra.
    + clear. induction ids as [|i ids IH]; unfold total in *;
        cbn [map fold_right] in *; lra.
  - assert (0 <= Question.points q) as Hq by (apply Hpos; now left).
    assert (forall q', In q' qs -> 0 <= Question.points q') as Hpos'
        by (intros q' Hq'; apply Hpos; now right).
    set (keep := fun id : ObjectId => negb (id_eqb (Question._id q) id)).
    assert (total (map (AssignmentFacts.pointsOf (q :: qs)) ids)
            <= Question.points q
               + total (map (AssignmentFacts.pointsOf qs) (filter keep ids))) as Hstep.
    { clear IH. induction Hnd as [|i ids Hni Hnd IHn]; simpl; [unfold total; simpl; lra|].
      unfold AssignmentFacts.pointsOf at 1, Assignment.questions_id. simpl find.
      unfold keep at 1. destruct (id_eqb (Question._id q) i) eqn:E; simpl negb; cbv iota.
      - apply id_eqb_eq in E. subst i.
        assert (filter keep ids = ids) as ->.
        { clear -Hni. induction ids as [|j ids IH]; simpl; [reflexivity|].
          unfold keep at 1. destruct (id_eqb (Question._id q) j) eqn:Ej.
          - apply id_eqb_eq in Ej. exfalso. apply Hni. now left.
          - simpl. f_equal. apply IH. intros H. apply Hni. now right. }
        assert (total (map (AssignmentFacts.pointsOf (q :: qs)) ids)
                == total (map (AssignmentFacts.pointsOf qs) ids)) as ->.
        { clear -Hni. induction ids as [|j ids IH]; simpl; [reflexivity|].
          unfold AssignmentFacts.pointsOf at 1, Assignment.questions_id. simpl find.
          destruct (id_eqb (Question._id q) j) eqn:Ej.
          - apply id_eqb_eq in Ej. exfalso. apply Hni. now left.
          - fold (Assignment.questions_id qs j). fold (AssignmentFacts.pointsOf qs j).
            rewrite IH; [reflexivity|]. intros H. apply Hni. now right. }
        simpl. unfold total. lra.
      - fold (Assignment.questions_id qs i). fold (AssignmentFacts.pointsOf qs i).
        simpl. unfold total in *. simpl. lra. }
    assert (total (map (AssignmentFacts.pointsOf qs) (filter keep ids))
            <= total (map Question.points qs)) as Hrec
        by (apply IH; [now apply NoDup_filter|exact Hpos']).
    simpl. unfold total in *. simpl. lra.
Qed.

Lemma Math_round_range (x : Number) : 0 <= x <= 100 -> 0 <= Math_round x <= 100.
Proof.
  intros [H0 H1]. split.
  - change 0 with (Math_round 0). now apply Math_round_le.
  - change 100 with (Math_round 100). now apply Math_round_le.
Qed.

Lemma percentageOf_range (score totalPoints : Number) :
  0 <= score <= totalPoints -> 0 <= Assignment.percentageOf score totalPoints <= 100.
Proof.
  intros [H0 H1]. unfold Assignment.percentageOf.
  destruct (gt totalPoints 0) eqn:G; [|lra].
  apply lt_iff in G. apply Math_round_range, fmul_100_range, fdiv_unit.
  - split; assumption.
  - exact G.
Qed.

(** X6: when no question is answered twice and no question has negative
    points, the stored score is between 0 and the sum of the questions'
    points; if [totalPoints] is that sum, the percentage is between 0 and
    100. *)
Theorem submitAssignment_score_bounded
        (a a' : Assignment.t) (studentId : ObjectId) (answers : list Answer.t) (now : Date)
        (new : Submission.t) :
  Assignment.submitAssignment a studentId answers now = Normal a' ->
  GradingSpec.submissionsOf studentId (Assignment.submissions a') = [new] ->
  NoDup (map Answer.questionId answers) ->
  (forall q, In q (Assignment.questions a) -> 0 <= Question.points q) ->
  0 <= Submission.score new <= total (map Question.points (Assignment.questions a))
  /\ (Assignment.totalPoints a == total (map Question.points (Assignment.questions a)) ->
      0 <= Submission.percentage new <= 100).
Proof.
  intros E Hnew Hnd Hpos.
  destruct (submitAssignment_normal _ _ _ _ _ E)
    as [_ [new' [_ [H1 [_ [_ [_ [_ [Hs [Hp _]]]]]]]]]].
  rewrite H1 in Hnew. injection Hnew as ->.
  set (qs := Assignment.questions a) in *.
  assert (0 <= Submission.score new <= total (map Question.points qs)) as Hb.
  { rewrite Hs. split.
    - apply total_map_nonneg. intros x _. now apply awarded_bounds.
    - apply Qle_trans
        with (total (map (fun x => AssignmentFacts.pointsOf qs (Answer.questionId x))
                         answers)).
      + apply total_map_le. intros x _. now apply awarded_bounds.
      + rewrite <- (map_map Answer.questionId (AssignmentFacts.pointsOf qs)).
        now apply pointsOf_total_le. }
  split; [exact Hb|]. intros Htp. rewrite Hp. apply percentageOf_range.
  rewrite Htp. exact Hb.
Qed.

(** Both questions of the quiz answered once, one of them right. *)
Lemma submitAssignment_score_bounded_witness :
  exists a' new,
    Assignment.submitAssignment GradingSpec.quiz GradingSpec.alice
      [GradingSpec.answerTo "q1" "A"; GradingSpec.answerTo "q2" "false"]
      1795000000000%Z = Normal a'
    /\ GradingSpec.submissionsOf GradingSpec.alice (Assignment.submissions a') = [new]
    /\ 0 <= Submission.percentage new <= 100.
Proof.
  eexists. eexists. split; [reflexivity|]. split; [reflexivity|].
  refine (proj2 (submitAssignment_score_bounded
                   GradingSpec.quiz _ GradingSpec.alice
                   [GradingSpec.answerTo "q1" "A"; GradingSpec.answerTo "q2" "false"]
                   1795000000000%Z _ eq_refl eq_refl _ _) _).
  - repeat constructor; simpl; intuition discriminate.
  - intros q [<-|[<-|[]]]; discriminate.
  - reflexivity.
Defined.
(** ** Creating an assignment *)

Lemma map_fst_combine_seq {A} (l : list A) (s : nat) :
  map fst (combine (seq s (List.length l)) l) = seq s (List.length l).
Proof.
  revert s. induction l as [|x l IH]; intros s; simpl; [reflexivity|]. now rewrite IH.
Qed.

Lemma processQuestions_In (newId : nat -> ObjectId)
      (questions : list AssignmentController.QuestionInput) (q : Question.t) :
  In q (AssignmentController.processQuestions newId questions) ->
  exists index input,
    In input questions /\ q = AssignmentController.processQuestion newId index input.
Proof.
  unfold AssignmentController.processQuestions. intros H.
  apply in_map_iff in H as [[i input] [<- Hin]].
  exists i, input. split; [|reflexivity]. now apply in_combine_r in Hin.
Qed.

Lemma number_or_nonzero (n : option Number) (d : Number) :
  ~ d == 0 -> ~ number_or n d == 0.
Proof.
  intros Hd. unfold number_or. destruct n as [x|]; [|exact Hd].
  destruct (Qeq_bool x 0) eqn:E; [exact Hd|]. now apply Qeq_bool_neq.
Qed.

(** X7: the document [createAssignment] saves: the questions are numbered 1,
    2, ... in the order sent, no question has 0 points (absent or 0
    becomes 1), [totalPoints] is the sum of the points, and there is no
    submission.  When every given number of points is at least 1, as the
    route demands, every question has at least 1 point and [totalPoints]
    is at least the number of questions. *)
Theorem createAssignment_document_points
        (newId : nat -> ObjectId) (title : string)
        (questions : list AssignmentController.QuestionInput) (dueDate : Date)
        (classId createdBy : ObjectId) (allowLateSubmission : option bool)
        (latePenalty : option Number) (now : Date) :
  let a := AssignmentController.createAssignment_document
             newId title questions dueDate classId createdBy allowLateSubmission
             latePenalty now in
  map Question.order (Assignment.questions a)
  = map (fun index => of_nat index + 1) (seq 0 (List.length questions))
  /\ (forall q, In q (Assignment.questions a) -> ~ Question.points q == 0)
  /\ Assignment.totalPoints a == total (map Question.points (Assignment.questions a))
  /\ Assignment.submissions a = []
  /\ ((forall input p,
          In input questions -> AssignmentController.points input = Some p -> 1 <= p) ->
      (forall q, In q (Assignment.questions a) -> 1 <= Question.points q)
      /\ of_nat (List.length questions) <= Assignment.totalPoints a).
Proof.
  cbv zeta.
  cbn [AssignmentController.createAssignment_document AssignmentSchema.preSave
       Assignment.questions Assignment.totalPoints Assignment.submissions].
  assert (forall q, In q (AssignmentController.processQuestions newId questions) ->
                    ~ Question.points q == 0) as Hnz.
  { intros q Hq. apply processQuestions_In in Hq as [i [input [_ ->]]].
    cbn. apply number_or_nonzero. discriminate. }
  split.
  { unfold AssignmentController.processQuestions. rewrite map_map.
    cbn [AssignmentController.processQuestion Question.order].
    rewrite <- (map_fst_combine_seq questions 0) at 2. now rewrite map_map. }
  split; [exact Hnz|]. split; [apply reduce_sum_map|]. split; [reflexivity|].
  intros Hval.
  assert (forall q, In q (AssignmentController.processQuestions newId questions) ->
                    1 <= Question.points q) as Hge.
  { intros q Hq. apply processQuestions_In in Hq as [i [input [Hin ->]]].
    cbn. unfold number_or.
    destruct (AssignmentController.points input) as [p|] eqn:Ep; [|lra].
    destruct (Qeq_bool p 0); [lra|]. now apply (Hval input). }
  split; [exact Hge|].
  rewrite reduce_sum_map.
  assert (List.length (AssignmentController.processQuestions newId questions)
          = List.length questions) as Hlen.
  { unfold AssignmentController.processQuestions.
    now rewrite length_map, length_combine, length_seq, Nat.min_id. }
  rewrite <- Hlen.
  clear - Hge.
  induction (AssignmentController.processQuestions newId questions) as [|q l IH].
  - cbn [List.length map]. change (of_nat 0) with 0. unfold total. cbn [fold_right]. lra.
  - assert (1 <= Question.points q) by (apply Hge; now left).
    assert (of_nat (List.length l) <= total (map Question.points l)) as IH'.
    { apply IH; intros; apply Hge; now right. }
    assert (of_nat (List.length (q :: l)) == of_nat (List.length l) + 1) as ->.
    { unfold of_nat. simpl List.length. rewrite Nat2Z.inj_succ, <- Z.add_1_r.
      now rewrite inject_Z_plus. }
    unfold total in *. cbn [map fold_right]. lra.
Qed.

(** Three questions sent with 2 points, without points and with 0 points. *)
Lemma createAssignment_document_points_witness :
  let a := AssignmentController.createAssignment_document
             AssignmentFacts.sampleId "Numbers"
             [AssignmentFacts.sampleInput "One?" (Some "1") (Some 2);
              AssignmentFacts.sampleInput "Two?" (Some "2") None;
              AssignmentFacts.sampleInput "Three?" None (Some 0)]
             1800000000000%Z GradingSpec.quiz.(Assignment.classId) GradingSpec.teacher
             None None 1795000000000%Z in
  map Question.order (Assignment.questions a) = [0 + 1; 1 + 1; 2 + 1]
  /\ map Question.points (Assignment.questions a) = [2; 1; 1]
  /\ Assignment.totalPoints a == 4.
Proof.
  cbv zeta.
  destruct (createAssignment_document_points
              AssignmentFacts.sampleId "Numbers"
              [AssignmentFacts.sampleInput "One?" (Some "1") (Some 2);
               AssignmentFacts.sampleInput "Two?" (Some "2") None;
               AssignmentFacts.sampleInput "Three?" None (Some 0)]
              1800000000000%Z GradingSpec.quiz.(Assignment.classId) GradingSpec.teacher
              None None 1795000000000%Z) as [Ho [_ [Ht _]]].
  split; [exact Ho|]. split; [reflexivity|]. rewrite Ht. reflexivity.
Defined.

(** ** The average score of an assignment *)


(** ** The similarity of two contents *)

Lemma of_nat_le (m n : nat) : (m <= n)%nat -> of_nat m <= of_nat n.
Proof. intros H. unfold of_nat. rewrite <- Zle_Qle. lia. Qed.

Lemma of_nat_eq (m n : nat) : of_nat m == of_nat n -> m = n.
Proof. unfold of_nat, Qeq. simpl. lia. Qed.

Lemma equalPositions_le_min (n1 n2 : string) :
  (WritingSpec.equalPositions n1 n2 <= Nat.min (String.length n1) (String.length n2))%nat.
Proof.
  unfold WritingSpec.equalPositions.
  eapply Nat.le_trans; [apply filter_length_le|]. now rewrite length_seq.
Qed.

Lemma charAt_eqb_sym (s t : string) (i : nat) : charAt_eqb s t i = charAt_eqb t s i.
Proof.
  unfold charAt_eqb. destruct (String.get i s), (String.get i t); try reflexivity.
  apply Ascii.eqb_sym.
Qed.

Lemma equalPositions_sym (n1 n2 : string) :
  WritingSpec.equalPositions n1 n2 = WritingSpec.equalPositions n2 n1.
Proof.
  unfold WritingSpec.equalPositions. rewrite (Nat.min_comm (String.length n2)).
  f_equal. apply filter_ext. intros i. apply charAt_eqb_sym.
Qed.

Lemma get_beyond (s : string) (i : nat) :
  (String.length s <= i)%nat -> String.get i s = None.
Proof.
  revert i. induction s as [|c s IH]; intros i H; simpl; [reflexivity|].
  destruct i as [|i]; simpl in H; [lia|]. apply IH. lia.
Qed.

Lemma get_within (s : string) (i : nat) :
  (i < String.length s)%nat -> exists c, String.get i s = Some c.
Proof.
  revert i. induction s as [|c s IH]; intros i H; simpl in *; [lia|].
  destruct i as [|i]; [now exists c|]. apply IH. lia.
Qed.

Lemma filter_length_all {A} (p : A -> bool) (l : list A) :
  List.length (filter p l) = List.length l -> forall x, In x l -> p x = true.
Proof.
  induction l as [|y l IH]; intros H x Hx; [destruct Hx|].
  simpl in H. pose proof (filter_length_le p l) as Hle.
  destruct (p y) eqn:E; simpl in H; [|lia].
  destruct Hx as [<-|Hx]; [exact E|]. apply IH; [lia|exact Hx].
Qed.

(** Two different strings agree on fewer positions than the longer one has. *)
Lemma equalPositions_lt_max (n1 n2 : string) :
  n1 <> n2 ->
  (WritingSpec.equalPositions n1 n2
   < Nat.max (String.length n1) (String.length n2))%nat.
Proof.
  intros Hne. pose proof (equalPositions_le_min n1 n2) as Hle.
  destruct (Nat.eq_dec (WritingSpec.equalPositions n1 n2)
                       (Nat.max (String.length n1) (String.length n2))) as [E|]; [|lia].
  exfalso. apply Hne.
  assert (String.length n1 = String.length n2) as Hlen by lia.
  apply String.get_correct. intros i.
  destruct (Nat.lt_ge_cases i (String.length n1)) as [Hi|Hi].
  - assert (charAt_eqb n1 n2 i = true) as Hc.
    { apply (filter_length_all (charAt_eqb n1 n2)
               (seq 0 (Nat.min (String.length n1) (String.length n2)))).
      - fold (WritingSpec.equalPositions n1 n2). rewrite length_seq. lia.
      - apply in_seq. lia. }
    unfold charAt_eqb in Hc.
    destruct (get_within n1 i Hi) as [c1 E1]. rewrite E1 in *.
    destruct (get_within n2 i ltac:(lia)) as [c2 E2]. rewrite E2 in *.
    apply Ascii.eqb_eq in Hc. now subst.
  - rewrite !get_beyond by lia. reflexivity.
Qed.

Lemma calculateContentSimilarity_range (content1 content2 : string) :
  0 <= Practice.calculateContentSimilarity content1 content2 <= 1.
Proof.
  unfold Practice.calculateContentSimilarity.
  destruct (negb (truthy content1) || negb (truthy content2)); [lra|].
  destruct (String.eqb _ _); [lra|].
  destruct (Nat.max _ _ =? 0)%nat eqn:M; [lra|].
  apply Nat.eqb_neq in M. rewrite positional_matches_count.
  pose proof (equalPositions_le_min (Practice.normalize content1)
                                    (Practice.normalize content2)) as Hle.
  set (m := WritingSpec.equalPositions _ _) in *.
  set (big := Nat.max _ _) in *.
  assert (0 < of_nat big) by (apply of_nat_pos; lia).
  assert (of_nat m <= of_nat big) by (apply of_nat_le; lia).
  pose proof (of_nat_nonneg m). split.
  - apply Qle_shift_div_l; [assumption|lra].
  - apply Qle_shift_div_r; [assumption|lra].
Qed.

(** X9: [calculateContentSimilarity] is a ratio between 0 and 1, it does not
    depend on the order of its arguments, and on two non-empty contents
    it is 1 exactly when they normalize to the same string. *)
Theorem calculateContentSimilarity_ratio (content1 content2 : string) :
  0 <= Practice.calculateContentSimilarity content1 content2 <= 1
  /\ Practice.calculateContentSimilarity content1 content2
     = Practice.calculateContentSimilarity content2 content1
  /\ (truthy content1 = true -> truthy content2 = true ->
      (Practice.calculateContentSimilarity content1 content2 == 1
       <-> Practice.normalize content1 = Practice.normalize content2)).
Proof.
  split; [|split].
  - apply calculateContentSimilarity_range.
  - unfold Practice.calculateContentSimilarity.
    rewrite (orb_comm (negb (truthy content2))).
    destruct (negb (truthy content1) || negb (truthy content2)); [reflexivity|].
    rewrite (String.eqb_sym (Practice.normalize content2)).
    destruct (String.eqb _ _); [reflexivity|].
    rewrite (Nat.max_comm (String.length (Practice.normalize content2))).
    destruct (Nat.max _ _ =? 0)%nat; [reflexivity|].
    rewrite !positional_matches_count. now rewrite equalPositions_sym.
  - intros H1 H2. rewrite (calculateContentSimilarity_spec _ _ H1 H2).
    unfold WritingSpec.similarity.
    destruct (String.eqb_spec (Practice.normalize content1) (Practice.normalize content2))
      as [E|Hne]; [split; [intros _; exact E|reflexivity]|].
    split; [|contradiction]. intros Q. exfalso.
    pose proof (equalPositions_lt_max _ _ Hne) as Hlt.
    set (m := WritingSpec.equalPositions _ _) in *.
    set (big := Nat.max _ _) in *.
    assert (0 < of_nat big) as Hpos by (apply of_nat_pos; lia).
    assert (of_nat m == of_nat big) as Hq.
    { rewrite <- (Qmult_1_l (of_nat big)), <- Q. field. lra. }
    apply of_nat_eq in Hq. lia.
Qed.

(** ** What [savePractice] stores as score *)

(** Of a maximum of 100, the score of a whole accuracy between 0 and 100
    is that accuracy: the rounding errors of the quotient by 100 and of
    the product with 100 stay far below a half. *)
Lemma score_of_accuracy (k : Z) :
  (0 <= k <= 100)%Z -> Math_round (fmul (fdiv (inject_Z k) 100) 100) = inject_Z k.
Proof.
  intros H.
  assert (forallb (fun n => (Qfloor (fmul (fdiv (inject_Z (Z.of_nat n)) 100) 100 + (1 # 2))
                             =? Z.of_nat n)%Z) (seq 0 101) = true) as A
      by (vm_compute; reflexivity).
  rewrite forallb_forall in A. specialize (A (Z.to_nat k)).
  rewrite Z2Nat.id in A by lia.
  unfold Math_round. f_equal. apply Z.eqb_eq, A, in_seq. lia.
Qed.

(** X10: the session [savePractice] stores: for a writing request with a
    target the accuracy is recomputed, lies between 0 and 100, and the
    score equals it; for every other request the accuracy is the one the
    client sent (0 when none) and the score is 0. *)
Theorem savePractice_score (classes : list Class.t) (studentId : ObjectId)
        (b : PracticeController.Body) (now : Date) (p : Practice.t) :
  PracticeController.savePractice true classes studentId b now
  = PracticeController.Status201 p ->
  (PracticeController.isTypingWithData b = false ->
   PracticeController.isWritingWithTarget b = true ->
   0 <= Practice.accuracy p <= 100 /\ Practice.score p = Practice.accuracy p)
  /\ (PracticeController.isTypingWithData b = true
      \/ PracticeController.isWritingWithTarget b = false ->
      Practice.accuracy p = number_or (PracticeController.accuracy b) 0
      /\ Practice.score p = 0).
Proof.
  unfold PracticeController.savePractice. cbn [negb].
  destruct (match PracticeController.classId b with Some _ => _ | None => _ end);
    [discriminate|].
  set (p0 := PracticeController.newPractice studentId b now).
  set (p1 := if PracticeController.isTypingWithData b then _ else _).
  assert (forall p2, (if PracticeController.requestAccuracyAtLeast80 b
                         || ge (Practice.attempts p1) 3
                      then Practice.set_completed p1 (PracticeController.timeSpent b)
                      else p1) = p2 ->
                     Practice.accuracy p2 = Practice.accuracy p1
                     /\ Practice.score p2 = Practice.score p1) as Hkeep.
  { intros p2 <-. destruct (_ || _); split; reflexivity. }
  intros [= E]. destruct (Hkeep p E) as [-> ->]. clear Hkeep E.
  split.
  - intros T W. unfold p1. rewrite T, W.
    unfold PracticeController.isWritingWithTarget in W.
    apply andb_prop in W as [Wt Ws].
    unfold Practice.evaluateWriting, p0.
    cbn [PracticeController.newPractice Practice.type Practice.targetContent
         Practice.content Practice.maxScore].
    destruct (PracticeController.type b); try discriminate.
    destruct (PracticeController.targetContent b) as [t|]; [|discriminate].
    rewrite Ws. cbn [Practice.set_accuracy_score Practice.accuracy Practice.score].
    set (sim := Practice.calculateContentSimilarity _ _).
    pose proof (calculateContentSimilarity_range (PracticeController.content b) t) as Hr.
    fold sim in Hr.
    assert (0 <= Math_round (fmul (double sim) 100) <= 100) as Ha.
    { apply Math_round_range, fmul_100_range.
      apply double_between; [reflexivity|exact double_1|exact Hr]. }
    split; [exact Ha|].
    unfold Math_round in Ha |- * at 2 3.
    set (k := Qfloor (fmul (double sim) 100 + (1 # 2))) in *.
    apply score_of_accuracy.
    change 0 with (inject_Z 0) in Ha. change 100 with (inject_Z 100) in Ha.
    rewrite <- !Zle_Qle in Ha. exact Ha.
  - intros H. unfold p1.
    destruct (PracticeController.isTypingWithData b) eqn:T.
    + unfold Practice.calculateTypingMetrics. destruct (negb _); split; reflexivity.
    + destruct H as [H|H]; [discriminate|]. rewrite H. split; reflexivity.
Qed.

(** A writing request whose content differs from the target in case and
    punctuation only. *)
Lemma savePractice_score_witness :
  exists p,
    PracticeController.savePractice true [] SavePracticeSpec.student
      (SavePracticeSpec.request Practice.writing "Hello, World" (Some "hello world")
                                (Some 10) None)
      1795000000000%Z = PracticeController.Status201 p
    /\ 0 <= Practice.accuracy p <= 100
    /\ Practice.score p = Practice.accuracy p.
Proof.
  eexists. split; [reflexivity|].
  refine (proj1 (savePractice_score [] SavePracticeSpec.student
                   (SavePracticeSpec.request Practice.writing "Hello, World"
                                             (Some "hello world") (Some 10) None)
                   1795000000000%Z _ eq_refl) eq_refl eq_refl).
Defined.

(** ** Typing metrics and the rating *)

(** X11: [calculateTypingMetrics] leaves a session that is not a typing
    session as it is; on a typing session it changes the three metrics
    only: correct and wrong keystrokes add up to all keystrokes, both
    speeds are 0 when no time was spent, and the words per minute are the
    rounded fifth of the characters per minute, the fifth computed in
    double precision.  Running it twice is running it once. *)
Theorem calculateTypingMetrics_metrics (this : Practice.t) :
  let this' := Practice.calculateTypingMetrics this in
  (Practice.type this <> Practice.typing -> this' = this)
  /\ Practice.accuracy this' = Practice.accuracy this
  /\ Practice.score this' = Practice.score this
  /\ Practice.isCompleted this' = Practice.isCompleted this
  /\ Practice.keystrokeData (Practice.typingData this')
     = Practice.keystrokeData (Practice.typingData this)
  /\ Practice.calculateTypingMetrics this' = this'
  /\ (Practice.type this = Practice.typing ->
      exists cpm wpm errors,
        Practice.charactersPerMinute (Practice.typingData this') = Some cpm
        /\ Practice.wordsPerMinute (Practice.typingData this') = Some wpm
        /\ Practice.errorCount (Practice.typingData this') = Some errors
        /\ errors
           + of_nat (List.length
                       (filter Practice.isCorrect
                               (Practice.keystrokeData (Practice.typingData this))))
           == of_nat (List.length (Practice.keystrokeData (Practice.typingData this)))
        /\ 0 <= errors
        /\ (Practice.timeSpent this <= 0 -> cpm = 0 /\ wpm = 0)
        /\ wpm = Math_round (fdiv cpm 5)).
Proof.
  cbv zeta. unfold Practice.calculateTypingMetrics.
  destruct (Practice.type this) eqn:T; cbn [Practice.type_eqb negb].
  1,3: repeat split; try reflexivity; try discriminate;
       cbn [Practice.set_typingData Practice.type]; rewrite T; reflexivity.
  cbn [Practice.set_typingData Practice.type Practice.type_eqb negb Practice.accuracy
       Practice.score Practice.isCompleted Practice.typingData Practice.keystrokeData
       Practice.timeSpent Practice.charactersPerMinute Practice.wordsPerMinute
       Practice.errorCount].
  split; [congruence|]. do 4 (split; [reflexivity|]).
  split; [rewrite T; reflexivity|].
  intros _. eexists; eexists; eexists.
  split; [reflexivity|]. split; [reflexivity|]. split; [reflexivity|].
  set (ks := Practice.keystrokeData (Practice.typingData this)).
  split; [ring|]. split.
  { pose proof (of_nat_le _ _ (filter_length_le Practice.isCorrect ks)). lra. }
  split.
  - intros Hz. assert (gt (fdiv (Practice.timeSpent this) 60) 0 = false) as ->;
      [|now split].
    unfold gt. destruct (lt 0 (fdiv (Practice.timeSpent this) 60)) eqn:L; [|reflexivity].
    apply lt_iff in L. exfalso.
    assert (Practice.timeSpent this / 60 <= 0) as Hq
      by (apply Qle_shift_div_r; [reflexivity|lra]).
    apply double_le in Hq. rewrite double_0 in Hq. unfold fdiv in L. lra.
  - destruct (gt (fdiv (Practice.timeSpent this) 60) 0); reflexivity.
Qed.

(** 23 correct keystrokes in 184 seconds: the minutes are the double
    nearest 184/60, the quotient 7.499999999999999 and the characters per
    minute 7, where the exact quotient 7.5 would round to 8; the words per
    minute are 1. *)
Example calculateTypingMetrics_23_in_184 :
  let td := Practice.typingData
              (Practice.calculateTypingMetrics
                 (PracticeFacts.typedIn 184 (repeat true 23))) in
  Practice.charactersPerMinute td = Some 7
  /\ Practice.wordsPerMinute td = Some 1
  /\ Math_round (23 / (184 / 60)) = 8.
Proof. repeat split; vm_compute; reflexivity. Qed.

(** X12: the rating does not go down when the accuracy goes up. *)
Theorem performanceRating_monotone (p q : Practice.t) :
  Practice.accuracy p <= Practice.accuracy q ->
  (PracticeFacts.rank (PracticeSchema.performanceRating p)
   <= PracticeFacts.rank (PracticeSchema.performanceRating q))%nat.
Proof.
  intros H. unfold PracticeSchema.performanceRating, ge.
  repeat match goal with
         | |- context [lt ?x ?y] =>
             let E := fresh "E" in
             destruct (lt x y) eqn:E;
             [apply lt_iff in E
             |assert (~ x < y) by (rewrite <- lt_iff; congruence); clear E]
         end;
    cbn [negb PracticeFacts.rank]; try lia; exfalso; lra.
Qed.

(** A session of accuracy 70 against one of accuracy 95. *)
Lemma performanceRating_monotone_witness :
  (PracticeFacts.rank (PracticeSchema.performanceRating (PracticeFacts.typed []))
   <= PracticeFacts.rank
        (PracticeSchema.performanceRating (EngagementSpec.sessionOf "ana")))%nat.
Proof.
  apply (performanceRating_monotone (PracticeFacts.typed [])
                                    (EngagementSpec.sessionOf "ana")).
  discriminate.
Defined.
(** ** Statistics by practice type *)

Lemma type_eqb_eq (t u : Practice.PracticeType) : Practice.type_eqb t u = true <-> t = u.
Proof. destruct t, u; simpl; split; congruence. Qed.

Lemma distinctTypes_In (l : list Practice.PracticeType) (t : Practice.PracticeType) :
  In t (PracticeSchema.distinctTypes l) <-> In t l.
Proof.
  induction l as [|u l IH]; simpl; [tauto|].
  rewrite filter_In, IH, negb_true_iff.
  destruct (Practice.type_eqb t u) eqn:E.
  - apply type_eqb_eq in E. subst. tauto.
  - split; [tauto|]. intros [->|H]; [|tauto].
    assert (Practice.type_eqb t t = true) by now apply type_eqb_eq. congruence.
Qed.

Lemma distinctTypes_NoDup (l : list Practice.PracticeType) :
  NoDup (PracticeSchema.distinctTypes l).
Proof.
  induction l as [|u l IH]; simpl; constructor.
  - rewrite filter_In. intros [_ H].
    assert (Practice.type_eqb u u = true) by now apply type_eqb_eq.
    rewrite H0 in H. discriminate.
  - now apply NoDup_filter.
Qed.

Lemma filter_cons_length {A} (f : A -> bool) (x : A) (l : list A) :
  List.length (filter f (x :: l))
  = ((if f x then 1 else 0) + List.length (filter f l))%nat.
Proof. simpl. now destruct (f x). Qed.

(** Counting the elements of a list key by key, over distinct keys that
    cover the list, counts every element once. *)
Lemma count_by_key {A K} (eqb : K -> K -> bool) (key : A -> K) (keys : list K)
      (l : list A) :
  (forall a b, eqb a b = true <-> a = b) ->
  NoDup keys ->
  (forall x, In x l -> In (key x) keys) ->
  fold_right (fun k n => (List.length (filter (fun x => eqb (key x) k) l) + n)%nat)
             0%nat keys
  = List.length l.
Proof.
  intros Heqb Hnd. induction l as [|x l IH]; intros Hcov.
  - simpl. clear. induction keys as [|k keys IH]; simpl; [reflexivity|exact IH].
  - assert (forall ks, ~ In (key x) ks ->
              fold_right
                (fun k n => (List.length (filter (fun y => eqb (key y) k) (x :: l)) + n)%nat)
                0%nat ks
              = fold_right
                  (fun k n => (List.length (filter (fun y => eqb (key y) k) l) + n)%nat)
                  0%nat ks) as Hout.
    { induction ks as [|k ks IHk]; intros Hk; cbn [fold_right]; [reflexivity|].
      rewrite (filter_cons_length (fun y => eqb (key y) k)).
      destruct (eqb (key x) k) eqn:E.
      - apply Heqb in E. subst. exfalso. apply Hk. now left.
      - rewrite IHk; [reflexivity|]. intros H. apply Hk. now right. }
    assert (fold_right
              (fun k n => (List.length (filter (fun y => eqb (key y) k) (x :: l)) + n)%nat)
              0%nat keys
            = S (fold_right
                   (fun k n => (List.length (filter (fun y => eqb (key y) k) l) + n)%nat)
                   0%nat keys)) as ->.
    { assert (In (key x) keys) as Hin by (apply Hcov; now left).
      clear IH Hcov. induction Hnd as [|k keys Hk Hnd IHn]; [destruct Hin|].
      cbn [fold_right]. rewrite (filter_cons_length (fun y => eqb (key y) k)).
      destruct (eqb (key x) k) eqn:E.
      - apply Heqb in E. subst k. rewrite (Hout keys Hk). reflexivity.
      - destruct Hin as [->|Hin].
        + assert (eqb (key x) (key x) = true) by now apply Heqb. congruence.
        + rewrite (IHn Hin). lia. }
    simpl. f_equal. apply IH. intros y Hy. apply Hcov. now right.
Qed.

Lemma total_of_nat {K} (f : K -> nat) (keys : list K) :
  total (map (fun k => of_nat (f k)) keys)
  == of_nat (fold_right (fun k n => (f k + n)%nat) 0%nat keys).
Proof.
  induction keys as [|k keys IH]; simpl; [reflexivity|].
  unfold total in *. simpl. rewrite IH. unfold of_nat.
  rewrite Nat2Z.inj_add, inject_Z_plus. reflexivity.
Qed.

(** X13: [getStudentStats] has one row for each type the student practised in
    the range: no type twice, no row without a session, the rows' counts
    add up to the number of matching sessions, and in each row the
    completed sessions are at most the sessions. *)
Theorem getStudentStats_rows (practices : list Practice.t) (studentId : ObjectId)
        (dateRange : PracticeSchema.DateRange) :
  let matched := filter (PracticeSchema.matchQuery studentId dateRange) practices in
  let rows := PracticeSchema.getStudentStats practices studentId dateRange in
  NoDup (map ReportController.PracticeStat._id rows)
  /\ (List.length rows <= 3)%nat
  /\ (forall t, In t (map ReportController.PracticeStat._id rows)
                <-> exists p, In p matched /\ Practice.type p = t)
  /\ total (map ReportController.PracticeStat.totalPractices rows)
     == of_nat (List.length matched)
  /\ (forall row, In row rows ->
        1 <= ReportController.PracticeStat.totalPractices row
        /\ 0 <= ReportController.PracticeStat.completedPractices row
           <= ReportController.PracticeStat.totalPractices row)
  /\ (matched = [] -> rows = []).
Proof.
  cbv zeta. unfold PracticeSchema.getStudentStats.
  set (matched := filter (PracticeSchema.matchQuery studentId dateRange) practices).
  set (keys := PracticeSchema.distinctTypes (map Practice.type matched)).
  assert (NoDup keys) as Hnd by apply distinctTypes_NoDup.
  rewrite !map_map. cbn [ReportController.PracticeStat._id
                         ReportController.PracticeStat.totalPractices].
  rewrite map_id.
  assert (forall t, In t keys <-> exists p, In p matched /\ Practice.type p = t) as Hkeys.
  { intros t. unfold keys. rewrite distinctTypes_In, in_map_iff.
    split; intros [p [H1 H2]]; exists p; tauto. }
  split; [exact Hnd|]. split.
  { rewrite length_map.
    assert (incl keys [Practice.writing; Practice.typing; Practice.drawing]) as Hincl
        by (intros []; simpl; tauto).
    apply (NoDup_incl_length Hnd Hincl). }
  split; [exact Hkeys|]. split.
  { rewrite (total_of_nat (fun t => List.length (PracticeSchema.ofType t matched)) keys).
    unfold PracticeSchema.ofType.
    rewrite (count_by_key Practice.type_eqb Practice.type keys matched type_eqb_eq Hnd);
      [reflexivity|].
    intros x Hx. apply Hkeys. now exists x. }
  split.
  { intros row Hrow. apply in_map_iff in Hrow as [t [<- Ht]].
    cbn [ReportController.PracticeStat.totalPractices
         ReportController.PracticeStat.completedPractices].
    apply Hkeys in Ht as [p [Hp Hty]].
    assert (In p (PracticeSchema.ofType t matched)) as Hin.
    { apply filter_In. split; [exact Hp|]. now apply type_eqb_eq. }
    split.
    - change 1 with (of_nat 1). apply of_nat_le.
      destruct (PracticeSchema.ofType t matched); [destruct Hin|simpl; lia].
    - rewrite reduce_sum_map.
      pose proof (total_bounds (fun p => if Practice.isCompleted p then 1 else 0) 0 1
                    (PracticeSchema.ofType t matched)) as Hb.
      destruct Hb as [H0 H1].
      { intros x _. destruct (Practice.isCompleted x); lra. }
      lra. }
  intros E. subst keys. now rewrite E.
Qed.

(** ** Soft delete *)

Lemma filter_sameForStats (f : Practice.t -> bool) (l l' : list Practice.t) :
  (forall p q, PracticeFacts.sameForStats p q -> f p = f q) ->
  Forall2 PracticeFacts.sameForStats l l' ->
  Forall2 PracticeFacts.sameForStats (filter f l) (filter f l').
Proof.
  intros Hf H. induction H as [|p q l l' Hpq H IH]; simpl; [constructor|].
  rewrite (Hf p q Hpq). destruct (f q); [now constructor|exact IH].
Qed.

Lemma map_sameForStats {B} (f : Practice.t -> B) (l l' : list Practice.t) :
  (forall p q, PracticeFacts.sameForStats p q -> f p = f q) ->
  Forall2 PracticeFacts.sameForStats l l' -> map f l = map f l'.
Proof.
  intros Hf H. induction H as [|p q l l' Hpq H IH]; simpl; [reflexivity|].
  now rewrite (Hf p q Hpq), IH.
Qed.

Lemma reduce_sum_via_map {A} (f : A -> Number) (l : list A) :
  reduce_sum f l = fold_left Qplus (map f l) 0.
Proof.
  unfold reduce_sum. generalize 0. induction l as [|x l IH]; intros s; simpl;
    [reflexivity|apply IH].
Qed.

(** [getStudentStats] reads a session through seven fields only. *)
Lemma getStudentStats_sameForStats (l l' : list Practice.t) (studentId : ObjectId)
      (dateRange : PracticeSchema.DateRange) :
  Forall2 PracticeFacts.sameForStats l l' ->
  PracticeSchema.getStudentStats l studentId dateRange
  = PracticeSchema.getStudentStats l' studentId dateRange.
Proof.
  intros H. unfold PracticeSchema.getStudentStats.
  assert (Forall2 PracticeFacts.sameForStats
            (filter (PracticeSchema.matchQuery studentId dateRange) l)
            (filter (PracticeSchema.matchQuery studentId dateRange) l')) as Hm.
  { apply filter_sameForStats; [|exact H].
    intros p q [H1 [_ [H3 _]]]. unfold PracticeSchema.matchQuery. now rewrite H1, H3. }
  rewrite (map_sameForStats Practice.type _ _ (fun p q Hpq => proj1 (proj2 Hpq)) Hm).
  apply map_ext. intros t.
  assert (Forall2 PracticeFacts.sameForStats
            (PracticeSchema.ofType t
               (filter (PracticeSchema.matchQuery studentId dateRange) l))
            (PracticeSchema.ofType t
               (filter (PracticeSchema.matchQuery studentId dateRange) l'))) as Ht.
  { apply filter_sameForStats; [|exact Hm]. intros p q [_ [H2 _]]. now rewrite H2. }
  unfold ReportController.avg. rewrite !reduce_sum_via_map.
  rewrite (Forall2_length Ht).
  rewrite (map_sameForStats Practice.accuracy _ _
             (fun p q Hpq => proj1 (proj2 (proj2 (proj2 Hpq)))) Ht).
  rewrite (map_sameForStats Practice.score _ _
             (fun p q Hpq => proj1 (proj2 (proj2 (proj2 (proj2 Hpq))))) Ht).
  rewrite (map_sameForStats Practice.timeSpent _ _
             (fun p q Hpq => proj1 (proj2 (proj2 (proj2 (proj2 (proj2 Hpq)))))) Ht).
  rewrite (map_sameForStats (fun p => if Practice.isCompleted p then 1 else 0) _ _
             (fun p q Hpq =>
                f_equal (fun b : bool => if b then 1 else 0)
                        (proj2 (proj2 (proj2 (proj2 (proj2 (proj2 Hpq)))))))
             Ht).
  reflexivity.
Qed.

Lemma sameForStats_refl (l : list Practice.t) : Forall2 PracticeFacts.sameForStats l l.
Proof. induction l; constructor; [repeat split|assumption]. Qed.

(** X14: a successful [deletePractice] marks the session of that id inactive
    and changes nothing else.  The session then no longer passes the
    [$match] of the class engagement, but the rows of [getStudentStats],
    which do not test [isActive], are what they were before. *)
Theorem deletePractice_soft
        (collection collection' : PracticeSchema.Collection)
        (practiceId studentId : ObjectId) :
  PracticeSchema.deletePractice collection practiceId studentId
  = (PracticeSchema.Status200, collection') ->
  exists before practice after,
    collection = (before ++ (practiceId, practice) :: after)%list
    /\ collection'
       = (before ++ (practiceId, PracticeSchema.deactivate practice) :: after)%list
    /\ Practice.studentId practice = studentId
    /\ (forall s dateRange,
           PracticeSchema.getStudentStats (PracticeSchema.documents collection') s dateRange
           = PracticeSchema.getStudentStats (PracticeSchema.documents collection) s dateRange)
    /\ (forall classId startDate now,
           ReportController.matchStage classId startDate now
             (PracticeSchema.documents collection')
           = ReportController.matchStage classId startDate now
               (PracticeSchema.documents (before ++ after)%list)).
Proof.
  unfold PracticeSchema.deletePractice.
  set (byId := fun e : ObjectId * Practice.t => id_eqb (fst e) practiceId).
  destruct (find byId collection) as [[pid practice]|] eqn:F; [|discriminate].
  destruct (negb (id_eqb (Practice.studentId practice) studentId)) eqn:O; [discriminate|].
  intros [= <-].
  destruct (modify_first_split byId
              (fun e => (fst e, PracticeSchema.deactivate (snd e))) _ _ F)
    as [before [after [Hl [Hm _]]]].
  assert (pid = practiceId) as ->.
  { apply find_some in F as [_ F]. now apply id_eqb_eq in F. }
  exists before, practice, after. cbn [fst snd] in Hm.
  split; [exact Hl|]. split; [exact Hm|]. split.
  { apply negb_false_iff in O. now apply id_eqb_eq. }
  rewrite Hm, Hl. unfold PracticeSchema.documents. rewrite !map_app. cbn [map snd].
  split.
  - intros s dateRange. apply getStudentStats_sameForStats.
    apply Forall2_app; [apply sameForStats_refl|].
    constructor; [repeat split|apply sameForStats_refl].
  - intros classId startDate now. unfold ReportController.matchStage.
    rewrite !filter_app. cbn [filter PracticeSchema.deactivate Practice.isActive].
    now rewrite andb_false_r.
Qed.

(** The typing session of the sample collection, deleted by its owner. *)
Lemma deletePractice_soft_witness :
  exists collection',
    PracticeSchema.deletePractice PracticeFacts.collection "p2" "ana"
    = (PracticeSchema.Status200, collection')
    /\ PracticeSchema.getStudentStats (PracticeSchema.documents collection') "ana"
         PracticeFacts.anyTime
       = PracticeSchema.getStudentStats
           (PracticeSchema.documents PracticeFacts.collection) "ana" PracticeFacts.anyTime
    /\ List.length
         (ReportController.matchStage EngagementSpec.class1 1791000000000%Z
            1793615400000%Z (PracticeSchema.documents collection'))
       = 2%nat.
Proof.
  eexists. split; [reflexivity|].
  destruct (deletePractice_soft PracticeFacts.collection _ "p2" "ana" eq_refl)
    as [before [practice [after [_ [_ [_ [Hs _]]]]]]].
  split; [apply Hs|reflexivity].
Defined.

(** ** Uploads *)

Lemma prefix_head (a b : ascii) (s t : string) :
  a <> b -> String.prefix (String a s) (String b t) = false.
Proof. intros H. simpl. destruct (ascii_dec a b); [contradiction|reflexivity]. Qed.

Lemma prefix_video (mimetype : string) :
  String.prefix "video/" mimetype = true ->
  String.prefix "image/" mimetype = false /\ String.prefix "audio/" mimetype = false.
Proof.
  destruct mimetype as [|c m]; [discriminate|].
  intros H. destruct (ascii_dec "v" c) as [<-|Hne].
  - split; apply prefix_head; discriminate.
  - rewrite (prefix_head "v" c "ideo/" m Hne) in H. discriminate.
Qed.

(** X15: no upload is recorded as a video: [uploadMedia] types a file as image,
    audio or document, a file of a [video/...] type goes to
    [uploads/videos/] and is recorded as a document, and a file that
    passes [fileFilter] is never recorded as audio.  The destination is
    always one of the directories that [ensureUploadDirs] creates. *)
Theorem uploadMedia_type_never_video (mimetype : string) :
  MediaController.uploadMedia_type mimetype <> "video"
  /\ In (MediaController.uploadMedia_type mimetype) ["image"; "audio"; "document"]
  /\ (String.prefix "video/" mimetype = true ->
      Upload.destination mimetype = "uploads/videos/"
      /\ MediaController.uploadMedia_type mimetype = "document")
  /\ (Upload.fileFilter mimetype = true ->
      In (MediaController.uploadMedia_type mimetype) ["image"; "document"])
  /\ In (Upload.destination mimetype) (map (fun d => (d ++ "/")%string) Upload.dirs).
Proof.
  split; [|split; [|split; [|split]]].
  - unfold MediaController.uploadMedia_type.
    destruct (String.prefix "image/" mimetype); [discriminate|].
    destruct (String.prefix "audio/" mimetype); discriminate.
  - unfold MediaController.uploadMedia_type.
    destruct (String.prefix "image/" mimetype); [simpl; tauto|].
    destruct (String.prefix "audio/" mimetype); simpl; tauto.
  - intros H. destruct (prefix_video _ H) as [Hi Ha].
    unfold Upload.destination, MediaController.uploadMedia_type.
    now rewrite H, Hi, Ha.
  - intros H. unfold Upload.fileFilter in H. apply orb_prop in H as [H|H].
    + apply existsb_exists in H as [entry [Hin Heq]]. apply String.eqb_eq in Heq.
      subst mimetype. simpl in Hin.
      repeat (destruct Hin as [<-|Hin]; [simpl; tauto|]). destruct Hin.
    + apply existsb_exists in H as [k [Hin Heq]]. apply String.eqb_eq in Heq.
      subst mimetype. simpl in Hin.
      repeat (destruct Hin as [<-|Hin]; [simpl; tauto|]). destruct Hin.
  - unfold Upload.destination.
    destruct (String.prefix "video/" mimetype); [simpl; tauto|].
    destruct (String.prefix "image/" mimetype); simpl; tauto.
Qed.

(** An MP4 video. *)
Lemma uploadMedia_type_never_video_witness :
  Upload.fileFilter "video/mp4" = true
  /\ Upload.destination "video/mp4" = "uploads/videos/"
  /\ MediaController.uploadMedia_type "video/mp4" = "document".
Proof.
  split; [reflexivity|].
  exact (proj1 (proj2 (proj2 (uploadMedia_type_never_video "video/mp4"))) eq_refl).
Defined.
(** ** Viewers and the average watch percentage *)

Lemma distinct_of_NoDup (ids : list ObjectId) :
  NoDup ids -> ReportController.distinct ids = ids.
Proof.
  induction 1 as [|i ids Hi Hnd IH]; simpl; [reflexivity|].
  rewrite IH. f_equal. clear -Hi. induction ids as [|j ids IH]; simpl; [reflexivity|].
  destruct (id_eqb j i) eqn:E.
  - apply id_eqb_eq in E. subst. exfalso. apply Hi. now left.
  - simpl. f_equal. apply IH. intros H. apply Hi. now right.
Qed.

Lemma distinct_length_le (ids : list ObjectId) :
  (List.length (ReportController.distinct ids) <= List.length ids)%nat.
Proof.
  induction ids as [|i ids IH]; simpl; [lia|].
  pose proof (filter_length_le (fun j => negb (id_eqb j i)) (ReportController.distinct ids)).
  lia.
Qed.

(** The number of distinct ids depends on the set of ids only. *)
Lemma distinct_length_same (l l' : list ObjectId) :
  (forall i, In i l <-> In i l') ->
  List.length (ReportController.distinct l) = List.length (ReportController.distinct l').
Proof.
  intros H. apply Permutation_length.
  apply NoDup_Permutation; try apply distinct_NoDup.
  intros i. rewrite !distinct_In. apply H.
Qed.

Lemma atMostOne_NoDup (vs : list View.t) :
  ViewSpec.atMostOnePerStudent vs <-> NoDup (map View.studentId vs).
Proof.
  unfold ViewSpec.atMostOnePerStudent, ViewSpec.viewsOf. split.
  - induction vs as [|v vs IH]; intros H; simpl; constructor.
    + intros Hin. apply in_map_iff in Hin as [w [Hw Hin]].
      specialize (H (View.studentId v)). simpl in H. rewrite id_eqb_refl in H.
      simpl in H.
      assert (In w (filter (fun x => id_eqb (View.studentId x) (View.studentId v)) vs)) as Hf.
      { apply filter_In. split; [exact Hin|]. now apply id_eqb_eq. }
      destruct (filter _ vs); [destruct Hf|simpl in H; lia].
    + apply IH. intros s. specialize (H s). simpl in H.
      destruct (id_eqb (View.studentId v) s); simpl in H; lia.
  - induction vs as [|v vs IH]; intros H s; simpl; [lia|].
    inversion H as [|i l Hi Hnd]; subst.
    destruct (id_eqb (View.studentId v) s) eqn:E; [|now apply IH].
    apply id_eqb_eq in E. subst s. simpl.
    assert (filter (fun x => id_eqb (View.studentId x) (View.studentId v)) vs = []) as ->.
    { clear -Hi. induction vs as [|w vs IH]; simpl; [reflexivity|].
      destruct (id_eqb (View.studentId w) (View.studentId v)) eqn:E.
      - apply id_eqb_eq in E. exfalso. apply Hi. simpl. now left.
      - apply IH. intros H. apply Hi. now right. }
    simpl. lia.
Qed.

Lemma recordOf_None_iff (studentId : ObjectId) (vs : list View.t) :
  ViewSpec.recordOf studentId vs = None <-> ~ In studentId (map View.studentId vs).
Proof.
  unfold ViewSpec.recordOf. induction vs as [|v vs IH]; simpl; [tauto|].
  destruct (id_eqb (View.studentId v) studentId) eqn:E.
  - apply id_eqb_eq in E. split; [discriminate|]. intros H. exfalso. apply H. now left.
  - apply id_eqb_neq in E. rewrite IH. tauto.
Qed.

(** X16: there are never more unique viewers than views, and as many when no
    student has two records.  A first [addView] of a student adds one to
    both numbers; a later one changes neither. *)
Theorem addView_counts (m : Media.t) (studentId : ObjectId) (percentage : option Number)
        (now : Date) :
  let m' := Media.addView m studentId percentage now in
  (MediaSchema.uniqueViewers m <= MediaSchema.viewCount m)%nat
  /\ (ViewSpec.atMostOnePerStudent (Media.views m) ->
      MediaSchema.uniqueViewers m = MediaSchema.viewCount m)
  /\ (ViewSpec.recordOf studentId (Media.views m) = None ->
      MediaSchema.viewCount m' = S (MediaSchema.viewCount m)
      /\ MediaSchema.uniqueViewers m' = S (MediaSchema.uniqueViewers m))
  /\ (ViewSpec.recordOf studentId (Media.views m) <> None ->
      MediaSchema.viewCount m' = MediaSchema.viewCount m
      /\ MediaSchema.uniqueViewers m' = MediaSchema.uniqueViewers m).
Proof.
  cbv zeta. unfold MediaSchema.uniqueViewers, MediaSchema.viewCount.
  pose proof (addView_cases m studentId percentage now) as H. cbv zeta in H.
  split; [|split; [|split]].
  - rewrite <- (length_map View.studentId (Media.views m)). apply distinct_length_le.
  - intros Hinv. apply atMostOne_NoDup in Hinv.
    now rewrite (distinct_of_NoDup _ Hinv), length_map.
  - intros Hnone. rewrite Hnone in H. rewrite H, length_app, map_app. simpl.
    split; [lia|].
    apply recordOf_None_iff in Hnone.
    transitivity (List.length (ReportController.distinct
                                 (studentId :: map View.studentId (Media.views m)))).
    + apply distinct_length_same. intros i. rewrite in_app_iff. simpl. tauto.
    + simpl. f_equal. f_equal.
      clear -Hnone. rewrite <- distinct_In in Hnone.
      induction (ReportController.distinct (map View.studentId (Media.views m)))
        as [|j l IH]; simpl; [reflexivity|].
      destruct (id_eqb j studentId) eqn:E.
      * apply id_eqb_eq in E. exfalso. apply Hnone. now left.
      * simpl. f_equal. apply IH. intros Hin. apply Hnone. now right.
  - intros Hsome. destruct (ViewSpec.recordOf studentId (Media.views m)) as [old|];
      [|congruence].
    destruct H as [before [after [Hl [Hv _]]]].
    rewrite Hv, Hl. split.
    + now rewrite !length_app.
    + now rewrite !map_app.
Qed.

(** A first view of the sample media by a third student. *)
Lemma addView_counts_witness :
  MediaSchema.viewCount (Media.addView MediaFacts.watched "cho" (Some 10) 1795000060000%Z)
  = 3%nat
  /\ MediaSchema.uniqueViewers
       (Media.addView MediaFacts.watched "cho" (Some 10) 1795000060000%Z)
     = 3%nat.
Proof.
  exact (proj1 (proj2 (proj2 (addView_counts MediaFacts.watched "cho" (Some 10)
                                             1795000060000%Z))) eq_refl).
Defined.





Lemma Math_max_idem (x y : Number) : Math_max (Math_max x y) y = Math_max x y.
Proof.
  unfold Math_max, Qmax, GenericMinMax.gmax.
  destruct (x ?= y) eqn:E.
  - now rewrite E.
  - now destruct (y ?= y).
  - now rewrite E.
Qed.

(** X18: reporting the same view twice is reporting it once; and two reports
    by one student leave the larger percentage on record whichever comes
    first. *)
Theorem addView_idempotent_and_order (m : Media.t) (studentId : ObjectId)
        (p1 p2 : Number) (t1 t2 : Date) :
  Media.addView (Media.addView m studentId (Some p1) t1) studentId (Some p1) t1
  = Media.addView m studentId (Some p1) t1
  /\ exists a b,
      MediaFacts.storedPercentage
        (Media.addView (Media.addView m studentId (Some p1) t1) studentId (Some p2) t2)
        studentId = Some a
      /\ MediaFacts.storedPercentage
           (Media.addView (Media.addView m studentId (Some p2) t1) studentId (Some p1) t2)
           studentId = Some b
      /\ a == b /\ p1 <= a /\ p2 <= a.
Proof.
  assert (forall p t,
             exists before old after,
               Media.views (Media.addView m studentId (Some p) t)
               = (before ++ old :: after)%list
               /\ ViewSpec.recordOf studentId (Media.views (Media.addView m studentId (Some p) t))
                  = Some old
               /\ forallb (fun v => negb (id_eqb (View.studentId v) studentId)) before = true
               /\ View.studentId old = studentId
               /\ View.date old = t
               /\ ((ViewSpec.recordOf studentId (Media.views m) = None
                    /\ View.percentage old = p)
                   \/ exists was, ViewSpec.recordOf studentId (Media.views m) = Some was
                                  /\ View.percentage old = Math_max (View.percentage was) p))
    as Hfirst.
  { intros p t. pose proof (addView_cases m studentId (Some p) t) as H. cbv zeta in H.
    destruct (ViewSpec.recordOf studentId (Media.views m)) as [was|] eqn:R.
    - destruct H as [before [after [Hl [Hv [Hb Hid]]]]].
      eexists before, _, after. split; [exact Hv|]. split.
      { unfold ViewSpec.recordOf. rewrite Hv. apply find_after_none; [exact Hb|].
        cbn. rewrite Hid. apply id_eqb_refl. }
      split; [exact Hb|]. split; [exact Hid|]. split; [reflexivity|].
      right. exists was. split; reflexivity.
    - eexists (Media.views m), _, []. split; [exact H|].
      assert (forallb (fun v => negb (id_eqb (View.studentId v) studentId)) (Media.views m)
              = true) as Hb.
      { unfold ViewSpec.recordOf in R. clear -R.
        induction (Media.views m) as [|v vs IH]; simpl in *; [reflexivity|].
        destruct (id_eqb (View.studentId v) studentId); [discriminate|]. now apply IH. }
      split.
      { unfold ViewSpec.recordOf. rewrite H. apply find_after_none; [exact Hb|].
        cbn. apply id_eqb_refl. }
      split; [exact Hb|]. split; [reflexivity|]. split; [reflexivity|].
      left. split; reflexivity. }
  assert (forall p t q u,
             exists old new,
               ViewSpec.recordOf studentId (Media.views (Media.addView m studentId (Some p) t))
               = Some old
               /\ Media.addView (Media.addView m studentId (Some p) t) studentId (Some q) u
                  = Media.save_views (Media.addView m studentId (Some p) t)
                      (Media.modify_at
                         (Z.to_nat (Media.findIndex
                                      (fun v => id_eqb (View.studentId v) studentId)
                                      (Media.views (Media.addView m studentId (Some p) t))))
                         (fun v => {| View.studentId := View.studentId v;
                                      View.percentage := Math_max (View.percentage v) q;
                                      View.date := u |})
                         (Media.views (Media.addView m studentId (Some p) t)))
                      u
               /\ ViewSpec.recordOf studentId
                    (Media.views
                       (Media.addView (Media.addView m studentId (Some p) t)
                                      studentId (Some q) u)) = Some new
               /\ View.percentage new = Math_max (View.percentage old) q) as Hsecond.
  { intros p t q u. destruct (Hfirst p t) as [before [old [after [Hv [Hr _]]]]].
    pose proof (addView_cases (Media.addView m studentId (Some p) t) studentId (Some q) u)
      as H. cbv zeta in H. rewrite Hr in H.
    destruct H as [b2 [a2 [Hl2 [Hv2 [Hb2 Hid2]]]]].
    exists old. eexists. split; [exact Hr|]. split.
    { unfold Media.addView at 1.
      pose proof (findIndex_spec (fun v => id_eqb (View.studentId v) studentId)
                    (Media.views (Media.addView m studentId (Some p) t))) as Hf.
      unfold ViewSpec.recordOf in Hr. rewrite Hr in Hf.
      destruct Hf as [b3 [a3 [_ [Hi _]]]]. rewrite Hi.
      destruct (Z.leb_spec 0 (Z.of_nat (List.length b3))); [reflexivity|lia]. }
    split.
    { unfold ViewSpec.recordOf. rewrite Hv2. apply find_after_none; [exact Hb2|].
      cbn. rewrite Hid2. apply id_eqb_refl. }
    reflexivity. }
  split.
  - destruct (Hfirst p1 t1) as [before [old [after [Hv [Hr [Hb [Hid [Hd Hp]]]]]]]].
    destruct (Hsecond p1 t1 p1 t1) as [old' [new [Hr' [E _]]]].
    rewrite E. clear E.
    pose proof (findIndex_spec (fun v => id_eqb (View.studentId v) studentId)
                  (Media.views (Media.addView m studentId (Some p1) t1))) as Hf.
    unfold ViewSpec.recordOf in Hr. rewrite Hr in Hf.
    destruct Hf as [b3 [a3 [Hl3 [Hi _]]]]. rewrite Hi, Nat2Z.id.
    rewrite Hl3 at 1. rewrite modify_at_middle.
    assert ({| View.studentId := View.studentId old;
               View.percentage := Math_max (View.percentage old) p1;
               View.date := t1 |} = old) as ->.
    { destruct old as [sid pc d]. cbn in *. subst d. f_equal.
      destruct Hp as [[_ ->]|[was [_ ->]]].
      - unfold Math_max, Qmax, GenericMinMax.gmax. now destruct (p1 ?= p1).
      - apply Math_max_idem. }
    rewrite <- Hl3. unfold Media.save_views, Media.addView.
    destruct (0 <=? _)%Z; reflexivity.
  - destruct (Hsecond p1 t1 p2 t2) as [o1 [n1 [Ho1 [_ [Hn1 Hp1]]]]].
    destruct (Hsecond p2 t1 p1 t2) as [o2 [n2 [Ho2 [_ [Hn2 Hp2]]]]].
    exists (View.percentage n1), (View.percentage n2).
    unfold MediaFacts.storedPercentage. rewrite Hn1, Hn2.
    split; [reflexivity|]. split; [reflexivity|].
    destruct (Hfirst p1 t1) as [_ [old1 [_ [_ [Hr1 [_ [_ [_ Hq1]]]]]]]].
    destruct (Hfirst p2 t1) as [_ [old2 [_ [_ [Hr2 [_ [_ [_ Hq2]]]]]]]].
    rewrite Hr1 in Ho1. injection Ho1 as <-. rewrite Hr2 in Ho2. injection Ho2 as <-.
    rewrite Hp1, Hp2. unfold Math_max in *.
    destruct Hq1 as [[N1 ->]|[w1 [Hw1 ->]]], Hq2 as [[N2 ->]|[w2 [Hw2 ->]]].
    + split; [apply Q.max_comm|]. split; [apply Q.le_max_l|apply Q.le_max_r].
    + rewrite Hw2 in N1. discriminate.
    + rewrite Hw1 in N2. discriminate.
    + rewrite Hw1 in Hw2. injection Hw2 as <-.
      split.
      { rewrite <- !Q.max_assoc. rewrite (Q.max_comm p1 p2). reflexivity. }
      split; [|apply Q.le_max_r].
      apply Qle_trans with (Qmax (View.percentage w1) p1);
        [apply Q.le_max_r|apply Q.le_max_l].
Qed.

(** ** The range of the overall progress score *)

(** Fewer than [2 ^ 46] values between 0 and 100 add up, in double
    precision, to at most 100 times their number: every bound on the way
    is a whole number below [2 ^ 53], which is a double. *)
Lemma reduce_fadd_from {A} (f : A -> Number) (l : list A) (k : Z) (s : Number) :
  (0 <= k)%Z ->
  (k + Z.of_nat (List.length l) < 2 ^ 46)%Z ->
  (forall x, In x l -> 0 <= f x <= 100) ->
  0 <= s <= inject_Z (100 * k) ->
  0 <= fold_left (fun sum x => fadd sum (f x)) l s
  <= inject_Z (100 * (k + Z.of_nat (List.length l))).
Proof.
  revert k s. induction l as [|x l IH]; intros k s Hk Hn Hf Hs.
  - cbn [fold_left List.length]. now rewrite Z.add_0_r.
  - cbn [fold_left]. cbn [List.length] in Hn |- *. rewrite Nat2Z.inj_succ in Hn |- *.
    replace (k + Z.succ (Z.of_nat (List.length l)))%Z
      with ((k + 1) + Z.of_nat (List.length l))%Z by lia.
    apply IH; [lia|lia|intros y Hy; apply Hf; now right|].
    assert (0 <= f x <= 100) as Hx by (apply Hf; now left).
    unfold fadd. apply double_between.
    + reflexivity.
    + apply double_whole. lia.
    + replace (100 * (k + 1))%Z with (100 * k + 100)%Z by lia.
      rewrite inject_Z_plus. change (inject_Z 100) with 100. lra.
Qed.

(** The mean, in double precision, of fewer than [2 ^ 46] values between
    0 and 100 lies between 0 and 100. *)
Lemma mean_range {A} (f : A -> Number) (l : list A) :
  l <> [] ->
  (Z.of_nat (List.length l) < 2 ^ 46)%Z ->
  (forall x, In x l -> 0 <= f x <= 100) ->
  0 <= fdiv (reduce_fadd f l) (of_nat (List.length l)) <= 100.
Proof.
  intros Hne Hn Hf.
  assert (0 < of_nat (List.length l)) as Hpos
      by (apply of_nat_pos; destruct l; [congruence|simpl; lia]).
  pose proof (reduce_fadd_from f l 0 0 ltac:(lia) Hn Hf ltac:(split; discriminate))
    as [S0 S1].
  fold (reduce_fadd f l) in S0, S1. rewrite Z.add_0_l, inject_Z_mult in S1.
  change (inject_Z 100) with 100 in S1. fold (of_nat (List.length l)) in S1.
  unfold fdiv. apply double_between; [reflexivity|exact double_100|]. split.
  - apply Qle_shift_div_l; [exact Hpos|lra].
  - apply Qle_shift_div_r; [exact Hpos|exact S1].
Qed.

(** One category keeps the running score between 0 and the running
    weight. *)
Lemma addCategory_between {A} (xs : list A) (f : A -> Number) (w : Number)
      (score weight : Number) :
  0 < w -> double w = w ->
  (Z.of_nat (List.length xs) < 2 ^ 46)%Z ->
  (forall x, In x xs -> 0 <= f x <= 100) ->
  0 <= score <= weight ->
  let '(score', weight') := ReportController.addCategory xs f w (score, weight) in
  0 <= score' <= weight'
  /\ (xs <> [] \/ 0 < weight -> 0 < weight').
Proof.
  intros Hw Ew Hn Hx Hs. destruct xs as [|x xs].
  - rewrite addCategory_nil. split; [exact Hs|]. intros [N|P]; [congruence|exact P].
  - unfold ReportController.addCategory.
    pose proof (mean_range f (x :: xs) ltac:(discriminate) Hn Hx) as Hm.
    set (mean := fdiv (reduce_fadd f (x :: xs)) (of_nat (List.length (x :: xs)))) in *.
    assert (0 <= fdiv mean 100 <= 1) as Hu by (apply fdiv_unit; [exact Hm|reflexivity]).
    set (u := fdiv mean 100) in *. clearbody u.
    assert (0 <= fmul u w <= w) as Hc.
    { unfold fmul. apply double_between; [reflexivity|exact Ew|].
      split; [apply Qmult_le_0_compat; lra|].
      rewrite <- (Qmult_1_l w) at 2. apply Qmult_le_compat_r; lra. }
    set (c := fmul u w) in *. clearbody c.
    split; [split|].
    + apply double_nonneg. lra.
    + unfold fadd. apply double_le. lra.
    + intros _. unfold fadd. apply Qlt_le_trans with (double w); [rewrite Ew; exact Hw|].
      apply double_le. lra.
Qed.

(** X19: [calculateOverallProgressScore] is 0 without any row; with rows,
    fewer than [2 ^ 46] of each kind, whose averages all lie between 0 and
    100, it lies between 0 and 100. *)
Theorem calculateOverallProgressScore_between
        (practiceStats : list ReportController.PracticeStat.t)
        (assignmentPerformance : list ReportController.AssignmentPerformance.t)
        (mediaConsumption : list ReportController.MediaConsumption.t) :
  (Z.of_nat (List.length practiceStats) < 2 ^ 46)%Z ->
  (Z.of_nat (List.length assignmentPerformance) < 2 ^ 46)%Z ->
  (Z.of_nat (List.length mediaConsumption) < 2 ^ 46)%Z ->
  (forall r, In r practiceStats ->
             0 <= ReportController.PracticeStat.averageAccuracy r <= 100) ->
  (forall r, In r assignmentPerformance ->
             0 <= ReportController.AssignmentPerformance.averagePercentage r <= 100) ->
  (forall r, In r mediaConsumption ->
             0 <= ReportController.MediaConsumption.averageWatchPercentage r <= 100) ->
  (practiceStats = [] -> assignmentPerformance = [] -> mediaConsumption = [] ->
   ReportController.calculateOverallProgressScore
     practiceStats assignmentPerformance mediaConsumption = 0)
  /\ 0 <= ReportController.calculateOverallProgressScore
            practiceStats assignmentPerformance mediaConsumption
     <= 100.
Proof.
  intros Np Na Nm Hp Ha Hm. split.
  - intros -> -> ->. reflexivity.
  - unfold ReportController.calculateOverallProgressScore.
    pose proof (addCategory_between practiceStats
                  ReportController.PracticeStat.averageAccuracy 40 0 0
                  ltac:(reflexivity) ltac:(vm_compute; reflexivity) Np Hp
                  ltac:(split; discriminate)) as H1.
    destruct (ReportController.addCategory practiceStats _ 40 (0, 0)) as [s1 w1].
    destruct H1 as [H1s H1p].
    pose proof (addCategory_between assignmentPerformance
                  ReportController.AssignmentPerformance.averagePercentage 40 s1 w1
                  ltac:(reflexivity) ltac:(vm_compute; reflexivity) Na Ha H1s) as H2.
    destruct (ReportController.addCategory assignmentPerformance _ 40 (s1, w1)) as [s2 w2].
    destruct H2 as [H2s H2p].
    pose proof (addCategory_between mediaConsumption
                  ReportController.MediaConsumption.averageWatchPercentage 20 s2 w2
                  ltac:(reflexivity) ltac:(vm_compute; reflexivity) Nm Hm H2s) as H3.
    destruct (ReportController.addCategory mediaConsumption _ 20 (s2, w2)) as [s3 w3].
    destruct H3 as [H3s H3p].
    destruct (gt w3 0) eqn:G; [|split; discriminate].
    apply lt_iff in G.
    apply Math_round_range, fmul_100_range, fdiv_unit; assumption.
Qed.

Lemma calculateOverallProgressScore_between_witness :
  0 <= ReportController.calculateOverallProgressScore
         [ProgressSpec.practiceRow 0] [ProgressSpec.assignmentRow 29] []
  <= 100.
Proof.
  refine (proj2 (calculateOverallProgressScore_between
                   [ProgressSpec.practiceRow 0] [ProgressSpec.assignmentRow 29] []
                   _ _ _ _ _ _)).
  - reflexivity.
  - reflexivity.
  - reflexivity.
  - intros r [<-|[]]. split; discriminate.
  - intros r [<-|[]]. split; discriminate.
  - intros r [].
Defined.

(** ** The assignment endpoints *)

Lemma percentageOf_comp (s s' totalPoints : Number) :
  s == s' -> Assignment.percentageOf s totalPoints = Assignment.percentageOf s' totalPoints.
Proof.
  intros E. unfold Assignment.percentageOf. destruct (gt totalPoints 0); [|reflexivity].
  unfold fdiv. rewrite (double_comp (s / totalPoints) (s' / totalPoints)); [reflexivity|].
  now rewrite E.
Qed.

(** X20: what the submit endpoint answers.  A 200 means that the student
    is enrolled in the class of the assignment, that the due date has not
    passed or late submission is allowed, and that the student's one
    entry carries the full automatic score and its percentage
    round(score / totalPoints * 100), quotient and product in double
    precision: neither lateness nor [latePenalty] nor [isPublished] enter.
    For an enrolled student within
    the deadline with at least one answer, the answer is 200 when every
    answered question carries a correct answer and 500 otherwise. *)
Theorem submitAssignment_endpoint
        (assignments : list (ObjectId * Assignment.t)) (classes : list Class.t)
        (assignmentId studentId : ObjectId) (answers : list Answer.t) (now : Date) :
  let response := AssignmentController.submitAssignment
                    true assignments classes assignmentId studentId answers now in
  (forall saved,
      response = AssignmentController.Status200 saved ->
      exists assignment classData new,
        Store.findById assignments assignmentId = Some assignment
        /\ Class.findById classes (Assignment.classId assignment) = Some classData
        /\ Class.includes classData studentId = true
        /\ ((now <= Assignment.dueDate assignment)%Z
            \/ Assignment.allowLateSubmission assignment = true)
        /\ answers <> []
        /\ GradingSpec.submissionsOf studentId (Assignment.submissions saved) = [new]
        /\ Submission.score new
           == total (map (GradingSpec.awarded (Assignment.questions assignment)) answers)
        /\ Submission.percentage new
           = (if gt (Assignment.totalPoints assignment) 0
              then Math_round
                     (fmul (fdiv (total (map (GradingSpec.awarded
                                                (Assignment.questions assignment)) answers))
                                 (Assignment.totalPoints assignment))
                           100)
              else 0)
        /\ Submission.submittedAt new = now)
  /\ (forall assignment classData,
         Store.findById assignments assignmentId = Some assignment ->
         Class.findById classes (Assignment.classId assignment) = Some classData ->
         Class.includes classData studentId = true ->
         (now <= Assignment.dueDate assignment)%Z
         \/ Assignment.allowLateSubmission assignment = true ->
         answers <> [] ->
         (GradingSpec.answerable (Assignment.questions assignment) answers ->
          exists saved, response = AssignmentController.Status200 saved)
         /\ (~ GradingSpec.answerable (Assignment.questions assignment) answers ->
             response = AssignmentController.Status500)).
Proof.
  cbv zeta. unfold AssignmentController.submitAssignment. cbn [negb].
  split.
  - intros saved E.
    destruct (Store.findById assignments assignmentId) as [assignment|] eqn:F;
      [|discriminate].
    destruct (Class.findById classes (Assignment.classId assignment)) as [classData|] eqn:C;
      [|discriminate].
    destruct (Class.includes classData studentId) eqn:I; [|discriminate]. cbn [negb] in E.
    destruct ((Assignment.dueDate assignment <? now)%Z
              && negb (Assignment.allowLateSubmission assignment)) eqn:D; [discriminate|].
    destruct (List.length answers =? 0)%nat eqn:L; [discriminate|].
    destruct (Assignment.submitAssignment assignment studentId answers now)
      as [saved'|] eqn:S; [|discriminate].
    injection E as ->.
    destruct (submitAssignment_normal _ _ _ _ _ S)
      as [_ [new [_ [Hn [_ [_ [_ [_ [Hs [Hp [_ [Ht _]]]]]]]]]]]].
    exists assignment, classData, new.
    split; [reflexivity|]. split; [exact C|]. split; [exact I|]. split.
    { apply andb_false_iff in D as [D|D].
      - left. apply Z.ltb_ge in D. exact D.
      - right. now destruct (Assignment.allowLateSubmission assignment). }
    split.
    { intros ->. discriminate. }
    split; [exact Hn|]. split; [exact Hs|]. split; [|exact Ht].
    rewrite Hp. exact (percentageOf_comp _ _ _ Hs).
  - intros assignment classData -> -> -> D Hne. cbn [negb].
    assert ((Assignment.dueDate assignment <? now)%Z
            && negb (Assignment.allowLateSubmission assignment) = false) as ->.
    { apply andb_false_iff. destruct D as [D| ->]; [left|right; reflexivity].
      now apply Z.ltb_ge. }
    assert ((List.length answers =? 0)%nat = false) as ->.
    { apply Nat.eqb_neq. destruct answers; [congruence|discriminate]. }
    destruct (submitAssignment_cases assignment studentId answers now)
      as [[Hok [new [score [E _]]]]|[Hno E]]; rewrite E.
    + split; [intros _; eexists; reflexivity|]. intros N. contradiction.
    + split; [intros Y; contradiction|]. reflexivity.
Qed.

Lemma filter_nil_find {A} (p : A -> bool) (l : list A) :
  filter p l = [] -> find p l = None.
Proof.
  induction l as [|x l IH]; simpl; [reflexivity|].
  destruct (p x); [discriminate|exact IH].
Qed.

(** X21: what the grade endpoint answers to the teacher of the class: 404
    exactly when the student has no submission, and otherwise 200 with the
    student's first entry graded; it never answers 500.  A score between
    0 and [totalPoints] gives a percentage between 0 and 100. *)
Theorem gradeAssignment_endpoint
        (assignments : list (ObjectId * Assignment.t)) (classes : list Class.t)
        (assignmentId studentId : ObjectId) (score : Number) (feedback : option string)
        (gradedBy : ObjectId) (now : Date)
        (assignment : Assignment.t) (classData : Class.t) :
  Store.findById assignments assignmentId = Some assignment ->
  Class.findById classes (Assignment.classId assignment) = Some classData ->
  Class.teacherId classData = gradedBy ->
  let response := AssignmentController.gradeAssignment
                    true assignments classes assignmentId studentId score feedback
                    gradedBy now in
  (GradingSpec.submissionsOf studentId (Assignment.submissions assignment) = [] ->
   response = AssignmentController.Status404 "Student submission not found")
  /\ (GradingSpec.submissionsOf studentId (Assignment.submissions assignment) <> [] ->
      exists saved new,
        response = AssignmentController.Status200 saved
        /\ find (fun sub => id_eqb (Submission.studentId sub) studentId)
                (Assignment.submissions saved) = Some new
        /\ Submission.score new = score
        /\ Submission.gradedBy new = Some gradedBy
        /\ (0 <= score <= Assignment.totalPoints assignment ->
            0 <= Submission.percentage new <= 100)).
Proof.
  intros F C T. cbv zeta. unfold AssignmentController.gradeAssignment. cbn [negb].
  rewrite F, C, T, id_eqb_refl. cbn [negb].
  set (mine := fun sub => id_eqb (Submission.studentId sub) studentId).
  split.
  - intros N. unfold Assignment.gradeAssignment. fold mine.
    assert (find mine (Assignment.submissions assignment) = None) as ->.
    { apply filter_nil_find. exact N. }
    reflexivity.
  - intros N.
    destruct (find mine (Assignment.submissions assignment)) as [old|] eqn:E.
    + rewrite (gradeAssignment_found _ _ _ _ _ _ old E).
      eexists. exists (Assignment.grade (Assignment.totalPoints assignment) score feedback
                                        gradedBy now old).
      split; [reflexivity|].
      cbn [Assignment.save Assignment.set_submissions Assignment.submissions].
      split.
      { fold mine. apply find_modify_first; [|exact E].
        intros y. reflexivity. }
      split; [reflexivity|]. split; [reflexivity|].
      intros R. cbn [Assignment.grade Submission.percentage].
      now apply percentageOf_range.
    + exfalso. apply N. unfold GradingSpec.submissionsOf. fold mine.
      apply find_none_filter. exact E.
Qed.

Lemma gradeAssignment_endpoint_witness :
  exists saved,
    AssignmentController.gradeAssignment
      true EndpointFacts.assignments [EndpointFacts.signClass] EndpointFacts.quizId
      GradingSpec.bob 4 (Some "Well done") GradingSpec.teacher 1796000000000%Z
    = AssignmentController.Status200 saved.
Proof.
  destruct (proj2 (gradeAssignment_endpoint
                     EndpointFacts.assignments [EndpointFacts.signClass]
                     EndpointFacts.quizId GradingSpec.bob 4 (Some "Well done")
                     GradingSpec.teacher 1796000000000%Z
                     GradingSpec.quiz EndpointFacts.signClass eq_refl eq_refl eq_refl)
                  ltac:(discriminate)) as [saved [new [E _]]].
  exists saved. exact E.
Defined.

(** X22: the two endpoints that read one document with its class
    populated by ['name subject'] never answer 200 or 403: the selection
    leaves [teacherId] out, the access check throws on it, and the answer
    is 500 whenever the document exists, 404 when it does not. *)
Theorem getById_never_succeeds
        (assignments : list (ObjectId * Assignment.t)) (medias : list (ObjectId * Media.t))
        (classes : list Class.t) (id userId : ObjectId) (role : string) :
  (Store.findById assignments id = None ->
   AssignmentController.getAssignmentById assignments classes id userId role
   = AssignmentController.Status404 "Assignment not found")
  /\ (Store.findById assignments id <> None ->
      AssignmentController.getAssignmentById assignments classes id userId role
      = AssignmentController.Status500)
  /\ (Store.findById medias id = None ->
      MediaController.getMediaById medias classes id userId role
      = MediaController.Status404)
  /\ (Store.findById medias id <> None ->
      MediaController.getMediaById medias classes id userId role
      = MediaController.Status500).
Proof.
  assert (forall classId, Populated.denied (Populated.classId classes classId) role userId
                          = None) as Hdenied.
  { intros classId. unfold Populated.classId.
    destruct (Class.findById classes classId); reflexivity. }
  unfold AssignmentController.getAssignmentById, MediaController.getMediaById.
  repeat split.
  - now intros ->.
  - destruct (Store.findById assignments id); [|congruence]. intros _. now rewrite Hdenied.
  - now intros ->.
  - destruct (Store.findById medias id); [|congruence]. intros _. now rewrite Hdenied.
Qed.

(** ** Enrolment *)

Lemma includes_In (c : ClassSchema.t) (studentId : ObjectId) :
  ClassSchema.includes c studentId = true <-> In studentId (ClassSchema.students c).
Proof.
  unfold ClassSchema.includes, Class.includes. cbn [ClassSchema.read Class.students].
  rewrite existsb_exists. split.
  - intros [s [Hs E]]. apply id_eqb_eq in E. now subst.
  - intros H. exists studentId. split; [exact H|apply id_eqb_refl].
Qed.

Lemma includes_false (c : ClassSchema.t) (studentId : ObjectId) :
  ClassSchema.includes c studentId = false <-> ~ In studentId (ClassSchema.students c).
Proof.
  rewrite <- includes_In. destruct (ClassSchema.includes c studentId); split; congruence.
Qed.

Lemma filter_other_In (id : ObjectId) (l : list ObjectId) (x : ObjectId) :
  In x (filter (fun y => negb (id_eqb y id)) l) <-> In x l /\ x <> id.
Proof.
  rewrite filter_In. rewrite negb_true_iff, id_eqb_neq. reflexivity.
Qed.

Lemma filter_other_absent (id : ObjectId) (l : list ObjectId) :
  ~ In id l -> filter (fun y => negb (id_eqb y id)) l = l.
Proof.
  induction l as [|x l IH]; intros H; simpl; [reflexivity|].
  destruct (id_eqb x id) eqn:E.
  - apply id_eqb_eq in E. exfalso. apply H. now left.
  - simpl. f_equal. apply IH. intros Hin. apply H. now right.
Qed.

(** X23: [addStudent] and [removeStudent] on the list of students: the
    student is in the class after the one and out of it after the other,
    nobody else's membership changes, adding twice is adding once, adding
    a newcomer lengthens the list by one and removing them again gives
    the list back, and a list without duplicates stays so. *)
Theorem addStudent_removeStudent (c : ClassSchema.t) (studentId : ObjectId)
        (t1 t2 : Date) :
  ClassSchema.includes (ClassSchema.addStudent c studentId t1) studentId = true
  /\ ClassSchema.includes (ClassSchema.removeStudent c studentId t1) studentId = false
  /\ (forall other, other <> studentId ->
        ClassSchema.includes (ClassSchema.addStudent c studentId t1) other
        = ClassSchema.includes c other
        /\ ClassSchema.includes (ClassSchema.removeStudent c studentId t1) other
           = ClassSchema.includes c other)
  /\ ClassSchema.addStudent (ClassSchema.addStudent c studentId t1) studentId t1
     = ClassSchema.addStudent c studentId t1
  /\ (ClassSchema.includes c studentId = true ->
      ClassSchema.students (ClassSchema.addStudent c studentId t1) = ClassSchema.students c)
  /\ (ClassSchema.includes c studentId = false ->
      ClassSchema.studentCount (ClassSchema.addStudent c studentId t1)
      = S (ClassSchema.studentCount c)
      /\ ClassSchema.students
           (ClassSchema.removeStudent (ClassSchema.addStudent c studentId t1) studentId t2)
         = ClassSchema.students c)
  /\ (NoDup (ClassSchema.students c) ->
      NoDup (ClassSchema.students (ClassSchema.addStudent c studentId t1))
      /\ NoDup (ClassSchema.students (ClassSchema.removeStudent c studentId t1))).
Proof.
  assert (forall x, In x (ClassSchema.students (ClassSchema.addStudent c studentId t1))
                    <-> In x (ClassSchema.students c) \/ x = studentId) as Hadd.
  { intros x. unfold ClassSchema.addStudent.
    destruct (ClassSchema.includes c studentId) eqn:I;
      cbn [negb ClassSchema.save ClassSchema.set_students ClassSchema.students].
    - apply includes_In in I. split; [now left|]. intros [H| ->]; assumption.
    - rewrite in_app_iff. simpl. intuition congruence. }
  assert (forall x, In x (ClassSchema.students (ClassSchema.removeStudent c studentId t1))
                    <-> In x (ClassSchema.students c) /\ x <> studentId) as Hrem.
  { intros x. unfold ClassSchema.removeStudent.
    cbn [ClassSchema.save ClassSchema.set_students ClassSchema.students].
    apply filter_other_In. }
  split; [apply includes_In, Hadd; now right|].
  split; [apply includes_false; rewrite Hrem; tauto|].
  split.
  { intros other Hne. split.
    - destruct (ClassSchema.includes c other) eqn:I.
      + apply includes_In. apply Hadd. left. now apply includes_In.
      + apply includes_false. rewrite Hadd. apply includes_false in I. tauto.
    - destruct (ClassSchema.includes c other) eqn:I.
      + apply includes_In. apply Hrem. split; [now apply includes_In|exact Hne].
      + apply includes_false. rewrite Hrem. apply includes_false in I. tauto. }
  split.
  { assert (ClassSchema.includes (ClassSchema.addStudent c studentId t1) studentId = true)
      as I by (apply includes_In, Hadd; now right).
    unfold ClassSchema.addStudent at 1. rewrite I. cbn [negb].
    unfold ClassSchema.addStudent. destruct (negb (ClassSchema.includes c studentId));
      reflexivity. }
  split.
  { intros I. unfold ClassSchema.addStudent. rewrite I. reflexivity. }
  split.
  { intros I. unfold ClassSchema.studentCount, ClassSchema.removeStudent,
                ClassSchema.addStudent.
    rewrite I. cbn [negb ClassSchema.save ClassSchema.set_students ClassSchema.students].
    split.
    - rewrite length_app. simpl. lia.
    - rewrite filter_app. simpl. rewrite id_eqb_refl. simpl. rewrite app_nil_r.
      apply filter_other_absent. now apply includes_false. }
  intros N. split.
  - unfold ClassSchema.addStudent. destruct (ClassSchema.includes c studentId) eqn:I;
      cbn [negb ClassSchema.save ClassSchema.set_students ClassSchema.students];
      [exact N|].
    apply includes_false in I. apply NoDup_app; [exact N|repeat constructor; intros []|].
    intros x Hx [<-|[]]. contradiction.
  - unfold ClassSchema.removeStudent.
    cbn [ClassSchema.save ClassSchema.set_students ClassSchema.students].
    now apply NoDup_filter.
Qed.

Section ByKey.

Context {A : Type} (key : A -> ObjectId).

Lemma find_key_In (id : ObjectId) (l : list A) (x : A) :
  find (fun y => id_eqb (key y) id) l = Some x -> In x l /\ key x = id.
Proof.
  intros H. apply find_some in H as [H E]. apply id_eqb_eq in E. now split.
Qed.

(** Updating the first document of an id, in a collection whose ids are
    unique. *)
Lemma modify_first_key (id : ObjectId) (f : A -> A) (l : list A) :
  NoDup (map key l) ->
  (forall x, key x = id -> key (f x) = id) ->
  map key (Assignment.modify_first (fun x => id_eqb (key x) id) f l) = map key l
  /\ forall y, In y (Assignment.modify_first (fun x => id_eqb (key x) id) f l)
               <-> (exists x, In x l /\ key x = id /\ y = f x)
                   \/ (In y l /\ key y <> id).
Proof.
  intros N Hf. induction l as [|a l IH]; simpl.
  - split; [reflexivity|]. intros y. split; [intros []|].
    intros [[x [[] _]]|[[] _]].
  - inversion N as [|? ? Ha Nl]; subst. specialize (IH Nl) as [IHm IHi].
    destruct (id_eqb (key a) id) eqn:E.
    + apply id_eqb_eq in E. simpl. split; [now rewrite Hf, E|].
      intros y. split.
      * intros [<-|Hy]; [left; exists a; auto|].
        right. split; [now right|]. intros Ey. apply Ha. rewrite E, <- Ey.
        now apply in_map.
      * intros [[x [[<-|Hx] [Ex ->]]]|[[<-|Hy] Ny]]; [now left| |contradiction|now right].
        exfalso. apply Ha. rewrite E, <- Ex. now apply in_map.
    + apply id_eqb_neq in E. simpl. split; [now rewrite IHm|].
      intros y. rewrite IHi. split.
      * intros [<-|[[x [Hx [Ex ->]]]|[Hy Ny]]]; [right; auto|left; exists x; auto|right; auto].
      * intros [[x [[<-|Hx] [Ex ->]]]|[[<-|Hy] Ny]];
          [contradiction|right; left; exists x; auto|now left|right; right; auto].
Qed.

Lemma filter_key_absent (id : ObjectId) (l : list A) :
  ~ In id (map key l) -> filter (fun x => negb (id_eqb (key x) id)) l = l.
Proof.
  induction l as [|b l IH]; simpl; [reflexivity|]. intros H.
  destruct (id_eqb (key b) id) eqn:Eb.
  - apply id_eqb_eq in Eb. exfalso. apply H. now left.
  - simpl. f_equal. apply IH. intros Hin. apply H. now right.
Qed.

Lemma deleteFirst_key (id : ObjectId) (l : list A) :
  NoDup (map key l) ->
  ClassController.deleteFirst (fun x => id_eqb (key x) id) l
  = filter (fun x => negb (id_eqb (key x) id)) l.
Proof.
  intros N. induction l as [|a l IH]; simpl; [reflexivity|].
  inversion N as [|? ? Ha Nl]; subst.
  destruct (id_eqb (key a) id) eqn:E; simpl; [|now rewrite IH].
  apply id_eqb_eq in E. symmetry. apply filter_key_absent. now rewrite <- E.
Qed.

Lemma NoDup_map_filter (p : A -> bool) (l : list A) :
  NoDup (map key l) -> NoDup (map key (filter p l)).
Proof.
  induction l as [|a l IH]; simpl; [constructor|].
  intros N. inversion N as [|? ? Ha Nl]; subst.
  destruct (p a); [|now apply IH]. simpl. constructor; [|now apply IH].
  intros H. apply Ha. apply in_map_iff in H as [x [E Hx]].
  apply filter_In in Hx as [Hx _]. rewrite <- E. now apply in_map.
Qed.

End ByKey.

Lemma isFull_false (c : ClassSchema.t) :
  (exists k : Z, ClassSchema.maxStudents c == inject_Z k) ->
  ClassController.isFull c = false ->
  of_nat (S (ClassSchema.studentCount c)) <= ClassSchema.maxStudents c.
Proof.
  intros [k Hk] H. unfold ClassController.isFull, ge in H.
  apply negb_false_iff, lt_iff in H. rewrite Hk in *.
  unfold ClassSchema.studentCount, of_nat in *.
  rewrite <- Zlt_Qlt in H. rewrite <- Zle_Qle. lia.
Qed.

(** One enrolment step on both collections: the class [old] becomes
    [new], the student [s] is updated by [f]; [P] tells the direction,
    true for enrolling and false for leaving. *)
Lemma consistent_step (db : ClassController.Db) (old new : ClassSchema.t)
      (s : ObjectId) (f : UserSchema.t -> UserSchema.t) (P : Prop) :
  EnrolmentFacts.consistent db ->
  In old (ClassController.classes db) ->
  ClassSchema._id new = ClassSchema._id old ->
  ClassSchema.maxStudents new = ClassSchema.maxStudents old ->
  NoDup (ClassSchema.students new) ->
  of_nat (ClassSchema.studentCount new) <= ClassSchema.maxStudents new ->
  (forall x, In x (ClassSchema.students new)
             <-> (In x (ClassSchema.students old) /\ x <> s) \/ (x = s /\ P)) ->
  (forall u, UserSchema._id (f u) = UserSchema._id u) ->
  (forall u, NoDup (UserSchema.classIds u) -> NoDup (UserSchema.classIds (f u))) ->
  (forall u id, In id (UserSchema.classIds (f u))
                <-> (In id (UserSchema.classIds u) /\ id <> ClassSchema._id old)
                    \/ (id = ClassSchema._id old /\ P)) ->
  EnrolmentFacts.consistent
    {| ClassController.classes := ClassController.saveClass new (ClassController.classes db);
       ClassController.users := ClassController.findByIdAndUpdate
                                  s f (ClassController.users db) |}.
Proof.
  intros [Hc Hu Hso Hcw Hwc Hco Hts Hle] Hold Eid Emax Nnew Cnew Hstud Hfid Hfnd Hfin.
  destruct (modify_first_key ClassSchema._id (ClassSchema._id new) (fun _ => new)
              (ClassController.classes db) Hc (fun _ _ => eq_refl)) as [Cm Ci].
  destruct (modify_first_key UserSchema._id s f (ClassController.users db) Hu
              (fun x E => eq_trans (Hfid x) E)) as [Um Ui].
  fold (ClassController.saveClass new (ClassController.classes db)) in Cm, Ci.
  fold (ClassController.findByIdAndUpdate s f (ClassController.users db)) in Um, Ui.
  assert (forall c, In c (ClassController.saveClass new (ClassController.classes db)) ->
                    c = new \/ (In c (ClassController.classes db)
                                /\ ClassSchema._id c <> ClassSchema._id old)) as Cc.
  { intros c H. apply Ci in H as [[x [_ [_ ->]]]|[H N]]; [now left|right].
    rewrite <- Eid. now split. }
  assert (forall u, In u (ClassController.findByIdAndUpdate s f (ClassController.users db)) ->
                    (exists u0, In u0 (ClassController.users db)
                                /\ UserSchema._id u0 = s /\ u = f u0)
                    \/ (In u (ClassController.users db) /\ UserSchema._id u <> s)) as Uc.
  { intros u H. now apply Ui in H. }
  constructor; cbn [ClassController.classes ClassController.users].
  - now rewrite Cm.
  - now rewrite Um.
  - intros c H. destruct (Cc c H) as [->|[H' _]]; [exact Nnew|now apply Hso].
  - intros c H. destruct (Cc c H) as [->|[H' _]]; [|now apply Hcw].
    rewrite Emax. now apply Hcw.
  - intros c H. destruct (Cc c H) as [->|[H' _]]; [exact Cnew|now apply Hwc].
  - intros u H. destruct (Uc u H) as [[u0 [H0 [_ ->]]]|[H' _]]; [|now apply Hco].
    apply Hfnd. now apply Hco.
  - intros u c Hu' Hc'.
    destruct (Uc u Hu') as [[u0 [H0 [E0 ->]]]|[Hu0 Nu]];
      destruct (Cc c Hc') as [->|[Hc0 Nc]].
    + rewrite Hfin, Hstud, Hfid, Eid, E0. tauto.
    + rewrite Hfin, Hfid. rewrite <- (Hts u0 c H0 Hc0). tauto.
    + rewrite Eid, Hstud. rewrite (Hts u old Hu0 Hold). tauto.
    + now apply Hts.
  - intros u id Hu' Hid. rewrite Cm.
    destruct (Uc u Hu') as [[u0 [H0 [E0 ->]]]|[Hu0 Nu]]; [|now apply (Hle u)].
    apply Hfin in Hid as [[Hid _]|[-> _]]; [now apply (Hle u0)|].
    now apply in_map.
Qed.

Lemma addToSet_In (id : ObjectId) (u : UserSchema.t) (x : ObjectId) :
  In x (UserSchema.classIds (UserSchema.addToSet id u))
  <-> (In x (UserSchema.classIds u) /\ x <> id) \/ (x = id /\ True).
Proof.
  unfold UserSchema.addToSet.
  destruct (existsb (fun c => id_eqb c id) (UserSchema.classIds u)) eqn:E.
  - apply existsb_exists in E as [c [Hc Ec]]. apply id_eqb_eq in Ec. subst c.
    destruct (String.string_dec x id) as [->|N]; tauto.
  - cbn [UserSchema.set_classIds UserSchema.classIds]. rewrite in_app_iff. simpl.
    destruct (String.string_dec x id) as [->|N]; [tauto|]. intuition congruence.
Qed.

Lemma addToSet_NoDup (id : ObjectId) (u : UserSchema.t) :
  NoDup (UserSchema.classIds u) -> NoDup (UserSchema.classIds (UserSchema.addToSet id u)).
Proof.
  intros N. unfold UserSchema.addToSet.
  destruct (existsb (fun c => id_eqb c id) (UserSchema.classIds u)) eqn:E; [exact N|].
  cbn [UserSchema.set_classIds UserSchema.classIds].
  apply NoDup_app; [exact N|repeat constructor; intros []|].
  intros x Hx [<-|[]].
  assert (existsb (fun c => id_eqb c id) (UserSchema.classIds u) = true) as T.
  { apply existsb_exists. exists id. split; [exact Hx|apply id_eqb_refl]. }
  congruence.
Qed.

Lemma pull_In (id : ObjectId) (u : UserSchema.t) (x : ObjectId) :
  In x (UserSchema.classIds (UserSchema.pull id u))
  <-> (In x (UserSchema.classIds u) /\ x <> id) \/ (x = id /\ False).
Proof.
  unfold UserSchema.pull. cbn [UserSchema.set_classIds UserSchema.classIds].
  rewrite filter_other_In. tauto.
Qed.

Lemma addToSet_id (id : ObjectId) (u : UserSchema.t) :
  UserSchema._id (UserSchema.addToSet id u) = UserSchema._id u.
Proof. unfold UserSchema.addToSet. now destruct (existsb _ _). Qed.

Lemma addStudent_step (db : ClassController.Db) (classData : ClassSchema.t)
      (s : ObjectId) (now : Date) :
  EnrolmentFacts.consistent db ->
  In classData (ClassController.classes db) ->
  ClassSchema.includes classData s = false ->
  ClassController.isFull classData = false ->
  EnrolmentFacts.consistent
    {| ClassController.classes :=
         ClassController.saveClass (ClassSchema.addStudent classData s now)
                                   (ClassController.classes db);
       ClassController.users :=
         ClassController.findByIdAndUpdate
           s (UserSchema.addToSet (ClassSchema._id classData)) (ClassController.users db) |}.
Proof.
  intros C Hin I F.
  assert (ClassSchema.students (ClassSchema.addStudent classData s now)
          = (ClassSchema.students classData ++ [s])%list) as Es.
  { unfold ClassSchema.addStudent. now rewrite I. }
  apply includes_false in I.
  apply (consistent_step db classData _ s _ True C Hin).
  - unfold ClassSchema.addStudent. now destruct (negb _).
  - unfold ClassSchema.addStudent. now destruct (negb _).
  - rewrite Es. apply NoDup_app; [now apply (EnrolmentFacts.students_once db C)
                                 |repeat constructor; intros []|].
    intros x Hx [<-|[]]. contradiction.
  - assert (ClassSchema.maxStudents (ClassSchema.addStudent classData s now)
            = ClassSchema.maxStudents classData) as ->
        by (unfold ClassSchema.addStudent; now destruct (negb _)).
    assert (ClassSchema.studentCount (ClassSchema.addStudent classData s now)
            = S (ClassSchema.studentCount classData)) as ->.
    { unfold ClassSchema.studentCount. rewrite Es, length_app. simpl. lia. }
    apply isFull_false; [now apply (EnrolmentFacts.capacity_whole db C)|exact F].
  - intros x. rewrite Es, in_app_iff. simpl.
    destruct (String.string_dec x s) as [->|N]; [tauto|]. intuition congruence.
  - apply addToSet_id.
  - apply addToSet_NoDup.
  - intros u id. apply addToSet_In.
Qed.

(** X24: the four enrolment endpoints keep the two collections
    consistent: ids stay unique, no class lists a student twice or grows
    beyond its capacity, a student lists a class exactly when the class
    lists the student, and no student lists a class that is gone. *)
Theorem enrolment_consistent
        (toUpperCase : string -> string) (db : ClassController.Db) (validationOk : bool)
        (classCode studentEmail : string) (classId userId studentId : ObjectId)
        (now : Date) :
  EnrolmentFacts.consistent db ->
  EnrolmentFacts.consistent
    (snd (ClassController.joinClassByCode toUpperCase validationOk db classCode
                                          studentId now))
  /\ EnrolmentFacts.consistent
       (snd (ClassController.addStudentToClass validationOk db classId userId
                                               studentEmail now))
  /\ EnrolmentFacts.consistent
       (snd (ClassController.removeStudentFromClass db classId userId studentId now))
  /\ EnrolmentFacts.consistent (snd (ClassController.deleteClass db classId userId)).
Proof.
  intros C.
  assert (forall r, ClassController.isClassTeacher db classId userId = inr r ->
                    In r (ClassController.classes db) /\ ClassSchema._id r = classId) as Ht.
  { intros r. unfold ClassController.isClassTeacher.
    destruct (find _ (ClassController.classes db)) as [c|] eqn:F; [|discriminate].
    destruct (negb _); [discriminate|]. intros [= <-].
    now apply (find_key_In ClassSchema._id) in F. }
  split; [|split; [|split]].
  - unfold ClassController.joinClassByCode.
    destruct (negb validationOk); [exact C|].
    destruct (find _ (ClassController.classes db)) as [classData|] eqn:F; [|exact C].
    apply find_some in F as [Hin _].
    destruct (negb (ClassSchema.isActive classData)); [exact C|].
    destruct (ClassController.isFull classData) eqn:Full; [exact C|].
    destruct (ClassSchema.includes classData studentId) eqn:I; [exact C|].
    cbn [snd]. now apply addStudent_step.
  - unfold ClassController.addStudentToClass.
    destruct (ClassController.isClassTeacher db classId userId) as [r|classData] eqn:T;
      [exact C|].
    destruct (Ht classData eq_refl) as [Hin Eid].
    destruct (negb validationOk); [exact C|].
    destruct (find _ (ClassController.users db)) as [student|]; [|exact C].
    destruct (ClassSchema.includes classData (UserSchema._id student)) eqn:I; [exact C|].
    destruct (ClassController.isFull classData) eqn:Full; [exact C|].
    cbn [snd]. rewrite <- Eid. now apply addStudent_step.
  - unfold ClassController.removeStudentFromClass.
    destruct (ClassController.isClassTeacher db classId userId) as [r|classData] eqn:T;
      [exact C|].
    destruct (Ht classData eq_refl) as [Hin Eid].
    destruct (ClassSchema.includes classData studentId) eqn:I; [|exact C].
    cbn [negb snd].
    apply (consistent_step db classData _ studentId _ False C Hin).
    + reflexivity.
    + reflexivity.
    + unfold ClassSchema.removeStudent.
      cbn [ClassSchema.save ClassSchema.set_students ClassSchema.students].
      apply NoDup_filter. now apply (EnrolmentFacts.students_once db C).
    + unfold ClassSchema.removeStudent, ClassSchema.studentCount.
      cbn [ClassSchema.save ClassSchema.set_students ClassSchema.students
           ClassSchema.maxStudents].
      apply Qle_trans with (of_nat (ClassSchema.studentCount classData));
        [|now apply (EnrolmentFacts.within_capacity db C)].
      apply of_nat_le. apply filter_length_le.
    + intros x. unfold ClassSchema.removeStudent.
      cbn [ClassSchema.save ClassSchema.set_students ClassSchema.students].
      rewrite filter_other_In. tauto.
    + reflexivity.
    + intros u N. unfold UserSchema.pull.
      cbn [UserSchema.set_classIds UserSchema.classIds]. now apply NoDup_filter.
    + intros u id. apply pull_In.
  - unfold ClassController.deleteClass.
    destruct (ClassController.isClassTeacher db classId userId) as [r|classData] eqn:T;
      [exact C|].
    cbn [snd]. destruct C as [Hc Hu Hso Hcw Hwc Hco Hts Hle].
    rewrite (deleteFirst_key ClassSchema._id classId _ Hc).
    set (g := fun u => if existsb (fun c => id_eqb c classId) (UserSchema.classIds u)
                       then UserSchema.pull classId u else u).
    assert (forall u, UserSchema._id (g u) = UserSchema._id u) as Gid.
    { intros u. unfold g. now destruct (existsb _ _). }
    assert (forall u x, In x (UserSchema.classIds (g u))
                        <-> In x (UserSchema.classIds u) /\ x <> classId) as Gin.
    { intros u x. unfold g.
      destruct (existsb (fun c => id_eqb c classId) (UserSchema.classIds u)) eqn:E.
      - rewrite pull_In. tauto.
      - split; [|tauto]. intros H. split; [exact H|]. intros ->.
        assert (existsb (fun c => id_eqb c classId) (UserSchema.classIds u) = true) as T'.
        { apply existsb_exists. exists classId. split; [exact H|apply id_eqb_refl]. }
        congruence. }
    constructor; cbn [ClassController.classes ClassController.users].
    + now apply NoDup_map_filter.
    + rewrite map_map. erewrite map_ext; [exact Hu|]. exact Gid.
    + intros c H. apply filter_In in H as [H _]. now apply Hso.
    + intros c H. apply filter_In in H as [H _]. now apply Hcw.
    + intros c H. apply filter_In in H as [H _]. now apply Hwc.
    + intros u H. apply in_map_iff in H as [u0 [<- H0]]. unfold g.
      destruct (existsb _ _); [|now apply Hco].
      unfold UserSchema.pull. cbn [UserSchema.set_classIds UserSchema.classIds].
      apply NoDup_filter. now apply Hco.
    + intros u c Hu' Hc'. apply in_map_iff in Hu' as [u0 [<- H0]].
      apply filter_In in Hc' as [Hc0 Nc]. apply negb_true_iff, id_eqb_neq in Nc.
      rewrite Gin, Gid. rewrite <- (Hts u0 c H0 Hc0). tauto.
    + intros u id Hu' Hid. apply in_map_iff in Hu' as [u0 [<- H0]].
      apply Gin in Hid as [Hid N]. specialize (Hle u0 id H0 Hid).
      apply in_map_iff in Hle as [c [E Hc0]]. apply in_map_iff. exists c.
      split; [exact E|]. apply filter_In. split; [exact Hc0|].
      apply negb_true_iff, id_eqb_neq. now rewrite E.
Qed.

Lemma school_consistent : EnrolmentFacts.consistent EnrolmentFacts.school.
Proof.
  constructor; cbn [EnrolmentFacts.school ClassController.classes ClassController.users].
  - repeat constructor. intros [].
  - constructor; [intros [H|[]]; discriminate|]. repeat constructor. intros [].
  - intros c [<-|[]]. repeat constructor. intros [].
  - intros c [<-|[]]. exists 2%Z. reflexivity.
  - intros c [<-|[]]. discriminate.
  - intros u [<-|[<-|[]]]; repeat constructor. intros [].
  - intros u c [<-|[<-|[]]] [<-|[]]; simpl; intuition discriminate.
  - intros u id [<-|[<-|[]]]; simpl; intuition.
Qed.

Lemma enrolment_consistent_witness :
  fst (ClassController.joinClassByCode
         EnrolmentFacts.sameCode true EnrolmentFacts.school "AB12CD"
         (UserSchema._id EnrolmentFacts.ben) 1795000000000%Z)
  = ClassController.Status200
  /\ EnrolmentFacts.consistent
       (snd (ClassController.joinClassByCode
               EnrolmentFacts.sameCode true EnrolmentFacts.school "AB12CD"
               (UserSchema._id EnrolmentFacts.ben) 1795000000000%Z)).
Proof.
  split; [reflexivity|].
  exact (proj1 (enrolment_consistent
                  EnrolmentFacts.sameCode EnrolmentFacts.school true
                  "AB12CD" "ben@example.org" (ClassSchema._id EnrolmentFacts.beginners)
                  (ClassSchema.teacherId EnrolmentFacts.beginners)
                  (UserSchema._id EnrolmentFacts.ben) 1795000000000%Z
                  school_consistent)).
Defined.

(** ** Paging *)

Lemma Math_ceil_unique (x : Number) (k : Z) :
  inject_Z (k - 1) < x -> x <= inject_Z k -> Pagination.Math_ceil x = inject_Z k.
Proof.
  intros Hlo Hhi. unfold Pagination.Math_ceil. f_equal.
  pose proof (Qle_ceiling x) as H1. pose proof (Qceiling_lt x) as H2.
  assert (inject_Z (k - 1) < inject_Z (Qceiling x)) as A by lra.
  assert (inject_Z (Qceiling x - 1) < inject_Z k) as B by lra.
  rewrite <- Zlt_Qlt in A, B. lia.
Qed.

Lemma pages_count (total : nat) (limit : positive) :
  Pagination.pages total limit
  = of_nat ((total + Pos.to_nat limit - 1) / Pos.to_nat limit).
Proof.
  unfold Pagination.pages. pose proof (Pos2Nat.is_pos limit) as HL.
  set (L := Pos.to_nat limit) in *.
  set (n := ((total + L - 1) / L)%nat).
  assert (n * L < total + L /\ total <= n * L)%nat as [H1 H2].
  { subst n. pose proof (Nat.div_mod_eq (total + L - 1) L) as D.
    pose proof (Nat.mod_upper_bound (total + L - 1) L ltac:(lia)) as M. nia. }
  assert (0 < of_nat L) as Lpos by (apply of_nat_pos; exact HL).
  unfold of_nat at 3. apply Math_ceil_unique.
  - apply Qlt_shift_div_l; [exact Lpos|]. unfold of_nat.
    rewrite <- inject_Z_mult, <- Zlt_Qlt. nia.
  - apply Qle_shift_div_r; [exact Lpos|]. unfold of_nat.
    rewrite <- inject_Z_mult, <- Zle_Qle. nia.
Qed.

Lemma chunks_concat {A} (L n : nat) (l : list A) :
  (List.length l <= n * L)%nat ->
  List.concat (map (fun i => firstn L (skipn (i * L) l)) (seq 0 n)) = l.
Proof.
  revert l. induction n as [|n IH]; intros l H.
  - simpl in *. destruct l; [reflexivity|simpl in H; lia].
  - cbn [seq map List.concat]. rewrite <- seq_shift, map_map. cbn [Nat.mul skipn].
    erewrite map_ext with (g := fun i => firstn L (skipn (i * L) (skipn L l))).
    + rewrite IH; [apply firstn_skipn|]. rewrite length_skipn. lia.
    + intros i. f_equal. cbn [Nat.mul]. rewrite Nat.add_comm. now rewrite skipn_skipn.
Qed.

(** X25: the pages of a list endpoint partition its matches: the page
    count is the whole number of pages needed, pages 1 to that number
    put together are the sorted matches, each of them holds at least one
    and at most [limit] documents, and every later page is empty. *)
Theorem pagination_partition {A} (sorted : list A) (limit : positive) :
  exists n : nat,
    Pagination.pages (List.length sorted) limit = of_nat n
    /\ List.concat (map (fun page => Pagination.results sorted (Pos.of_nat page) limit)
                   (seq 1 n)) = sorted
    /\ (forall page, (Pos.to_nat page <= n)%nat ->
                     Pagination.results sorted page limit <> [])
    /\ (forall page, (n < Pos.to_nat page)%nat ->
                     Pagination.results sorted page limit = [])
    /\ (forall page, (List.length (Pagination.results sorted page limit)
                      <= Pos.to_nat limit)%nat).
Proof.
  pose proof (Pos2Nat.is_pos limit) as HL.
  exists ((List.length sorted + Pos.to_nat limit - 1) / Pos.to_nat limit)%nat.
  split; [apply pages_count|].
  unfold Pagination.results, Pagination.skip.
  set (L := Pos.to_nat limit) in *. set (T := List.length sorted).
  set (n := ((T + L - 1) / L)%nat).
  assert (n * L < T + L /\ T <= n * L)%nat as [H1 H2].
  { subst n. pose proof (Nat.div_mod_eq (T + L - 1) L) as D.
    pose proof (Nat.mod_upper_bound (T + L - 1) L ltac:(lia)) as M. nia. }
  split; [|split; [|split]].
  - rewrite <- seq_shift, map_map.
    erewrite map_ext with (g := fun i => firstn L (skipn (i * L) sorted)).
    + now apply chunks_concat.
    + intros i. rewrite Nat2Pos.id by discriminate. do 2 f_equal. lia.
  - intros page Hp E. pose proof (Pos2Nat.is_pos page) as Hpage.
    apply (f_equal (@List.length A)) in E.
    rewrite length_firstn, length_skipn in E. fold T in E. simpl in E. nia.
  - intros page Hp. rewrite skipn_all2; [now rewrite firstn_nil|]. fold T. nia.
  - intros page. rewrite length_firstn. lia.
Qed.

(** ** The window never starts after its end *)

(** X26: on a server whose zone has no clock changes, for a date whose
    local time is after the epoch, the window of every endpoint, for every
    period token, starts at or before [now] and less than 367 days before
    it: the range [{ start, end: now }] is never empty or inverted. *)
Theorem window_within_a_year (offset : Z) (e : WindowSpec.Endpoint) (period : string)
        (now : Date) :
  (0 <= LocalTime (fixedZone offset) now ->
   now - 367 * msPerDay < WindowSpec.startDate (fixedZone offset) e period now <= now)%Z.
Proof.
  intros Hnow. set (zone := fixedZone offset) in *.
  pose proof (startOfYear_fields offset now Hnow) as [_ [_ [_ [_ Hy]]]].
  pose proof (startOfMonth_fields offset now Hnow) as [_ [_ [_ [_ Hm]]]].
  pose proof (startOfDay_bounds offset now) as Hd.
  fold zone in Hy, Hm, Hd.
  rewrite <- (Date_ymd_of_year zone now Hnow) in Hy.
  assert (Date_ymd zone (getFullYear zone now) (getMonth zone now) 1
          = WindowSpec.startOfMonth zone now) as Emonth.
  { rewrite (Date_ymd_of_fields zone now 1 Hnow). unfold WindowSpec.startOfMonth.
    f_equal. lia. }
  assert (Date_ymd zone (getFullYear zone now) (getMonth zone now) (getDate zone now)
          = WindowSpec.startOfDay zone now) as Eday.
  { rewrite (Date_ymd_of_fields zone now _ Hnow). unfold WindowSpec.startOfDay.
    f_equal. lia. }
  rewrite <- Emonth in Hm. rewrite <- Eday in Hd. clear Emonth Eday.
  destruct e; cbn [WindowSpec.startDate];
    unfold ReportController.getStudentProgressReport_startDate,
           ReportController.getClassAnalytics_startDate,
           PracticeController.getPracticeStats_startDate,
           PracticeController.getStudentPracticeAnalytics_startDate;
    split_ifs; unfold daysAgo, getTime, msPerDay in *; lia.
Qed.

(** X26 on a server in India at 2026-10-31T20:00:00Z. *)
Lemma window_within_a_year_witness :
  (WindowSpec.startDate WindowSpec.ist WindowSpec.PracticeStats "year"
                        WindowSpec.sampleEvening
   <= WindowSpec.sampleEvening)%Z.
Proof.
  refine (proj2 (window_within_a_year 19800000 WindowSpec.PracticeStats "year"
                   WindowSpec.sampleEvening _)).
  discriminate.
Defined.

(** ** Updating an assignment *)

(** X27: [updateAssignment] keeps [totalPoints] and the submissions,
    also when it replaces the questions: a submission made after the
    update is scored on the new questions, and its percentage,
    round(score / totalPoints * 100) with quotient and product in double
    precision, is taken of the total of the questions before the
    update. *)
Theorem updateAssignment_keeps_totalPoints
        (newId : nat -> ObjectId) (assignments : list (ObjectId * Assignment.t))
        (classes : list Class.t) (assignmentId userId : ObjectId)
        (body : AssignmentController.UpdateBody) (now : Date) (updated : Assignment.t) :
  AssignmentController.updateAssignment true newId assignments classes assignmentId
                                        userId body now
  = AssignmentController.Status200 updated ->
  exists assignment,
    Store.findById assignments assignmentId = Some assignment
    /\ Assignment.totalPoints updated = Assignment.totalPoints assignment
    /\ Assignment.submissions updated = Assignment.submissions assignment
    /\ (forall q qs,
           AssignmentController.questions body = Some (q :: qs) ->
           Assignment.questions updated
           = AssignmentController.processQuestions newId (q :: qs))
    /\ (forall studentId answers submitted saved new,
           Assignment.submitAssignment updated studentId answers submitted = Normal saved ->
           GradingSpec.submissionsOf studentId (Assignment.submissions saved) = [new] ->
           Submission.score new
           == total (map (GradingSpec.awarded (Assignment.questions updated)) answers)
           /\ Submission.percentage new
              = (if gt (Assignment.totalPoints assignment) 0
                 then Math_round
                        (fmul (fdiv (Submission.score new)
                                    (Assignment.totalPoints assignment))
                              100)
                 else 0)).
Proof.
  unfold AssignmentController.updateAssignment. cbn [negb].
  destruct (Store.findById assignments assignmentId) as [assignment|]; [|discriminate].
  destruct (Class.findById classes (Assignment.classId assignment)) as [classData|];
    [|discriminate].
  destruct (negb (id_eqb (Class.teacherId classData) userId)); [discriminate|].
  intros [= <-]. exists assignment.
  split; [reflexivity|]. split; [reflexivity|]. split; [reflexivity|].
  split.
  { intros q qs E. cbn [AssignmentController.updated Assignment.questions].
    now rewrite E. }
  intros studentId answers submitted saved new S Hnew.
  destruct (submitAssignment_normal _ _ _ _ _ S)
    as [_ [new' [_ [Hn [_ [_ [_ [_ [Hs [Hp _]]]]]]]]]].
  rewrite Hn in Hnew. injection Hnew as <-. split; [exact Hs|exact Hp].
Qed.

Lemma updateAssignment_keeps_totalPoints_witness :
  exists updated saved new,
    AssignmentController.updateAssignment
      true EndpointFacts.newId EndpointFacts.assignments [EndpointFacts.signClass]
      EndpointFacts.quizId GradingSpec.teacher EndpointFacts.harderQuiz 1795000000000%Z
    = AssignmentController.Status200 updated
    /\ Assignment.submitAssignment updated GradingSpec.alice
         [GradingSpec.answerTo "n1" "Ana"] 1796000000000%Z = Normal saved
    /\ GradingSpec.submissionsOf GradingSpec.alice (Assignment.submissions saved) = [new]
    /\ Submission.score new == 10
    /\ Submission.percentage new = Math_round (fmul (fdiv (Submission.score new) 5) 100)
    /\ Submission.percentage new == 200.
Proof.
  eexists. eexists. eexists.
  split; [reflexivity|]. split; [reflexivity|]. split; [reflexivity|].
  destruct (updateAssignment_keeps_totalPoints
              EndpointFacts.newId EndpointFacts.assignments [EndpointFacts.signClass]
              EndpointFacts.quizId GradingSpec.teacher EndpointFacts.harderQuiz
              1795000000000%Z _ eq_refl)
    as [assignment [F [_ [_ [_ H]]]]].
  injection F as <-.
  destruct (H GradingSpec.alice [GradingSpec.answerTo "n1" "Ana"] 1796000000000%Z
              _ _ eq_refl eq_refl) as [Hs Hp].
  split; [reflexivity|]. split; [exact Hp|reflexivity].
Defined.
